(** * bindings/cpp_generator.py: the declaration-to-model transformation

    A shallow embedding of [parse] and of the classes it builds
    ([FunctionParameter], [Function], [GlobalFunction], [Method], [Class],
    [FunctionTypedef], [Namespace]), with the properties of the binding
    model proved over it.

    Python strings are [string]s, character by character for the ASCII
    names of a C header; the clang cursor is a record of the attributes
    the generator reads; an [IndexError] is a value of [Result];
    the class objects shared between the local list [classes] and the
    namespaces live in a heap addressed by position. *)

From Stdlib Require Import String Ascii List ZArith DecimalString Lia Bool Arith.
Import ListNotations.
Open Scope string_scope.
Set Warnings "-register-all".

(* ================================================================= *)
(** ** Python string methods used by the generator *)

Module PyStr.

(** [s.startswith(p)] *)
Fixpoint startswith (s p : string) {struct p} : bool :=
  match p with
  | EmptyString => true
  | String a p' =>
      match s with
      | EmptyString => false
      | String b s' => Ascii.eqb a b && startswith s' p'
      end
  end.

(** [s[n:]] *)
Fixpoint drop (n : nat) (s : string) : string :=
  match n, s with
  | O, _ => s
  | S _, EmptyString => EmptyString
  | S k, String _ s' => drop k s'
  end.

(** [s[:n]] *)
Fixpoint take (n : nat) (s : string) : string :=
  match n, s with
  | O, _ => EmptyString
  | S _, EmptyString => EmptyString
  | S k, String c s' => String c (take k s')
  end.

(** [s.endswith(p)] *)
Definition endswith (s p : string) : bool :=
  (String.length p <=? String.length s)%nat
  && String.eqb (drop (String.length s - String.length p) s) p.

(** The scan of [s.replace(old, new)] for a non-empty [old]: left to
    right, occurrences do not overlap; [skip] counts the characters of a
    matched occurrence still to be passed over. *)
Fixpoint replace_scan (old new : string) (skip : nat) (s : string) : string :=
  match s with
  | EmptyString => EmptyString
  | String c s' =>
      match skip with
      | S k => replace_scan old new k s'
      | O =>
          if startswith s old
          then new ++ replace_scan old new (String.length old - 1) s'
          else String c (replace_scan old new 0 s')
      end
  end.

(** With an empty [old], Python inserts [new] before every character and
    at the end. *)
Fixpoint intersperse (new : string) (s : string) : string :=
  match s with
  | EmptyString => new
  | String c s' => new ++ String c (intersperse new s')
  end.

(** [s.replace(old, new)] *)
Definition replace (s old new : string) : string :=
  match old with
  | EmptyString => intersperse new s
  | _ => replace_scan old new 0 s
  end.

Fixpoint count_scan (sub : string) (skip : nat) (s : string) : nat :=
  match s with
  | EmptyString => 0
  | String c s' =>
      match skip with
      | S k => count_scan sub k s'
      | O =>
          if startswith s sub
          then S (count_scan sub (String.length sub - 1) s')
          else count_scan sub 0 s'
      end
  end.

(** [s.count(sub)]: non-overlapping occurrences ([len(s) + 1] for an
    empty [sub]). *)
Definition count (s sub : string) : nat :=
  match sub with
  | EmptyString => S (String.length s)
  | _ => count_scan sub 0 s
  end.

(** The characters [str.strip()] removes, within ASCII. *)
Definition isspace (c : ascii) : bool :=
  let n := nat_of_ascii c in
  ((9 <=? n) && (n <=? 13) || (28 <=? n) && (n <=? 32))%nat.

Fixpoint lstrip (s : string) : string :=
  match s with
  | EmptyString => EmptyString
  | String c s' => if isspace c then lstrip s' else s
  end.

Fixpoint rstrip (s : string) : string :=
  match s with
  | EmptyString => EmptyString
  | String c s' =>
      match rstrip s' with
      | EmptyString => if isspace c then EmptyString else String c EmptyString
      | r => String c r
      end
  end.

(** [s.strip()] *)
Definition strip (s : string) : string := rstrip (lstrip s).

(** [s.split(sep, maxsplit)] for a one-character separator. *)
Fixpoint split (sep : ascii) (maxsplit : nat) (s : string) : list string :=
  match s with
  | EmptyString => [EmptyString]
  | String c s' =>
      match maxsplit with
      | O => [s]
      | S m =>
          if Ascii.eqb c sep then EmptyString :: split sep m s'
          else
            match split sep maxsplit s' with
            | h :: t => String c h :: t
            | [] => [String c EmptyString]
            end
      end
  end.

(** [sep.join(l)] *)
Definition join (sep : string) (l : list string) : string := String.concat sep l.

(** ['%d' % n] *)
Definition of_nat (n : nat) : string := NilEmpty.string_of_uint (Nat.to_uint n).
Definition of_Z (z : Z) : string := NilZero.string_of_int (Z.to_int z).

(** [x in l] for a list of strings *)
Definition mem (x : string) (l : list string) : bool := existsb (String.eqb x) l.

(** Truth value of a string, and of a variable that holds [None] (or
    [False]) or a string. *)
Definition truthy (s : string) : bool := negb (String.eqb s EmptyString).
Definition truthy_opt (o : option string) : bool :=
  match o with
  | Some s => truthy s
  | None => false
  end.

End PyStr.

(* ================================================================= *)
(** ** Exceptions *)

Inductive PyError : Type :=
| IndexError.

Inductive Result (A : Type) : Type :=
| Ok (a : A)
| Raise (e : PyError).
Arguments Ok {A} a.
Arguments Raise {A} e.

Definition bind {A B : Type} (r : Result A) (k : A -> Result B) : Result B :=
  match r with
  | Ok a => k a
  | Raise e => Raise e
  end.

Notation "x <- c ;; k" := (bind c (fun x => k))
  (at level 61, c at next level, right associativity).

(** [l[i]] *)
Definition index {A : Type} (l : list A) (i : nat) : Result A :=
  match nth_error l i with
  | Some a => Ok a
  | None => Raise IndexError
  end.

(** [l[-1]] *)
Definition index_last {A : Type} (l : list A) : Result A :=
  match rev l with
  | a :: _ => Ok a
  | [] => Raise IndexError
  end.

(* ================================================================= *)
(** ** The clang cursor, as far as the generator reads it *)

Inductive CursorKind : Type :=
| FUNCTION_DECL
| TYPEDEF_DECL
| ENUM_DECL
| TYPE_REF
| PARM_DECL
| STRUCT_DECL
| VAR_DECL
| OTHER_DECL.

Definition CursorKind_eqb (a b : CursorKind) : bool :=
  match a, b with
  | FUNCTION_DECL, FUNCTION_DECL | TYPEDEF_DECL, TYPEDEF_DECL
  | ENUM_DECL, ENUM_DECL | TYPE_REF, TYPE_REF | PARM_DECL, PARM_DECL
  | STRUCT_DECL, STRUCT_DECL | VAR_DECL, VAR_DECL | OTHER_DECL, OTHER_DECL => true
  | _, _ => false
  end.

(** A clang type: its spelling, and for [TypeKind.CONSTANTARRAY] the element
    type and the element count. *)
Inductive CType : Type :=
| Plain (spelling : string)
| ConstantArray (spelling : string) (element_type : CType) (element_count : Z).

Definition type_spelling (t : CType) : string :=
  match t with
  | Plain s => s
  | ConstantArray s _ _ => s
  end.

Inductive Cursor : Type :=
| mkCursor (kind : CursorKind) (spelling : string)
           (type_ : CType) (result_type : CType)
           (brief_comment raw_comment : option string)
           (arguments children : list Cursor).

Definition kind (c : Cursor) : CursorKind :=
  let 'mkCursor k _ _ _ _ _ _ _ := c in k.
Definition spelling (c : Cursor) : string :=
  let 'mkCursor _ s _ _ _ _ _ _ := c in s.
Definition type_ (c : Cursor) : CType :=
  let 'mkCursor _ _ t _ _ _ _ _ := c in t.
Definition result_type (c : Cursor) : CType :=
  let 'mkCursor _ _ _ r _ _ _ _ := c in r.
Definition brief_comment (c : Cursor) : option string :=
  let 'mkCursor _ _ _ _ b _ _ _ := c in b.
Definition raw_comment (c : Cursor) : option string :=
  let 'mkCursor _ _ _ _ _ r _ _ := c in r.
Definition get_arguments (c : Cursor) : list Cursor :=
  let 'mkCursor _ _ _ _ _ _ a _ := c in a.
Definition get_children (c : Cursor) : list Cursor :=
  let 'mkCursor _ _ _ _ _ _ _ ch := c in ch.

(* ================================================================= *)
(** ** Constants *)

Definition CONSTRUCTER_SUFFIX : string := "_Create".
Definition DESTRUCTER_SUFFIX : string := "_Destroy".

Definition get_type (t : CType) : string :=
  if String.eqb (type_spelling t) "_Bool" then "bool" else type_spelling t.

(* ================================================================= *)
(** ** The classes of the generator *)

Module FunctionParameter.

Record t : Type := mk {
  type : string;
  element_count : Z;
  name : string
}.

Definition plain_type (self : t) : string :=
  PyStr.strip (PyStr.replace (type self) "*" "").

Definition argument (self : t) : string := name self.

Definition parameter (self : t) : string :=
  let array :=
    if Z.eqb (element_count self) 0 then ""
    else "[" ++ PyStr.of_Z (element_count self) ++ "]" in
  type self ++ " " ++ name self ++ array.

End FunctionParameter.

Definition FunctionParameter_init (cursor : Cursor) : FunctionParameter.t :=
  match type_ cursor with
  | ConstantArray _ element_type element_count =>
      FunctionParameter.mk (get_type element_type) element_count (spelling cursor)
  | Plain _ =>
      FunctionParameter.mk (get_type (type_ cursor)) 0 (spelling cursor)
  end.

Module Function.

Record t : Type := mk {
  original_function : string;
  result_type : string;
  brief_comment : option string;
  raw_comment : option string;
  namespace : string;
  type : string;
  name : string;
  is_const : bool;
  with_exception : bool;
  parameters : list FunctionParameter.t
}.

Definition is_constructor (self : t) : bool :=
  PyStr.endswith (original_function self) CONSTRUCTER_SUFFIX.

Definition is_destructor (self : t) : bool :=
  PyStr.endswith (original_function self) DESTRUCTER_SUFFIX.

End Function.

Definition Function_init (cursor : Cursor) : Result Function.t :=
  let result_type0 := get_type (result_type cursor) in
  let token := PyStr.split "_" 2 (spelling cursor) in
  token0 <- index token 0 ;;
  token1 <- index token 1 ;;
  let status := String.eqb result_type0 "natsStatus" in
  Ok (Function.mk
        (spelling cursor)
        (if status then "void" else result_type0)
        (brief_comment cursor)
        (raw_comment cursor)
        (PyStr.take 4 token0)
        (PyStr.drop 4 token0)
        token1
        false
        status
        (map FunctionParameter_init (get_arguments cursor))).

(** [FunctionProxy]: the properties shared by [GlobalFunction] and
    [Method]; the two subclasses supply [arguments_] and [parameters_]. *)
Module FunctionProxy.

Definition invocation (function : Function.t) (arguments_ : list string) : string :=
  let ret := Function.original_function function
             ++ "(" ++ PyStr.join ", " arguments_ ++ ")" in
  if Function.with_exception function
  then "Exception::CheckResult(" ++ ret ++ ")"
  else ret.

End FunctionProxy.

Module GlobalFunction.

Record t : Type := mk {
  function : Function.t;
  arguments_ : list string;
  parameters_ : list string
}.

Definition namespace (self : t) : string := Function.namespace (function self).
Definition name (self : t) : string := Function.name (function self).
Definition original_function (self : t) : string :=
  Function.original_function (function self).
Definition with_exception (self : t) : bool :=
  Function.with_exception (function self).
Definition result_type (self : t) : string := Function.result_type (function self).
Definition arguments (self : t) : string := PyStr.join ", " (arguments_ self).
Definition parameters (self : t) : string := PyStr.join ", " (parameters_ self).
Definition invocation (self : t) : string :=
  FunctionProxy.invocation (function self) (arguments_ self).

End GlobalFunction.

Definition GlobalFunction_init (function : Function.t) : GlobalFunction.t :=
  GlobalFunction.mk function
    (map FunctionParameter.argument (Function.parameters function))
    (map FunctionParameter.parameter (Function.parameters function)).

Module Method.

(** [temporary_object] is [False] ([None] here) or a string; [is_const]
    is an attribute that exists only once a receiver has set it. *)
Record t : Type := mk {
  function : Function.t;
  arguments_ : list string;
  parameters_ : list string;
  forward_arguments_ : list string;
  forward_parameters_ : list string;
  is_constructor : bool;
  is_destructor : bool;
  temporary_object : option string;
  template_parameter_ : list string;
  is_const : option bool
}.

Definition namespace (self : t) : string := Function.namespace (function self).
Definition name (self : t) : string := Function.name (function self).
Definition original_function (self : t) : string :=
  Function.original_function (function self).
Definition with_exception (self : t) : bool :=
  Function.with_exception (function self).
Definition arguments (self : t) : string := PyStr.join ", " (arguments_ self).
Definition parameters (self : t) : string := PyStr.join ", " (parameters_ self).
Definition invocation (self : t) : string :=
  FunctionProxy.invocation (function self) (arguments_ self).

Definition result_type (self : t) : string :=
  if PyStr.truthy_opt (temporary_object self)
  then match temporary_object self with Some s => s | None => "" end
  else Function.result_type (function self).

Definition forward_arguments (self : t) : string :=
  PyStr.join ", " (forward_arguments_ self).
Definition forward_parameters (self : t) : string :=
  PyStr.join ", " (forward_parameters_ self).
Definition template_parameter (self : t) : string :=
  PyStr.join ", " (template_parameter_ self).

(* attribute assignments and list appends *)
Definition set_is_constructor (b : bool) (m : t) : t :=
  mk (function m) (arguments_ m) (parameters_ m) (forward_arguments_ m)
     (forward_parameters_ m) b (is_destructor m) (temporary_object m)
     (template_parameter_ m) (is_const m).
Definition set_is_const (b : bool) (m : t) : t :=
  mk (function m) (arguments_ m) (parameters_ m) (forward_arguments_ m)
     (forward_parameters_ m) (is_constructor m) (is_destructor m)
     (temporary_object m) (template_parameter_ m) (Some b).
Definition set_temporary_object (s : string) (m : t) : t :=
  mk (function m) (arguments_ m) (parameters_ m) (forward_arguments_ m)
     (forward_parameters_ m) (is_constructor m) (is_destructor m)
     (Some s) (template_parameter_ m) (is_const m).
Definition append_argument (a : string) (m : t) : t :=
  mk (function m) (arguments_ m ++ [a]) (parameters_ m) (forward_arguments_ m)
     (forward_parameters_ m) (is_constructor m) (is_destructor m)
     (temporary_object m) (template_parameter_ m) (is_const m).
Definition append_parameter (a : string) (m : t) : t :=
  mk (function m) (arguments_ m) (parameters_ m ++ [a]) (forward_arguments_ m)
     (forward_parameters_ m) (is_constructor m) (is_destructor m)
     (temporary_object m) (template_parameter_ m) (is_const m).
Definition append_forward_argument (a : string) (m : t) : t :=
  mk (function m) (arguments_ m) (parameters_ m) (forward_arguments_ m ++ [a])
     (forward_parameters_ m) (is_constructor m) (is_destructor m)
     (temporary_object m) (template_parameter_ m) (is_const m).
Definition append_forward_parameter (a : string) (m : t) : t :=
  mk (function m) (arguments_ m) (parameters_ m) (forward_arguments_ m)
     (forward_parameters_ m ++ [a]) (is_constructor m) (is_destructor m)
     (temporary_object m) (template_parameter_ m) (is_const m).
Definition extend_template_parameter (l : list string) (m : t) : t :=
  mk (function m) (arguments_ m) (parameters_ m) (forward_arguments_ m)
     (forward_parameters_ m) (is_constructor m) (is_destructor m)
     (temporary_object m) (template_parameter_ m ++ l) (is_const m).

End Method.

Module Class.

Record t : Type := mk {
  original_type : string;
  namespace : string;
  brief_comment : option string;
  raw_comment : option string;
  name : string;
  methods : list Method.t
}.

End Class.

Module Enum.
Record t : Type := mk { name : string }.
End Enum.

Definition Enum_init (cursor : Cursor) : Enum.t := Enum.mk (spelling cursor).

Module Typedef.
Record t : Type := mk {
  name : string;
  original_name : string;
  brief_comment : option string;
  raw_comment : option string
}.
End Typedef.

Definition Typedef_init (cursor : Cursor) : Typedef.t :=
  Typedef.mk (spelling cursor) (spelling cursor)
             (brief_comment cursor) (raw_comment cursor).

Module FunctionTypedef.

Record t : Type := mk {
  original_name : string;
  brief_comment : option string;
  raw_comment : option string;
  namespace : string;
  name : string;
  result_type : string;
  original_parameters : list FunctionParameter.t;
  wrapper : list string;
  arguments_ : list string;
  parameters_ : list string;
  has_closure : bool
}.

Definition arguments (self : t) : string := PyStr.join ", " (arguments_ self).
Definition parameters (self : t) : string := PyStr.join ", " (parameters_ self).
Definition callbackParameters (self : t) : string :=
  PyStr.join ", " (map FunctionParameter.parameter (original_parameters self)).

End FunctionTypedef.

Module Namespace.

(** [classes] holds references: positions in the heap of class objects. *)
Record t : Type := mk {
  name : string;
  classes : list nat;
  functions : list GlobalFunction.t;
  function_typedefs : list FunctionTypedef.t;
  include_guard : option string
}.

End Namespace.

Definition Namespace_init (name : string) (include_guard : option string) : Namespace.t :=
  Namespace.mk name [] [] [] include_guard.

Definition Class_init (namespace : Namespace.t) (typedef : Typedef.t) : Class.t :=
  Class.mk (Typedef.name typedef)
           (Namespace.name namespace)
           (Typedef.brief_comment typedef)
           (Typedef.raw_comment typedef)
           (PyStr.drop 4 (Typedef.name typedef))
           [].

(* ----------------------------------------------------------------- *)
(** *** [Method.__init__] *)

(** The three tests of the parameter loop. *)
Definition receiver_match (this : Class.t) (p : FunctionParameter.t) : bool :=
  PyStr.startswith (PyStr.replace (FunctionParameter.type p) "const " "")
                   (Class.original_type this).

Definition two_pointers (p : FunctionParameter.t) : bool :=
  Nat.eqb (PyStr.count (FunctionParameter.type p) "*") 2.

Definition temporary_match (this : Class.t) (p : FunctionParameter.t) : bool :=
  two_pointers p && PyStr.startswith (FunctionParameter.type p) (Class.namespace this).

(** The local variables of the loop that outlive one iteration. *)
Module MethodLoop.
Record t : Type := mk {
  self : Method.t;
  type_number : nat;
  next_parameter_type : option string
}.
End MethodLoop.

(** The first [if]: the updated object, [argument] and [parameter]. *)
Definition Method_classify (this : Class.t) (self : Method.t) (p : FunctionParameter.t)
  : Method.t * string * option string :=
  if receiver_match this p then
    if two_pointers p then
      (Method.set_is_constructor true self, "&self", None)
    else
      (Method.set_is_const (PyStr.startswith (FunctionParameter.type p) "const ") self,
       "self", None)
  else
    if temporary_match this p then
      (Method.set_temporary_object
         (PyStr.replace (FunctionParameter.plain_type p) (Class.namespace this) "") self,
       "&ret.self", None)
    else
      (self, FunctionParameter.argument p, Some (FunctionParameter.parameter p)).

(** One iteration of [for p in function.parameters]. *)
Definition Method_body (this : Class.t) (function_typedefs : list string)
           (st : MethodLoop.t) (p : FunctionParameter.t) : MethodLoop.t :=
  let '(self, argument, parameter) := Method_classify this (MethodLoop.self st) p in
  let self := Method.append_argument argument self in
  match parameter with
  | None => MethodLoop.mk self (MethodLoop.type_number st) (MethodLoop.next_parameter_type st)
  | Some parameter =>
      if PyStr.truthy parameter then
        let self := Method.append_parameter parameter self in
        if PyStr.mem (FunctionParameter.type p) function_typedefs then
          let type_number := S (MethodLoop.type_number st) in
          let next_parameter_type := "T" ++ PyStr.of_nat type_number in
          let templateNamespace := PyStr.take 4 (FunctionParameter.type p) in
          let template := PyStr.drop 4 (FunctionParameter.type p) in
          let template :=
            if negb (String.eqb templateNamespace (Method.namespace self))
            then templateNamespace ++ "::" ++ template
            else template in
          let self :=
            Method.append_forward_argument
              ("&" ++ template ++ "Callback<" ++ next_parameter_type
                   ++ ", callback" ++ PyStr.of_nat type_number ++ ">") self in
          let self :=
            Method.extend_template_parameter
              ["typename " ++ next_parameter_type;
               template ++ "<" ++ next_parameter_type ++ "> callback"
                        ++ PyStr.of_nat type_number] self in
          MethodLoop.mk self type_number (Some next_parameter_type)
        else
          let '(self, next_parameter_type) :=
            match MethodLoop.next_parameter_type st with
            | Some npt =>
                if PyStr.truthy npt
                then (Method.append_forward_parameter
                        (PyStr.replace parameter "void" npt) self, None)
                else (Method.append_forward_parameter parameter self, Some npt)
            | None => (Method.append_forward_parameter parameter self, None)
            end in
          let self := Method.append_forward_argument argument self in
          MethodLoop.mk self (MethodLoop.type_number st) next_parameter_type
      else
        MethodLoop.mk self (MethodLoop.type_number st) (MethodLoop.next_parameter_type st)
  end.

Definition Method_start (function : Function.t) : MethodLoop.t :=
  MethodLoop.mk
    (Method.mk function [] [] [] []
               (Function.is_constructor function)
               (Function.is_destructor function)
               None [] None)
    0 None.

Definition Method_init (function : Function.t) (this : Class.t)
           (function_typedefs : list string) : Method.t :=
  MethodLoop.self
    (fold_left (Method_body this function_typedefs)
               (Function.parameters function)
               (Method_start function)).

Definition Class_add_method (self : Class.t) (function : Function.t)
           (function_typedefs : list string) : Class.t :=
  Class.mk (Class.original_type self) (Class.namespace self)
           (Class.brief_comment self) (Class.raw_comment self) (Class.name self)
           (Class.methods self ++ [Method_init function self function_typedefs]).

(* ----------------------------------------------------------------- *)
(** *** [FunctionTypedef.__init__] *)

(** [for c in cursor.get_children()]: the result type and the parameters. *)
Definition FunctionTypedef_child (st : string * list FunctionParameter.t) (c : Cursor)
  : string * list FunctionParameter.t :=
  if CursorKind_eqb (kind c) TYPE_REF
  then (type_spelling (type_ c), snd st)
  else (fst st, (snd st ++ [FunctionParameter_init c])%list).

(** One iteration of [for p in self.original_parameters[:-1]], on
    [(wrapper, arguments_, parameters_)]. *)
Definition FunctionTypedef_adapt (namespace : string)
           (st : list string * list string * list string) (p : FunctionParameter.t)
  : list string * list string * list string :=
  let '(wrapper, arguments_, parameters_) := st in
  let '(wrapper, argument, parameter) :=
    if PyStr.startswith (FunctionParameter.type p) namespace
       && negb (String.eqb (FunctionParameter.type p) "natsStatus")
    then
      let plain_type := FunctionParameter.plain_type p in
      if String.eqb plain_type "natsMsg" then
        (wrapper,
         PyStr.drop 4 plain_type ++ "(" ++ FunctionParameter.name p ++ ")",
         PyStr.drop 4 plain_type ++ " &&")
      else
        let argument := FunctionParameter.name p ++ "_" in
        ((wrapper ++ [(PyStr.drop 4 plain_type ++ "::WithoutDestuction "
                        ++ argument ++ "(" ++ FunctionParameter.name p ++ ")")%string])%list,
         argument,
         PyStr.drop 4 plain_type ++ " &")
    else (wrapper, FunctionParameter.argument p, FunctionParameter.parameter p) in
  (wrapper, (arguments_ ++ [argument])%list, (parameters_ ++ [parameter])%list).

Definition FunctionTypedef_init (cursor : Cursor) : Result FunctionTypedef.t :=
  let namespace := PyStr.take 4 (spelling cursor) in
  let '(result_type, original_parameters) :=
    fold_left FunctionTypedef_child (get_children cursor) ("void", []) in
  last <- index_last original_parameters ;;
  let has_closure := String.eqb (FunctionParameter.name last) "closure" in
  let '(wrapper, arguments_, parameters_) :=
    if negb has_closure then ([], [], [])
    else fold_left (FunctionTypedef_adapt namespace)
                   (removelast original_parameters) ([], [], []) in
  Ok (FunctionTypedef.mk (spelling cursor) (brief_comment cursor) (raw_comment cursor)
                         namespace (PyStr.drop 4 (spelling cursor)) result_type
                         original_parameters wrapper arguments_ parameters_
                         has_closure).

(* ----------------------------------------------------------------- *)
(** *** [Namespace] methods

    [add_class] allocates the class object: the new object goes to the end
    of the heap and the namespace keeps its position.  [parse] appends every
    object [add_class] returns to its local list [classes], so that list and
    the heap hold the same objects in the same order and are one list here. *)

Definition Namespace_add_class (self : Namespace.t) (heap : list Class.t)
           (name : Typedef.t) : Namespace.t * list Class.t :=
  (Namespace.mk (Namespace.name self)
                (Namespace.classes self ++ [List.length heap])
                (Namespace.functions self)
                (Namespace.function_typedefs self)
                (Namespace.include_guard self),
   (heap ++ [Class_init self name])%list).

Definition Namespace_add_function (self : Namespace.t) (value : Function.t) : Namespace.t :=
  Namespace.mk (Namespace.name self)
               (Namespace.classes self)
               (Namespace.functions self ++ [GlobalFunction_init value])
               (Namespace.function_typedefs self)
               (Namespace.include_guard self).

Definition Namespace_add_function_typedef (self : Namespace.t) (value : FunctionTypedef.t)
  : Namespace.t :=
  Namespace.mk (Namespace.name self)
               (Namespace.classes self)
               (Namespace.functions self)
               (Namespace.function_typedefs self ++ [value])
               (Namespace.include_guard self).

Definition Namespace_add_typedef (self : Namespace.t) (value : Typedef.t) : Namespace.t :=
  self.

(* ----------------------------------------------------------------- *)
(** *** [parse] *)

(** A loop whose body may raise. *)
Fixpoint for_each {S A : Type} (body : S -> A -> Result S) (l : list A) (st : S)
  : Result S :=
  match l with
  | [] => Ok st
  | a :: l' => st' <- body st a ;; for_each body l' st'
  end.

Module Declarations.
Record t : Type := mk {
  functions : list Function.t;
  enums : list Enum.t;
  typedefs : list Typedef.t;
  function_typedefs : list FunctionTypedef.t
}.
End Declarations.

Definition recognized (name : string) : bool :=
  PyStr.mem (PyStr.take 4 name) ["nats"; "stan"].

Definition add_function_decl (st : Declarations.t) (f : Function.t) : Declarations.t :=
  Declarations.mk (Declarations.functions st ++ [f]) (Declarations.enums st)
                  (Declarations.typedefs st) (Declarations.function_typedefs st).
Definition add_enum_decl (st : Declarations.t) (e : Enum.t) : Declarations.t :=
  Declarations.mk (Declarations.functions st) (Declarations.enums st ++ [e])
                  (Declarations.typedefs st) (Declarations.function_typedefs st).
Definition add_typedef_decl (st : Declarations.t) (td : Typedef.t) : Declarations.t :=
  Declarations.mk (Declarations.functions st) (Declarations.enums st)
                  (Declarations.typedefs st ++ [td]) (Declarations.function_typedefs st).
Definition add_function_typedef_decl (st : Declarations.t) (ftd : FunctionTypedef.t)
  : Declarations.t :=
  Declarations.mk (Declarations.functions st) (Declarations.enums st)
                  (Declarations.typedefs st) (Declarations.function_typedefs st ++ [ftd]).

(** The body of the first loop of [parse]. *)
Definition parse_declaration (st : Declarations.t) (cursor : Cursor)
  : Result Declarations.t :=
  if negb (recognized (spelling cursor)) then Ok st
  else
    match kind cursor with
    | FUNCTION_DECL =>
        f <- Function_init cursor ;; Ok (add_function_decl st f)
    | TYPEDEF_DECL =>
        let as_function_typedef :=
          ftd <- FunctionTypedef_init cursor ;; Ok (add_function_typedef_decl st ftd) in
        match get_children cursor with
        | [] => Ok (add_typedef_decl st (Typedef_init cursor))
        | [child] =>
            if CursorKind_eqb (kind child) ENUM_DECL
            then Ok (add_enum_decl st (Enum_init cursor))
            else if CursorKind_eqb (kind child) TYPE_REF
            then Ok (add_typedef_decl st (Typedef_init cursor))
            else as_function_typedef
        | _ => as_function_typedef
        end
    | _ => Ok st
    end.

(** The position in [classes] of the first class whose original type is a
    prefix of the function's name. *)
Fixpoint find_class_from (i : nat) (classes : list Class.t) (f : Function.t) : option nat :=
  match classes with
  | [] => None
  | c :: cs =>
      if PyStr.startswith (Function.original_function f) (Class.original_type c)
      then Some i
      else find_class_from (S i) cs f
  end.

Definition find_class (classes : list Class.t) (f : Function.t) : option nat :=
  find_class_from 0 classes f.

(** The object at position [i] replaced by [g] of it. *)
Fixpoint update {A : Type} (i : nat) (g : A -> A) (l : list A) : list A :=
  match l, i with
  | [], _ => []
  | a :: l', O => g a :: l'
  | a :: l', S k => a :: update k g l'
  end.

(** The three inner loops of [for ns in namespaces]. *)
Definition attach_function_typedef (ns : Namespace.t) (ftd : FunctionTypedef.t)
  : Namespace.t :=
  if FunctionTypedef.has_closure ftd
  then Namespace_add_function_typedef ns ftd
  else ns.

Definition promote_typedef (function_names : list string)
           (st : Namespace.t * list Class.t) (td : Typedef.t)
  : Namespace.t * list Class.t :=
  let '(ns, classes) := st in
  if PyStr.mem (Typedef.original_name td ++ "_Destroy") function_names
  then Namespace_add_class ns classes td
  else (Namespace_add_typedef ns td, classes).

Definition assign_function (function_typedef_names : list string)
           (st : Namespace.t * list Class.t) (f : Function.t)
  : Namespace.t * list Class.t :=
  let '(ns, classes) := st in
  match find_class classes f with
  | Some i =>
      (ns, update i (fun found_class =>
                       Class_add_method found_class f function_typedef_names) classes)
  | None => (Namespace_add_function ns f, classes)
  end.

Definition parse_namespace (decls : Declarations.t)
           (function_names function_typedef_names : list string)
           (ns : Namespace.t) (classes : list Class.t)
  : Namespace.t * list Class.t :=
  let ns :=
    fold_left attach_function_typedef
      (filter (fun ftd => PyStr.startswith (FunctionTypedef.original_name ftd)
                                           (Namespace.name ns))
              (Declarations.function_typedefs decls))
      ns in
  let st :=
    fold_left (promote_typedef function_names)
      (filter (fun td => PyStr.startswith (Typedef.name td) (Namespace.name ns))
              (Declarations.typedefs decls))
      (ns, classes) in
  fold_left (assign_function function_typedef_names)
    (filter (fun f => PyStr.startswith (Function.original_function f)
                                       (Namespace.name ns))
            (Declarations.functions decls))
    st.

Fixpoint parse_namespaces (decls : Declarations.t)
         (function_names function_typedef_names : list string)
         (namespaces : list Namespace.t) (classes : list Class.t)
  : list Namespace.t * list Class.t :=
  match namespaces with
  | [] => ([], classes)
  | ns :: rest =>
      let '(ns', classes') :=
        parse_namespace decls function_names function_typedef_names ns classes in
      let '(rest', classes'') :=
        parse_namespaces decls function_names function_typedef_names rest classes' in
      (ns' :: rest', classes'')
  end.

(** The object a reference points to, if any. *)
Definition lookup (heap : list Class.t) (r : nat) : list Class.t :=
  match nth_error heap r with
  | Some c => [c]
  | None => []
  end.

(** What [parse] returns: the namespaces, with the class objects they
    refer to. *)
Module Model.
Record t : Type := mk {
  namespaces : list Namespace.t;
  heap : list Class.t
}.

(** The class objects of a namespace. *)
Definition classes (m : t) (ns : Namespace.t) : list Class.t :=
  flat_map (lookup (heap m)) (Namespace.classes ns).
End Model.

Definition initial_namespaces : list Namespace.t :=
  [ Namespace_init "nats" None;
    Namespace_init "stan" (Some "defined(NATS_HAS_STREAMING)") ].

Definition group (decls : Declarations.t) : Model.t :=
  let function_names := map Function.original_function (Declarations.functions decls) in
  let function_typedef_names :=
    map FunctionTypedef.original_name
        (filter FunctionTypedef.has_closure (Declarations.function_typedefs decls)) in
  let '(namespaces, classes) :=
    parse_namespaces decls function_names function_typedef_names
                     initial_namespaces [] in
  Model.mk namespaces classes.

Definition parse (cursor : Cursor) : Result Model.t :=
  decls <- for_each parse_declaration (get_children cursor)
                    (Declarations.mk [] [] [] []) ;;
  Ok (group decls).

(* ================================================================= *)
(** ** Vocabulary of the statements *)

(** The role [Method.__init__] gives a parameter: the branch of its first
    [if] that the parameter takes. *)
Definition output_receiver (this : Class.t) (p : FunctionParameter.t) : bool :=
  receiver_match this p && two_pointers p.

Definition instance_receiver (this : Class.t) (p : FunctionParameter.t) : bool :=
  receiver_match this p && negb (two_pointers p).

Definition temporary_output (this : Class.t) (p : FunctionParameter.t) : bool :=
  negb (receiver_match this p) && temporary_match this p.

Definition visible (this : Class.t) (p : FunctionParameter.t) : bool :=
  negb (receiver_match this p) && negb (temporary_match this p).

Definition callback (this : Class.t) (function_typedefs : list string)
           (p : FunctionParameter.t) : bool :=
  visible this p && PyStr.mem (FunctionParameter.type p) function_typedefs.

(** The argument a parameter contributes to the dispatched call. *)
Definition argument_of (this : Class.t) (p : FunctionParameter.t) : string :=
  if receiver_match this p then
    if two_pointers p then "&self" else "self"
  else if temporary_match this p then "&ret.self"
  else FunctionParameter.argument p.

(** The last element of a list that satisfies a test. *)
Definition last_such {A : Type} (test : A -> bool) (l : list A) : option A :=
  match rev (filter test l) with
  | a :: _ => Some a
  | [] => None
  end.

(** The public result type of a method of the class [this] made of a
    function with the parameters [ps] and the normalized result type
    [result]: the plain type of the last temporary-output parameter without
    the namespace name of the class, when there is such a parameter and that
    string is not empty, and [result] otherwise. *)
Definition public_result (this : Class.t) (ps : list FunctionParameter.t)
           (result : string) : string :=
  match last_such (temporary_output this) ps with
  | Some q =>
      let short := PyStr.replace (FunctionParameter.plain_type q)
                                 (Class.namespace this) "" in
      if PyStr.truthy short then short else result
  | None => result
  end.

(** [sub in s] *)
Fixpoint occurs (sub s : string) : bool :=
  PyStr.startswith s sub
  || match s with
     | EmptyString => false
     | String _ s' => occurs sub s'
     end.

(** A type spelling without its leading [const ], if it has one. *)
Definition without_leading_const (type : string) : string :=
  if PyStr.startswith type "const " then PyStr.drop 6 type else type.

(** A name without [*] and without white space, the characters that
    [plain_type] removes; [nats] and [stan] are such names. *)
Fixpoint solid (s : string) : bool :=
  match s with
  | EmptyString => true
  | String c s' => negb (Ascii.eqb c "*") && negb (PyStr.isspace c) && solid s'
  end.

(** The template name of a callback parameter in a function of namespace
    [namespace]. *)
Definition template_of (namespace : string) (p : FunctionParameter.t) : string :=
  if negb (String.eqb (PyStr.take 4 (FunctionParameter.type p)) namespace)
  then PyStr.take 4 (FunctionParameter.type p) ++ "::"
       ++ PyStr.drop 4 (FunctionParameter.type p)
  else PyStr.drop 4 (FunctionParameter.type p).

(** The two template parameters of the callback numbered [k]. *)
Definition template_entries (namespace : string) (kp : nat * FunctionParameter.t)
  : list string :=
  let '(k, p) := kp in
  [ "typename T" ++ PyStr.of_nat k;
    template_of namespace p ++ "<T" ++ PyStr.of_nat k ++ "> callback" ++ PyStr.of_nat k ].

(** The template type parameters: the entries at even positions of
    [template_parameter_]. *)
Fixpoint template_types (l : list string) : list string :=
  match l with
  | t :: _ :: l' => t :: template_types l'
  | _ => []
  end.

(** The kinds of declaration the first loop of [parse] tells apart. *)
Definition is_function_decl (d : Cursor) : bool :=
  recognized (spelling d) && CursorKind_eqb (kind d) FUNCTION_DECL.

Definition is_typedef_decl (d : Cursor) : bool :=
  recognized (spelling d) && CursorKind_eqb (kind d) TYPEDEF_DECL.

Definition is_plain_typedef (d : Cursor) : bool :=
  is_typedef_decl d
  && match get_children d with
     | [] => true
     | [child] => negb (CursorKind_eqb (kind child) ENUM_DECL)
                  && CursorKind_eqb (kind child) TYPE_REF
     | _ => false
     end.

Definition is_enum_typedef (d : Cursor) : bool :=
  is_typedef_decl d
  && match get_children d with
     | [child] => CursorKind_eqb (kind child) ENUM_DECL
     | _ => false
     end.

Definition is_function_typedef (d : Cursor) : bool :=
  is_typedef_decl d && negb (is_plain_typedef d) && negb (is_enum_typedef d).

(** [c in s] for a character *)
Fixpoint contains (c : ascii) (s : string) : bool :=
  match s with
  | EmptyString => false
  | String a s' => Ascii.eqb a c || contains c s'
  end.

(** The children of a function-pointer typedef that become parameters. *)
Definition parameter_children (d : Cursor) : list Cursor :=
  filter (fun c => negb (CursorKind_eqb (kind c) TYPE_REF)) (get_children d).

(** The name of the last parameter of a function-pointer typedef. *)
Definition last_parameter_name (d : Cursor) : option string :=
  match rev (parameter_children d) with
  | c :: _ => Some (spelling c)
  | [] => None
  end.

(** The declarations that [Function] and [FunctionTypedef] normalize
    without an [IndexError]. *)
Definition normalizable (d : Cursor) : bool :=
  if is_function_decl d then contains "_" (spelling d)
  else if is_function_typedef d then
         match parameter_children d with
         | [] => false
         | _ :: _ => true
         end
       else true.

(** The names in the model: of the free functions, the callback
    descriptors, the classes and the methods of the namespaces. *)
Definition function_names (m : Model.t) (ns : Namespace.t) : list string :=
  (map GlobalFunction.original_function (Namespace.functions ns)
   ++ flat_map (fun c => map Method.original_function (Class.methods c))
               (Model.classes m ns))%list.

Definition class_names (m : Model.t) (ns : Namespace.t) : list string :=
  map Class.original_type (Model.classes m ns).

Definition callback_names (ns : Namespace.t) : list string :=
  map FunctionTypedef.original_name (Namespace.function_typedefs ns).

Definition output_names (m : Model.t) : list string :=
  flat_map (fun ns => function_names m ns ++ class_names m ns ++ callback_names ns)%list
           (Model.namespaces m).

(** A destructor of the declaration [d] among the declarations [l]. *)
Definition has_destructor (l : list Cursor) (d : Cursor) : bool :=
  existsb (fun f => is_function_decl f
                    && String.eqb (spelling f) (spelling d ++ "_Destroy")) l.

(** The closure convention. *)
Definition has_closure_convention (d : Cursor) : bool :=
  match last_parameter_name d with
  | Some name => String.eqb name "closure"
  | None => false
  end.

(** The declarations that leave a name in the model. *)
Definition exported (l : list Cursor) (d : Cursor) : bool :=
  is_function_decl d
  || is_plain_typedef d && has_destructor l d
  || is_function_typedef d && has_closure_convention d.

(** How a callback descriptor hands a parameter of the raw callback to the
    user's handler. *)
Inductive Passing : Type :=
| ByMove        (* the message, by value, move-constructed from the handle *)
| ByReference   (* a non-owning wrapper, by reference *)
| Unchanged.

Definition passing (namespace : string) (p : FunctionParameter.t) : Passing :=
  if PyStr.startswith (FunctionParameter.type p) namespace
     && negb (String.eqb (FunctionParameter.type p) "natsStatus")
  then if String.eqb (FunctionParameter.plain_type p) "natsMsg"
       then ByMove else ByReference
  else Unchanged.

Definition adapted_parameter (namespace : string) (p : FunctionParameter.t) : string :=
  match passing namespace p with
  | ByMove => "Msg &&"
  | ByReference => PyStr.drop 4 (FunctionParameter.plain_type p) ++ " &"
  | Unchanged => FunctionParameter.parameter p
  end.

Definition adapted_argument (namespace : string) (p : FunctionParameter.t) : string :=
  match passing namespace p with
  | ByMove => "Msg(" ++ FunctionParameter.name p ++ ")"
  | ByReference => FunctionParameter.name p ++ "_"
  | Unchanged => FunctionParameter.name p
  end.

Definition wrapping_rule (namespace : string) (p : FunctionParameter.t) : list string :=
  match passing namespace p with
  | ByReference =>
      [ PyStr.drop 4 (FunctionParameter.plain_type p) ++ "::WithoutDestuction "
          ++ FunctionParameter.name p ++ "_(" ++ FunctionParameter.name p ++ ")" ]
  | _ => []
  end.

(** The namespaces of a model, by name and build guard. *)
Definition headers (m : Model.t) : list (string * option string) :=
  map (fun ns => (Namespace.name ns, Namespace.include_guard ns)) (Model.namespaces m).

(** A typedef for which [parse] makes a class. *)
Definition promoted (function_names : list string) (td : Typedef.t) : bool :=
  PyStr.mem (Typedef.original_name td ++ "_Destroy") function_names.

Definition method_names (heap : list Class.t) : list string :=
  flat_map (fun c => map Method.original_function (Class.methods c)) heap.

Definition free_names (ns : Namespace.t) : list string :=
  map GlobalFunction.original_function (Namespace.functions ns).

(** The fields of a namespace that no loop of [parse] changes. *)
Definition same_header (ns ns' : Namespace.t) : Prop :=
  Namespace.name ns' = Namespace.name ns
  /\ Namespace.include_guard ns' = Namespace.include_guard ns.

(** What one round of [for ns in namespaces] adds for the namespace named
    [n]. *)
Definition new_classes (decls : Declarations.t) (function_names : list string)
           (n : string) : list Typedef.t :=
  filter (promoted function_names)
         (filter (fun td => PyStr.startswith (Typedef.name td) n)
                 (Declarations.typedefs decls)).

Definition new_callbacks (decls : Declarations.t) (n : string) : list FunctionTypedef.t :=
  filter FunctionTypedef.has_closure
         (filter (fun ftd => PyStr.startswith (FunctionTypedef.original_name ftd) n)
                 (Declarations.function_typedefs decls)).

Definition new_functions (decls : Declarations.t) (n : string) : list string :=
  map Function.original_function
      (filter (fun f => PyStr.startswith (Function.original_function f) n)
              (Declarations.functions decls)).

(** The names of the function-pointer typedefs with the closure
    convention: [function_typedef_names] of [parse]. *)
Definition closure_typedef_names (l : list Cursor) : list string :=
  map spelling (filter has_closure_convention (filter is_function_typedef l)).

(** The methods of the class [c] are made of functions among [fs]. *)
Definition built_from (fs : list Function.t) (function_typedef_names : list string)
           (c : Class.t) : Prop :=
  forall m, In m (Class.methods c) ->
            exists f, In f fs /\ m = Method_init f c function_typedef_names.

(** [xs] are the normalized forms of the declarations [ds]. *)
Definition normalized_from {A : Type} (init : Cursor -> Result A)
           (ds : list Cursor) (xs : list A) : Prop :=
  Forall2 (fun d x => init d = Ok x) ds xs.

(* ================================================================= *)
(** ** Sample declarations *)

Module Sample.

Definition parm (type name : string) : Cursor :=
  mkCursor PARM_DECL name (Plain type) (Plain "") None None [] [].

Definition func (name result : string) (params : list Cursor) : Cursor :=
  mkCursor FUNCTION_DECL name (Plain "") (Plain result) None None params [].

Definition type_ref (name : string) : Cursor :=
  mkCursor TYPE_REF name (Plain name) (Plain "") None None [] [].

(** [typedef struct __name name;] *)
Definition alias (name : string) : Cursor :=
  mkCursor TYPEDEF_DECL name (Plain name) (Plain "") None None []
           [type_ref ("struct __" ++ name)].

(** [typedef enum { ... } name;] *)
Definition enum (name : string) : Cursor :=
  mkCursor TYPEDEF_DECL name (Plain name) (Plain "") None None []
           [mkCursor ENUM_DECL "" (Plain "") (Plain "") None None [] []].

(** [typedef result ( *name)(params);], by its children *)
Definition function_pointer (name : string) (children : list Cursor) : Cursor :=
  mkCursor TYPEDEF_DECL name (Plain name) (Plain "") None None [] children.

Definition header (declarations : list Cursor) : Cursor :=
  mkCursor OTHER_DECL "nats.h" (Plain "") (Plain "") None None [] declarations.

(** The class object [Class(namespace, typedef)] of an alias. *)
Definition class (original_type : string) : Class.t :=
  Class_init (Namespace_init (PyStr.take 4 original_type) None)
             (Typedef_init (alias original_type)).

(** [Function(cursor)] of a declaration whose name has an underscore. *)
Definition normalized (cursor : Cursor) : Function.t :=
  match Function_init cursor with
  | Ok f => f
  | Raise _ => Function.mk "" "" None None "" "" "" false false []
  end.

Definition destroy (type : string) : Cursor :=
  func (type ++ "_Destroy") "void" [parm (type ++ " *") "self"].

(** [bool natsMsg_Equal(const natsMsg *a, natsMsg *b)] *)
Definition msg_a : Cursor := parm "const natsMsg *" "a".
Definition msg_b : Cursor := parm "natsMsg *" "b".
Definition natsMsg_Equal : Cursor := func "natsMsg_Equal" "bool" [msg_a; msg_b].

(** [natsStatus natsConnection_ReadLast(natsSubscription **sub,
      natsMsg **msg, natsConnection *nc)] *)
Definition out_sub : Cursor := parm "natsSubscription **" "sub".
Definition out_msg : Cursor := parm "natsMsg **" "msg".
Definition conn : Cursor := parm "natsConnection *" "nc".
Definition natsConnection_ReadLast : Cursor :=
  func "natsConnection_ReadLast" "natsStatus" [out_sub; out_msg; conn].

(** [typedef void ( *natsConnectionHandler)(natsConnection *nc, void *closure)] *)
Definition natsConnectionHandler : Cursor :=
  function_pointer "natsConnectionHandler"
                   [parm "natsConnection *" "nc"; parm "void *" "closure"].

(** [natsStatus natsConnection_SetHandler(natsConnection *nc,
      natsConnectionHandler cb, void *closure)] *)
Definition handler : Cursor := parm "natsConnectionHandler" "cb".
Definition closure : Cursor := parm "void *" "closure".
Definition natsConnection_SetHandler : Cursor :=
  func "natsConnection_SetHandler" "natsStatus" [conn; handler; closure].

(** [typedef void ( *natsOnMsgHandler)(natsConnection *nc, natsMsg *msg,
      void *closure)] *)
Definition natsOnMsgHandler : Cursor :=
  function_pointer "natsOnMsgHandler"
                   [parm "natsConnection *" "nc"; parm "natsMsg *" "msg";
                    parm "void *" "closure"].

(** [natsStatus natsFoo_SetCallback(natsFoo *foo, natsOnMsgHandler cb,
      void *closure)] *)
Definition foo : Cursor := parm "natsFoo *" "foo".
Definition on_msg : Cursor := parm "natsOnMsgHandler" "cb".
Definition natsFoo_SetCallback : Cursor :=
  func "natsFoo_SetCallback" "natsStatus" [foo; on_msg; closure].

(** [natsStatus natsConnection_Subscribe(natsSubscription **sub,
      natsConnection *nc, const char *subject, natsOnMsgHandler cb,
      void *cbClosure)] *)
Definition natsConnection_Subscribe : Cursor :=
  func "natsConnection_Subscribe" "natsStatus"
       [out_sub; conn; parm "const char *" "subject"; on_msg;
        parm "void *" "cbClosure"].

(** [_Bool natsConnection_IsClosed(natsConnection *nc)] *)
Definition natsConnection_IsClosed : Cursor :=
  func "natsConnection_IsClosed" "_Bool" [conn].

(** A header with these declarations. *)
Definition nats_h : Cursor :=
  header [ enum "natsStatus";
           alias "natsConnection"; alias "natsSubscription"; alias "natsMsg";
           alias "natsFoo"; alias "natsOptions";
           natsConnectionHandler; natsOnMsgHandler;
           destroy "natsConnection"; destroy "natsSubscription";
           destroy "natsMsg"; destroy "natsFoo";
           natsMsg_Equal; natsConnection_ReadLast; natsConnection_SetHandler;
           natsFoo_SetCallback; natsConnection_Subscribe;
           natsConnection_IsClosed ].

Definition callbacks : list string := ["natsConnectionHandler"; "natsOnMsgHandler"].

(** The methods of the classes of a model, class by class. *)
Definition methods (r : Result Model.t) : list (string * list Method.t) :=
  match r with
  | Ok m => map (fun c => (Class.original_type c, Class.methods c)) (Model.heap m)
  | Raise _ => []
  end.

End Sample.

(* ================================================================= *)
(** ** Vocabulary of the further properties *)

(** [FunctionProxy.suffix] of a method.  [None] is the [AttributeError]
    Python raises when [is_const] is read and no receiver has set it. *)
Definition Method_suffix (self : Method.t) : option string :=
  match Method.is_const self with
  | Some true => Some " const"
  | Some false => Some ""
  | None => None
  end.

(** The argument a visible parameter contributes to the forwarded call
    when the method has no callback parameter. *)
Definition plain_arguments (this : Class.t) (ps : list FunctionParameter.t) : list string :=
  map FunctionParameter.argument (filter (visible this) ps).

(** [find_class_from] on names: the position of the first of [types] that
    is a prefix of [x]. *)
Fixpoint first_prefix_from (i : nat) (types : list string) (x : string) : option nat :=
  match types with
  | [] => None
  | t :: ts => if PyStr.startswith x t then Some i else first_prefix_from (S i) ts x
  end.

Definition first_prefix (types : list string) (x : string) : option nat :=
  first_prefix_from 0 types x.

(** The function named [x] becomes a method of the class at position [i]. *)
Definition lands_in (types : list string) (i : nat) (x : string) : bool :=
  match first_prefix types x with
  | Some j => Nat.eqb j i
  | None => false
  end.

(** The function named [x] becomes a free function. *)
Definition unclaimed (types : list string) (x : string) : bool :=
  match first_prefix types x with
  | Some _ => false
  | None => true
  end.

(** The names of the function declarations that [parse] reads, in the
    order of the header. *)
Definition declared_functions (cursor : Cursor) : list string :=
  map spelling (filter is_function_decl (get_children cursor)).

(** The original types of the classes of a model, in the order of their
    creation. *)
Definition class_types (m : Model.t) : list string :=
  map Class.original_type (Model.heap m).

(** A class object without its methods. *)
Definition bare (c : Class.t) : Class.t :=
  Class.mk (Class.original_type c) (Class.namespace c) (Class.brief_comment c)
           (Class.raw_comment c) (Class.name c) [].

(** The names of the methods of the class at position [i]. *)
Definition names_at (heap : list Class.t) (i : nat) : option (list string) :=
  option_map (fun c => map Method.original_function (Class.methods c))
             (nth_error heap i).

(** The plain typedefs of the namespace [n] that [parse] promotes to
    classes, the function-pointer typedefs it keeps as callback
    descriptors and the functions it keeps as free functions. *)
Definition promoted_decls (l : list Cursor) (n : string) : list Cursor :=
  filter (fun d => is_plain_typedef d && PyStr.startswith (spelling d) n
                   && has_destructor l d) l.

Definition callback_decls (l : list Cursor) (n : string) : list Cursor :=
  filter (fun d => is_function_typedef d && PyStr.startswith (spelling d) n
                   && has_closure_convention d) l.

Definition free_decls (l : list Cursor) (types : list string) (n : string) : list Cursor :=
  filter (fun d => is_function_decl d && PyStr.startswith (spelling d) n
                   && unclaimed types (spelling d)) l.

(** The class object [parse] makes of the plain typedef [d] in the
    namespace [n], before any method is added. *)
Definition class_of (n : string) (d : Cursor) : Class.t :=
  Class.mk (spelling d) n (brief_comment d) (raw_comment d)
           (PyStr.drop 4 (spelling d)) [].

(** All methods of a model and all its free functions. *)
Definition all_methods (m : Model.t) : list Method.t :=
  flat_map Class.methods (Model.heap m).

Definition all_free_functions (m : Model.t) : list GlobalFunction.t :=
  flat_map Namespace.functions (Model.namespaces m).

(** The declarations the second loop of [parse] reads: the functions, the
    plain typedefs and the function-pointer typedefs with a recognized
    prefix. *)
Definition relevant (d : Cursor) : bool :=
  is_function_decl d || is_plain_typedef d || is_function_typedef d.

(** Two collections of declarations with the same functions, typedefs and
    function-pointer typedefs. *)
Definition same_input (st st' : Declarations.t) : Prop :=
  Declarations.functions st = Declarations.functions st'
  /\ Declarations.typedefs st = Declarations.typedefs st'
  /\ Declarations.function_typedefs st = Declarations.function_typedefs st'.

(* ================================================================= *)
(** * Properties *)

(** The string methods on some spellings. *)
Example replace_const : PyStr.replace "const natsMsg *" "const " "" = "natsMsg *".
Proof. reflexivity. Qed.
Example replace_all : PyStr.replace "aXXbXc" "X" "yy" = "ayyyybyyc".
Proof. reflexivity. Qed.
Example replace_nonoverlap : PyStr.replace "aaaa" "aa" "b" = "bb".
Proof. reflexivity. Qed.
Example replace_empty_old : PyStr.replace "abc" "" "X" = "XaXbXcX".
Proof. reflexivity. Qed.
Example count_stars : PyStr.count "const char ***" "*" = 3.
Proof. reflexivity. Qed.
Example strip_ex : PyStr.strip "  natsMsg  " = "natsMsg".
Proof. reflexivity. Qed.
Example split_ex : PyStr.split "_" 2 "natsConnection_Publish_String_x"
                   = ["natsConnection"; "Publish"; "String_x"].
Proof. reflexivity. Qed.
Example split_none : PyStr.split "_" 2 "natsfoo" = ["natsfoo"].
Proof. reflexivity. Qed.
Example endswith_ex : PyStr.endswith "natsMsg_Destroy" "_Destroy" = true.
Proof. reflexivity. Qed.
Example of_nat_ex : PyStr.of_nat 12 = "12".
Proof. reflexivity. Qed.

(* ================================================================= *)
(** ** Strings *)

Section Strings.

Lemma startswith_app (p t : string) : PyStr.startswith (p ++ t) p = true.
Proof.
  induction p as [|a p IH]; simpl; [reflexivity|].
  now rewrite Ascii.eqb_refl, IH.
Qed.

Lemma startswith_inv (s p : string) :
  PyStr.startswith s p = true -> exists t, s = p ++ t.
Proof.
  revert s; induction p as [|a p IH]; intros s H; simpl in *.
  - now exists s.
  - destruct s as [|b s]; [discriminate|].
    apply andb_true_iff in H as [Hab Hs].
    apply Ascii.eqb_eq in Hab; subst b.
    destruct (IH _ Hs) as [t ->]. now exists t.
Qed.

Lemma append_assoc (a b c : string) : (a ++ b) ++ c = a ++ b ++ c.
Proof. induction a; simpl; congruence. Qed.

Lemma take_drop (n : nat) (s : string) : PyStr.take n s ++ PyStr.drop n s = s.
Proof.
  revert s; induction n as [|n IH]; intros [|c s]; simpl; try reflexivity.
  now rewrite IH.
Qed.

Lemma startswith_take (n : nat) (s : string) : PyStr.startswith s (PyStr.take n s) = true.
Proof. rewrite <- (take_drop n s) at 1. apply startswith_app. Qed.

Lemma take_app_length (p t : string) : PyStr.take (String.length p) (p ++ t) = p.
Proof. induction p; simpl; [now destruct t|congruence]. Qed.

Lemma append_not_empty (s : string) (c : ascii) (t : string) :
  s ++ String c t <> EmptyString.
Proof. destruct s; discriminate. Qed.

Lemma truthy_parameter (p : FunctionParameter.t) :
  PyStr.truthy (FunctionParameter.parameter p) = true.
Proof.
  unfold PyStr.truthy, FunctionParameter.parameter.
  apply negb_true_iff, String.eqb_neq, append_not_empty.
Qed.

Lemma mem_In (x : string) (l : list string) : PyStr.mem x l = true <-> In x l.
Proof.
  unfold PyStr.mem. rewrite existsb_exists. split.
  - intros [y [Hy Heq]]. apply String.eqb_eq in Heq. now subst.
  - intros H. exists x. split; [assumption|apply String.eqb_refl].
Qed.

(** A recognized name starts with the name of one of the two namespaces. *)
Lemma recognized_iff (name : string) :
  recognized name = true <->
  PyStr.startswith name "nats" = true \/ PyStr.startswith name "stan" = true.
Proof.
  unfold recognized. rewrite mem_In. cbn [In]. split.
  - intros [H|[H|[]]]; [left|right]; rewrite H; apply startswith_take.
  - intros [H|H]; apply startswith_inv in H as [t ->];
      [left|right; left]; symmetry;
      [exact (take_app_length "nats" t)|exact (take_app_length "stan" t)].
Qed.

End Strings.

(* ================================================================= *)
(** ** The parameter loop of [Method.__init__] *)

Section MethodLoop.

Variable this : Class.t.
Variable function_typedefs : list string.

Let body := Method_body this function_typedefs.
Let run (ps : list FunctionParameter.t) (st : MethodLoop.t) := fold_left body ps st.

(** Case analysis of one iteration. *)
Ltac iteration st p :=
  unfold body, Method_body, Method_classify, argument_of, output_receiver,
    instance_receiver, temporary_output, callback, visible;
  destruct (receiver_match this p), (two_pointers p) eqn:?, (temporary_match this p);
  cbn [negb andb orb fst snd];
  rewrite ?truthy_parameter;
  destruct (PyStr.mem (FunctionParameter.type p) function_typedefs);
  destruct (MethodLoop.next_parameter_type st) as [npt|];
  try destruct (PyStr.truthy npt);
  cbn.

Lemma body_function st p :
  Method.function (MethodLoop.self (body st p)) = Method.function (MethodLoop.self st)
  /\ Method.is_destructor (MethodLoop.self (body st p))
     = Method.is_destructor (MethodLoop.self st).
Proof. iteration st p; split; reflexivity. Qed.

Lemma body_arguments st p :
  Method.arguments_ (MethodLoop.self (body st p))
  = (Method.arguments_ (MethodLoop.self st) ++ [argument_of this p])%list.
Proof. iteration st p; reflexivity. Qed.

Lemma body_parameters st p :
  Method.parameters_ (MethodLoop.self (body st p))
  = (Method.parameters_ (MethodLoop.self st)
     ++ if visible this p then [FunctionParameter.parameter p] else [])%list.
Proof. iteration st p; rewrite ?app_nil_r; reflexivity. Qed.

Lemma body_is_constructor st p :
  Method.is_constructor (MethodLoop.self (body st p))
  = Method.is_constructor (MethodLoop.self st) || output_receiver this p.
Proof. iteration st p; rewrite ?orb_false_r, ?orb_true_r; reflexivity. Qed.

Lemma body_is_const st p :
  Method.is_const (MethodLoop.self (body st p))
  = if instance_receiver this p
    then Some (PyStr.startswith (FunctionParameter.type p) "const ")
    else Method.is_const (MethodLoop.self st).
Proof. iteration st p; reflexivity. Qed.

Lemma body_temporary_object st p :
  Method.temporary_object (MethodLoop.self (body st p))
  = if temporary_output this p
    then Some (PyStr.replace (FunctionParameter.plain_type p) (Class.namespace this) "")
    else Method.temporary_object (MethodLoop.self st).
Proof. iteration st p; reflexivity. Qed.

Lemma body_template st p :
  let k := S (MethodLoop.type_number st) in
  let ns := Method.namespace (MethodLoop.self st) in
  Method.template_parameter_ (MethodLoop.self (body st p))
  = (Method.template_parameter_ (MethodLoop.self st)
     ++ if callback this function_typedefs p then template_entries ns (k, p) else [])%list
  /\ MethodLoop.type_number (body st p)
     = if callback this function_typedefs p then k else MethodLoop.type_number st.
Proof.
  iteration st p; rewrite ?app_nil_r; split; reflexivity.
Qed.

Lemma last_such_cons {A : Type} (test : A -> bool) (a : A) (l : list A) :
  last_such test (a :: l)
  = match last_such test l with
    | Some b => Some b
    | None => if test a then Some a else None
    end.
Proof.
  unfold last_such. simpl. destruct (test a); simpl.
  - destruct (rev (filter test l)); reflexivity.
  - destruct (rev (filter test l)); reflexivity.
Qed.

(** A parameter after which no parameter passes the test is the last
    one that does. *)
Lemma last_such_app {A : Type} (test : A -> bool) (l1 l2 : list A) (a : A) :
  test a = true -> forallb (fun b => negb (test b)) l2 = true ->
  last_such test (l1 ++ a :: l2) = Some a.
Proof.
  intros Ha Hl2. unfold last_such.
  rewrite filter_app. simpl. rewrite Ha.
  assert (Hnil : filter test l2 = []).
  { clear -Hl2. induction l2 as [|b l2 IH]; simpl in *; [reflexivity|].
    apply andb_true_iff in Hl2 as [Hb Hl2].
    apply negb_true_iff in Hb. rewrite Hb. now apply IH. }
  rewrite Hnil, rev_app_distr. reflexivity.
Qed.

Lemma run_function ps st :
  Method.function (MethodLoop.self (run ps st)) = Method.function (MethodLoop.self st)
  /\ Method.is_destructor (MethodLoop.self (run ps st))
     = Method.is_destructor (MethodLoop.self st).
Proof.
  revert st; induction ps as [|p ps IH]; intros st; simpl; [now split|].
  destruct (IH (body st p)) as [-> ->]. apply body_function.
Qed.

Lemma run_arguments ps st :
  Method.arguments_ (MethodLoop.self (run ps st))
  = (Method.arguments_ (MethodLoop.self st) ++ map (argument_of this) ps)%list.
Proof.
  revert st; induction ps as [|p ps IH]; intros st; simpl.
  - now rewrite app_nil_r.
  - unfold run in IH. rewrite IH, body_arguments, <- app_assoc. reflexivity.
Qed.

Lemma run_parameters ps st :
  Method.parameters_ (MethodLoop.self (run ps st))
  = (Method.parameters_ (MethodLoop.self st)
     ++ map FunctionParameter.parameter (filter (visible this) ps))%list.
Proof.
  revert st; induction ps as [|p ps IH]; intros st; simpl.
  - now rewrite app_nil_r.
  - unfold run in IH. rewrite IH, body_parameters, <- app_assoc.
    destruct (visible this p); reflexivity.
Qed.

Lemma run_is_constructor ps st :
  Method.is_constructor (MethodLoop.self (run ps st))
  = Method.is_constructor (MethodLoop.self st) || existsb (output_receiver this) ps.
Proof.
  revert st; induction ps as [|p ps IH]; intros st; simpl.
  - now rewrite orb_false_r.
  - unfold run in IH. rewrite IH, body_is_constructor, orb_assoc. reflexivity.
Qed.

Lemma run_is_const ps st :
  Method.is_const (MethodLoop.self (run ps st))
  = match last_such (instance_receiver this) ps with
    | Some q => Some (PyStr.startswith (FunctionParameter.type q) "const ")
    | None => Method.is_const (MethodLoop.self st)
    end.
Proof.
  revert st; induction ps as [|p ps IH]; intros st; simpl; [reflexivity|].
  unfold run in IH. rewrite IH, last_such_cons, body_is_const.
  destruct (last_such (instance_receiver this) ps); [reflexivity|].
  destruct (instance_receiver this p); reflexivity.
Qed.

Lemma run_temporary_object ps st :
  Method.temporary_object (MethodLoop.self (run ps st))
  = match last_such (temporary_output this) ps with
    | Some q => Some (PyStr.replace (FunctionParameter.plain_type q)
                                    (Class.namespace this) "")
    | None => Method.temporary_object (MethodLoop.self st)
    end.
Proof.
  revert st; induction ps as [|p ps IH]; intros st; simpl; [reflexivity|].
  unfold run in IH. rewrite IH, last_such_cons, body_temporary_object.
  destruct (last_such (temporary_output this) ps); [reflexivity|].
  destruct (temporary_output this p); reflexivity.
Qed.

Lemma run_template ps st :
  let cbs := filter (callback this function_typedefs) ps in
  Method.template_parameter_ (MethodLoop.self (run ps st))
  = (Method.template_parameter_ (MethodLoop.self st)
     ++ flat_map (template_entries (Method.namespace (MethodLoop.self st)))
          (combine (seq (S (MethodLoop.type_number st)) (List.length cbs)) cbs))%list.
Proof.
  revert st; induction ps as [|p ps IH]; intros st; simpl.
  - now rewrite app_nil_r.
  - unfold run in IH. rewrite IH.
    destruct (body_template st p) as [-> ->].
    unfold Method.namespace. rewrite (proj1 (body_function st p)).
    rewrite <- app_assoc.
    destruct (callback this function_typedefs p); reflexivity.
Qed.

End MethodLoop.

(** [Method(function, this, function_typedefs)], field by field. *)
Section MethodInit.

Variable function : Function.t.
Variable this : Class.t.
Variable function_typedefs : list string.

Let m := Method_init function this function_typedefs.
Let ps := Function.parameters function.

Lemma Method_init_function : Method.function m = function.
Proof. unfold m, Method_init. now rewrite (proj1 (run_function _ _ _ _)). Qed.

Lemma Method_init_arguments : Method.arguments_ m = map (argument_of this) ps.
Proof. unfold m, Method_init. now rewrite run_arguments. Qed.

Lemma Method_init_parameters :
  Method.parameters_ m = map FunctionParameter.parameter (filter (visible this) ps).
Proof. unfold m, Method_init. now rewrite run_parameters. Qed.

Lemma Method_init_is_constructor :
  Method.is_constructor m
  = Function.is_constructor function || existsb (output_receiver this) ps.
Proof. unfold m, Method_init. now rewrite run_is_constructor. Qed.

Lemma Method_init_is_const :
  Method.is_const m
  = option_map (fun q => PyStr.startswith (FunctionParameter.type q) "const ")
               (last_such (instance_receiver this) ps).
Proof.
  unfold m, Method_init. rewrite run_is_const. fold ps.
  destruct (last_such (instance_receiver this) ps); reflexivity.
Qed.

Lemma Method_init_temporary_object :
  Method.temporary_object m
  = option_map (fun q => PyStr.replace (FunctionParameter.plain_type q)
                                       (Class.namespace this) "")
               (last_such (temporary_output this) ps).
Proof.
  unfold m, Method_init. rewrite run_temporary_object. fold ps.
  destruct (last_such (temporary_output this) ps); reflexivity.
Qed.

Lemma Method_init_template :
  let cbs := filter (callback this function_typedefs) ps in
  Method.template_parameter_ m
  = flat_map (template_entries (Function.namespace function))
             (combine (seq 1 (List.length cbs)) cbs).
Proof. unfold m, Method_init. now rewrite run_template. Qed.

End MethodInit.

(** The sample header yields the methods the examples below look at. *)
Example nats_h_methods :
  let method decl class := Method_init (Sample.normalized decl) (Sample.class class)
                                       Sample.callbacks in
  Sample.methods (parse Sample.nats_h)
  = [ ("natsConnection",
       [ method (Sample.destroy "natsConnection") "natsConnection";
         method Sample.natsConnection_ReadLast "natsConnection";
         method Sample.natsConnection_SetHandler "natsConnection";
         method Sample.natsConnection_Subscribe "natsConnection";
         method Sample.natsConnection_IsClosed "natsConnection" ]);
      ("natsSubscription",
       [ method (Sample.destroy "natsSubscription") "natsSubscription" ]);
      ("natsMsg",
       [ method (Sample.destroy "natsMsg") "natsMsg";
         method Sample.natsMsg_Equal "natsMsg" ]);
      ("natsFoo",
       [ method (Sample.destroy "natsFoo") "natsFoo";
         method Sample.natsFoo_SetCallback "natsFoo" ]) ].
Proof. vm_compute. reflexivity. Qed.

(* ================================================================= *)
(** ** Receivers (C1) *)

Lemma filter_app_cons {A : Type} (test : A -> bool) (l1 l2 : list A) (a : A) :
  test a = false -> filter test (l1 ++ a :: l2) = (filter test l1 ++ filter test l2)%list.
Proof. intros H. rewrite filter_app. simpl. now rewrite H. Qed.

Lemma nth_error_map_middle {A B : Type} (g : A -> B) (l1 l2 : list A) (a : A) :
  nth_error (map g (l1 ++ a :: l2)) (List.length l1) = Some (g a).
Proof.
  rewrite nth_error_map, nth_error_app2 by lia.
  now rewrite Nat.sub_diag.
Qed.

Lemma replace_scan_absent (old new s : string) :
  occurs old s = false -> PyStr.replace_scan old new 0 s = s.
Proof.
  induction s as [|c s IH]; intros H; [reflexivity|].
  cbn [occurs] in H. apply orb_false_iff in H as [Hhere Hlater].
  cbn [PyStr.replace_scan]. rewrite Hhere. now rewrite IH.
Qed.

(** Where [const ] occurs in a type spelling only at its start, the
    receiver test looks at the spelling without that qualifier. *)
Lemma receiver_match_leading_const (this : Class.t) (p : FunctionParameter.t) :
  occurs "const " (without_leading_const (FunctionParameter.type p)) = false ->
  receiver_match this p
  = PyStr.startswith (without_leading_const (FunctionParameter.type p))
                     (Class.original_type this).
Proof.
  unfold receiver_match, without_leading_const, PyStr.replace.
  destruct (PyStr.startswith (FunctionParameter.type p) "const ") eqn:Hconst.
  - apply startswith_inv in Hconst as [t ->].
    simpl. intros H. now rewrite (replace_scan_absent _ _ _ H).
  - intros H. now rewrite (replace_scan_absent _ _ _ H).
Qed.

(** C1 (as amended).  Let [p] be a parameter of a function assigned to the
    class [this] whose type spelling, with [const ] removed (a leading
    [const ], where it is the only one), starts with the original type name
    of the class.  The parameter adds nothing to the public parameter list.
    With two levels of pointer indirection, the method is marked as a
    constructor and the dispatched call passes [&self] at the place of [p];
    otherwise it passes [self] there, and when [p] is the last such instance
    receiver of the function, the method is const if and only if the type
    spelling of [p] starts with [const ]. *)
Theorem C1_receiver_parameter
        (function : Function.t) (this : Class.t) (function_typedefs : list string)
        (before after : list FunctionParameter.t) (p : FunctionParameter.t) :
  Function.parameters function = (before ++ p :: after)%list ->
  receiver_match this p = true ->
  let m := Method_init function this function_typedefs in
  let public l := map FunctionParameter.parameter (filter (visible this) l) in
  Method.parameters_ m = (public before ++ public after)%list
  /\ (two_pointers p = true ->
      Method.is_constructor m = true
      /\ nth_error (Method.arguments_ m) (List.length before) = Some "&self")
  /\ (two_pointers p = false ->
      nth_error (Method.arguments_ m) (List.length before) = Some "self"
      /\ (forallb (fun q => negb (instance_receiver this q)) after = true ->
          forall b : bool,
            Method.is_const m = Some b
            <-> PyStr.startswith (FunctionParameter.type p) "const " = b)).
Proof.
  intros Hps Hrecv m public.
  assert (Hvis : visible this p = false) by (unfold visible; now rewrite Hrecv).
  assert (Harg : nth_error (Method.arguments_ m) (List.length before)
                 = Some (if two_pointers p then "&self" else "self")).
  { unfold m. rewrite Method_init_arguments, Hps, nth_error_map_middle.
    unfold argument_of. now rewrite Hrecv. }
  split; [|split].
  - unfold m, public. rewrite Method_init_parameters, Hps.
    now rewrite (filter_app_cons _ _ _ _ Hvis), map_app.
  - intros Htwo. rewrite Htwo in Harg. split; [|exact Harg].
    unfold m. rewrite Method_init_is_constructor, Hps, existsb_app. simpl.
    unfold output_receiver at 2. rewrite Hrecv, Htwo. simpl.
    now rewrite !orb_true_r.
  - intros Htwo. rewrite Htwo in Harg. split; [exact Harg|].
    intros Hlast b. unfold m. rewrite Method_init_is_const, Hps.
    rewrite (last_such_app _ before after p); simpl.
    + split; [now intros [= ->]|now intros ->].
    + unfold instance_receiver. now rewrite Hrecv, Htwo.
    + exact Hlast.
Qed.

(** C1 holds of the destructor of the sample header: its only parameter is
    the instance receiver. *)
Lemma C1_receiver_parameter_witness :
  let m := Method_init (Sample.normalized (Sample.destroy "natsMsg"))
                       (Sample.class "natsMsg") Sample.callbacks in
  Method.parameters_ m = []
  /\ nth_error (Method.arguments_ m) 0 = Some "self"
  /\ Method.is_const m = Some false.
Proof.
  pose proof (C1_receiver_parameter
                (Sample.normalized (Sample.destroy "natsMsg"))
                (Sample.class "natsMsg") Sample.callbacks
                [] [] (FunctionParameter_init (Sample.parm "natsMsg *" "self"))
                eq_refl eq_refl) as [Hpub [_ Hone]].
  destruct (Hone eq_refl) as [Harg Hconst].
  split; [exact Hpub|split; [exact Harg|]].
  apply (Hconst eq_refl false). reflexivity.
Defined.

(** The claim as stated fails on [natsMsg_Equal(const natsMsg *a, natsMsg *b)]:
    [a] matches the receiver rule with one level of indirection and carries
    a const qualifier, and the method is not const, because [b] sets the
    flag after [a]. *)
Lemma C1_counterexample :
  receiver_match (Sample.class "natsMsg") (FunctionParameter_init Sample.msg_a) = true
  /\ two_pointers (FunctionParameter_init Sample.msg_a) = false
  /\ PyStr.startswith (FunctionParameter.type (FunctionParameter_init Sample.msg_a))
                      "const " = true
  /\ In (FunctionParameter_init Sample.msg_a)
        (Function.parameters (Sample.normalized Sample.natsMsg_Equal))
  /\ Method.is_const (Method_init (Sample.normalized Sample.natsMsg_Equal)
                                  (Sample.class "natsMsg") Sample.callbacks)
     = Some false.
Proof. repeat split; try reflexivity. now left. Qed.

(* ================================================================= *)
(** ** Temporary-output objects (C5) *)

Lemma replace_star_solid (ns t : string) :
  solid ns = true ->
  PyStr.replace_scan "*" "" 0 (ns ++ t) = ns ++ PyStr.replace_scan "*" "" 0 t.
Proof.
  induction ns as [|c ns IH]; intros H; [reflexivity|].
  simpl in H. apply andb_true_iff in H as [[Hc _]%andb_true_iff H].
  apply negb_true_iff in Hc.
  cbn [append PyStr.replace_scan PyStr.startswith].
  rewrite Ascii.eqb_sym, Hc. cbn [andb]. now rewrite IH.
Qed.

Lemma rstrip_solid (ns t : string) :
  solid ns = true -> PyStr.rstrip (ns ++ t) = ns ++ PyStr.rstrip t.
Proof.
  induction ns as [|c ns IH]; intros H; [reflexivity|].
  simpl in H. apply andb_true_iff in H as [[_ Hc]%andb_true_iff H].
  apply negb_true_iff in Hc.
  cbn [append PyStr.rstrip]. rewrite (IH H), Hc.
  now destruct (ns ++ PyStr.rstrip t).
Qed.

Lemma lstrip_solid (ns t : string) :
  solid ns = true -> ns <> EmptyString -> PyStr.lstrip (ns ++ t) = ns ++ t.
Proof.
  destruct ns as [|c ns]; intros H Hne; [congruence|].
  simpl in H. apply andb_true_iff in H as [[_ Hc]%andb_true_iff H].
  apply negb_true_iff in Hc. simpl. now rewrite Hc.
Qed.

(** A type spelling that starts with a solid name has a plain type that
    starts with it. *)
Lemma plain_type_startswith (p : FunctionParameter.t) (ns : string) :
  solid ns = true ->
  PyStr.startswith (FunctionParameter.type p) ns = true ->
  PyStr.startswith (FunctionParameter.plain_type p) ns = true.
Proof.
  intros Hsolid [t Ht]%startswith_inv.
  destruct ns as [|c ns]; [reflexivity|].
  unfold FunctionParameter.plain_type, PyStr.strip, PyStr.replace. rewrite Ht.
  rewrite (replace_star_solid _ _ Hsolid).
  rewrite (lstrip_solid _ _ Hsolid) by discriminate.
  rewrite (rstrip_solid _ _ Hsolid).
  apply startswith_app.
Qed.

(** C5 (as amended).  Let [p] be a parameter of a function assigned to the
    class [this] that does not match the receiver rule, has two levels of
    pointer indirection and whose type spelling starts with the namespace
    name of the class.  The dispatched call passes [&ret.self] at the place
    of [p], and [p] adds nothing to the public parameter list.  When [p] is
    the last such parameter of the function, the temporary object is the
    plain type of [p] with the namespace name removed, and unless that
    string is empty it is the result type of the method, whatever the
    function declares.  The plain type of [p] starts with the namespace
    name as its type spelling does. *)
Theorem C5_temporary_output
        (function : Function.t) (this : Class.t) (function_typedefs : list string)
        (before after : list FunctionParameter.t) (p : FunctionParameter.t) :
  Function.parameters function = (before ++ p :: after)%list ->
  receiver_match this p = false ->
  two_pointers p = true ->
  PyStr.startswith (FunctionParameter.type p) (Class.namespace this) = true ->
  let m := Method_init function this function_typedefs in
  let public l := map FunctionParameter.parameter (filter (visible this) l) in
  let short := PyStr.replace (FunctionParameter.plain_type p) (Class.namespace this) "" in
  nth_error (Method.arguments_ m) (List.length before) = Some "&ret.self"
  /\ Method.parameters_ m = (public before ++ public after)%list
  /\ (forallb (fun q => negb (temporary_output this q)) after = true ->
      Method.temporary_object m = Some short
      /\ (short <> "" -> Method.result_type m = short))
  /\ (solid (Class.namespace this) = true ->
      PyStr.startswith (FunctionParameter.plain_type p) (Class.namespace this) = true).
Proof.
  intros Hps Hrecv Htwo Hns m public short.
  assert (Htemp : temporary_match this p = true)
    by (unfold temporary_match; now rewrite Htwo, Hns).
  assert (Hvis : visible this p = false)
    by (unfold visible; now rewrite Hrecv, Htemp).
  split; [|split; [|split]]; [| | |intros Hsolid; now apply plain_type_startswith].
  - unfold m. rewrite Method_init_arguments, Hps, nth_error_map_middle.
    unfold argument_of. now rewrite Hrecv, Htemp.
  - unfold m, public. rewrite Method_init_parameters, Hps.
    now rewrite (filter_app_cons _ _ _ _ Hvis), map_app.
  - intros Hlast.
    assert (Hobj : Method.temporary_object m = Some short).
    { unfold m. rewrite Method_init_temporary_object, Hps.
      rewrite (last_such_app _ before after p); [reflexivity| |exact Hlast].
      unfold temporary_output. now rewrite Hrecv, Htemp. }
    split; [exact Hobj|].
    intros Hshort. unfold Method.result_type. rewrite Hobj. simpl.
    unfold PyStr.truthy.
    apply String.eqb_neq in Hshort. now rewrite Hshort.
Qed.

(** C5 holds of [natsConnection_Subscribe] of the sample header: the
    subscription it returns through [sub] is the result of the method. *)
Lemma C5_temporary_output_witness :
  let m := Method_init (Sample.normalized Sample.natsConnection_Subscribe)
                       (Sample.class "natsConnection") Sample.callbacks in
  nth_error (Method.arguments_ m) 0 = Some "&ret.self"
  /\ Method.parameters_ m
     = ["const char * subject"; "natsOnMsgHandler cb"; "void * cbClosure"]
  /\ Method.result_type m = "Subscription".
Proof.
  pose proof (C5_temporary_output
                (Sample.normalized Sample.natsConnection_Subscribe)
                (Sample.class "natsConnection") Sample.callbacks
                [] _ (FunctionParameter_init Sample.out_sub)
                eq_refl eq_refl eq_refl eq_refl) as [Harg [Hpub [Hres _]]].
  split; [exact Harg|split; [exact Hpub|]].
  apply (Hres eq_refl). discriminate.
Defined.

(** The claim as stated fails on [natsConnection_ReadLast(natsSubscription
    **sub, natsMsg **msg, natsConnection *nc)]: [sub] takes the
    temporary-output branch, and the result type of the method is the one
    [msg] sets after it. *)
Lemma C5_counterexample :
  temporary_output (Sample.class "natsConnection")
                   (FunctionParameter_init Sample.out_sub) = true
  /\ In (FunctionParameter_init Sample.out_sub)
        (Function.parameters (Sample.normalized Sample.natsConnection_ReadLast))
  /\ Class.name (Sample.class "natsSubscription") = "Subscription"
  /\ Method.result_type (Method_init (Sample.normalized Sample.natsConnection_ReadLast)
                                     (Sample.class "natsConnection") Sample.callbacks)
     = "Msg".
Proof. repeat split; try reflexivity. now left. Qed.

(* ================================================================= *)
(** ** Template parameters of callbacks (C6, C7) *)

Lemma template_types_entries (namespace : string)
      (l : list (nat * FunctionParameter.t)) :
  template_types (flat_map (template_entries namespace) l)
  = map (fun kp => "typename T" ++ PyStr.of_nat (fst kp)) l.
Proof.
  induction l as [|[k p] l IH]; simpl; [reflexivity|]. now rewrite IH.
Qed.

Lemma map_fst_combine_seq {A : Type} (l : list A) (start : nat) :
  map fst (combine (seq start (List.length l)) l) = seq start (List.length l).
Proof.
  revert start; induction l as [|a l IH]; intros start; simpl; [reflexivity|].
  now rewrite IH.
Qed.

(** C6 (as amended).  The callback parameters of a method are the
    parameters that match neither the receiver rule nor the
    temporary-output rule and whose exact type spelling is the name of a
    known callback typedef.  [template_parameter_] holds two entries for
    each of them, in the order of the parameters, the [k]-th numbered [k];
    so the template type parameters are [typename T1], [typename T2], ...,
    as many as there are callback parameters.  When no parameter with the
    type of a callback typedef matches the receiver rule or the
    temporary-output rule, they are as many as the parameters with such a
    type. *)
Theorem C6_template_parameters
        (function : Function.t) (this : Class.t) (function_typedefs : list string) :
  let m := Method_init function this function_typedefs in
  let callbacks := filter (callback this function_typedefs)
                          (Function.parameters function) in
  let n := List.length callbacks in
  Method.template_parameter_ m
  = flat_map (template_entries (Function.namespace function))
             (combine (seq 1 n) callbacks)
  /\ template_types (Method.template_parameter_ m)
     = map (fun k => "typename T" ++ PyStr.of_nat k) (seq 1 n)
  /\ List.length (template_types (Method.template_parameter_ m)) = n
  /\ (forallb (fun p => implb (PyStr.mem (FunctionParameter.type p) function_typedefs)
                               (visible this p))
               (Function.parameters function) = true ->
      n = List.length (filter (fun p => PyStr.mem (FunctionParameter.type p)
                                                  function_typedefs)
                              (Function.parameters function))).
Proof.
  intros m callbacks n.
  assert (H : Method.template_parameter_ m
              = flat_map (template_entries (Function.namespace function))
                         (combine (seq 1 n) callbacks))
    by apply Method_init_template.
  assert (Htypes : template_types (Method.template_parameter_ m)
                   = map (fun k => "typename T" ++ PyStr.of_nat k) (seq 1 n)).
  { rewrite H, template_types_entries. unfold n.
    rewrite <- (map_fst_combine_seq callbacks 1) at 2.
    now rewrite map_map. }
  split; [exact H|split; [exact Htypes|split]].
  - now rewrite Htypes, length_map, length_seq.
  - intros Hall. unfold n, callbacks. f_equal.
    apply filter_ext_in. intros p Hp.
    rewrite forallb_forall in Hall. specialize (Hall p Hp).
    unfold callback.
    destruct (PyStr.mem (FunctionParameter.type p) function_typedefs);
      [|now rewrite andb_false_r].
    simpl in Hall. now rewrite Hall.
Qed.

(** C6 on [natsFoo_SetCallback(natsFoo *foo, natsOnMsgHandler cb, void
    *closure)] of the sample header: one callback parameter, one template
    type parameter. *)
Lemma C6_template_parameters_witness :
  let f := Sample.normalized Sample.natsFoo_SetCallback in
  let m := Method_init f (Sample.class "natsFoo") Sample.callbacks in
  template_types (Method.template_parameter_ m) = ["typename T1"]
  /\ List.length (template_types (Method.template_parameter_ m))
     = List.length (filter (fun p => PyStr.mem (FunctionParameter.type p) Sample.callbacks)
                           (Function.parameters f)).
Proof.
  intros f m.
  destruct (C6_template_parameters f (Sample.class "natsFoo") Sample.callbacks)
    as (_ & Htypes & Hlen & Hall).
  split; [exact Htypes|].
  exact (eq_trans Hlen (Hall eq_refl)).
Defined.

(** The claim as stated fails on [natsConnection_SetHandler(natsConnection
    *nc, natsConnectionHandler cb, void *closure)]: the type spelling of
    [cb] is the name of a known callback typedef, and since it starts with
    [natsConnection] the parameter is taken for a receiver and the method
    has no template parameter. *)
Lemma C6_counterexample :
  filter (fun p => PyStr.mem (FunctionParameter.type p) Sample.callbacks)
         (Function.parameters (Sample.normalized Sample.natsConnection_SetHandler))
  = [FunctionParameter_init Sample.handler]
  /\ Method.template_parameter_
       (Method_init (Sample.normalized Sample.natsConnection_SetHandler)
                    (Sample.class "natsConnection") Sample.callbacks)
     = [].
Proof. split; reflexivity. Qed.

(** C7 (as amended).  For a function whose parameters are an instance
    receiver of the class, a callback parameter [cb] and a plain parameter
    [closure] that is not a callback: the method has the template type
    parameter [T1] and the handler parameter [callback1]; the public
    parameter list holds both [cb] and [closure] as the function declares
    them; the forwarded parameter list holds [closure] alone, with [void]
    replaced by [T1]; and the forwarded call passes the callback adapter
    bound to [T1] and the name of [closure]. *)
Theorem C7_set_callback
        (function : Function.t) (this : Class.t) (function_typedefs : list string)
        (receiver cb closure : FunctionParameter.t) :
  Function.parameters function = [receiver; cb; closure] ->
  instance_receiver this receiver = true ->
  callback this function_typedefs cb = true ->
  visible this closure = true ->
  PyStr.mem (FunctionParameter.type closure) function_typedefs = false ->
  let m := Method_init function this function_typedefs in
  let template := template_of (Function.namespace function) cb in
  Method.template_parameter_ m = ["typename T1"; template ++ "<T1> callback1"]
  /\ Method.parameters_ m
     = [FunctionParameter.parameter cb; FunctionParameter.parameter closure]
  /\ Method.forward_parameters_ m
     = [PyStr.replace (FunctionParameter.parameter closure) "void" "T1"]
  /\ Method.forward_arguments_ m
     = ["&" ++ template ++ "Callback<T1, callback1>"; FunctionParameter.name closure]
  /\ Method.arguments_ m
     = ["self"; FunctionParameter.name cb; FunctionParameter.name closure].
Proof.
  intros Hps Hrecv Hcb Hclo Hplain m template.
  unfold instance_receiver in Hrecv. apply andb_true_iff in Hrecv as [Hr1 Hr2].
  apply negb_true_iff in Hr2.
  unfold callback, visible in Hcb, Hclo.
  apply andb_true_iff in Hcb as [Hcb Hmem].
  apply andb_true_iff in Hcb as [Hc1 Hc2].
  apply andb_true_iff in Hclo as [Hl1 Hl2].
  apply negb_true_iff in Hc1, Hc2, Hl1, Hl2.
  assert (E : m = Method.mk function
                 ["self"; FunctionParameter.name cb; FunctionParameter.name closure]
                 [FunctionParameter.parameter cb; FunctionParameter.parameter closure]
                 ["&" ++ template ++ "Callback<T1, callback1>";
                  FunctionParameter.name closure]
                 [PyStr.replace (FunctionParameter.parameter closure) "void" "T1"]
                 (Function.is_constructor function) (Function.is_destructor function)
                 None
                 ["typename T1"; template ++ "<T1> callback1"]
                 (Some (PyStr.startswith (FunctionParameter.type receiver) "const "))).
  { unfold m, template, template_of, Method_init, Method_start. rewrite Hps.
    cbn [fold_left].
    unfold Method_body at 3, Method_classify. rewrite Hr1, Hr2.
    cbn [MethodLoop.self MethodLoop.type_number MethodLoop.next_parameter_type].
    unfold Method_body at 2, Method_classify. rewrite Hc1, Hc2, truthy_parameter, Hmem.
    cbn [MethodLoop.self MethodLoop.type_number MethodLoop.next_parameter_type].
    unfold Method_body, Method_classify. rewrite Hl1, Hl2, truthy_parameter, Hplain.
    cbn [MethodLoop.self MethodLoop.type_number MethodLoop.next_parameter_type].
    change (PyStr.truthy ("T" ++ PyStr.of_nat 1)) with true.
    reflexivity. }
  rewrite E. repeat split.
Qed.

(** C7 on [natsFoo_SetCallback(natsFoo *foo, natsOnMsgHandler cb, void
    *closure)] of the sample header. *)
Lemma C7_set_callback_witness :
  let m := Method_init (Sample.normalized Sample.natsFoo_SetCallback)
                       (Sample.class "natsFoo") Sample.callbacks in
  Method.template_parameter_ m = ["typename T1"; "OnMsgHandler<T1> callback1"]
  /\ Method.parameters_ m = ["natsOnMsgHandler cb"; "void * closure"]
  /\ Method.forward_parameters_ m = ["T1 * closure"]
  /\ Method.forward_arguments_ m = ["&OnMsgHandlerCallback<T1, callback1>"; "closure"]
  /\ Method.arguments_ m = ["self"; "cb"; "closure"].
Proof.
  exact (C7_set_callback
           (Sample.normalized Sample.natsFoo_SetCallback)
           (Sample.class "natsFoo") Sample.callbacks
           (FunctionParameter_init Sample.foo)
           (FunctionParameter_init Sample.on_msg)
           (FunctionParameter_init Sample.closure)
           eq_refl eq_refl eq_refl eq_refl eq_refl).
Defined.

(** The claim as stated fails on that function: the public parameter list
    of the method is not empty, since the callback and the closure are both
    in it; the forwarded parameter list is not empty either. *)
Lemma C7_counterexample :
  Method.parameters_ (Method_init (Sample.normalized Sample.natsFoo_SetCallback)
                                  (Sample.class "natsFoo") Sample.callbacks)
  = ["natsOnMsgHandler cb"; "void * closure"]
  /\ Method.parameters (Method_init (Sample.normalized Sample.natsFoo_SetCallback)
                                    (Sample.class "natsFoo") Sample.callbacks)
     = "natsOnMsgHandler cb, void * closure"
  /\ Method.forward_parameters (Method_init (Sample.normalized Sample.natsFoo_SetCallback)
                                            (Sample.class "natsFoo") Sample.callbacks)
     = "T1 * closure".
Proof. repeat split. Qed.

(* ================================================================= *)
(** ** Status codes (C8) *)

Lemma Function_init_inv (cursor : Cursor) (f : Function.t) :
  Function_init cursor = Ok f ->
  Function.original_function f = spelling cursor
  /\ Function.result_type f
     = (if String.eqb (get_type (result_type cursor)) "natsStatus"
        then "void" else get_type (result_type cursor))
  /\ Function.with_exception f = String.eqb (get_type (result_type cursor)) "natsStatus"
  /\ Function.parameters f = map FunctionParameter_init (get_arguments cursor).
Proof.
  unfold Function_init, bind. intros H.
  destruct (index _ 0); [|discriminate].
  destruct (index _ 1); [|discriminate].
  injection H as <-. repeat split.
Qed.

Lemma get_type_natsStatus (t : CType) :
  String.eqb (get_type t) "natsStatus" = String.eqb (type_spelling t) "natsStatus".
Proof.
  unfold get_type. destruct (String.eqb_spec (type_spelling t) "_Bool") as [->|]; reflexivity.
Qed.

(** The public result type of a method, from the parameters of its
    function. *)
Lemma Method_init_result_type
      (function : Function.t) (this : Class.t) (function_typedefs : list string) :
  Method.result_type (Method_init function this function_typedefs)
  = public_result this (Function.parameters function) (Function.result_type function).
Proof.
  unfold Method.result_type, public_result.
  rewrite Method_init_temporary_object, Method_init_function.
  destruct (last_such (temporary_output this) (Function.parameters function)) as [q|];
    [|reflexivity].
  cbn [option_map PyStr.truthy_opt].
  destruct (PyStr.truthy _); reflexivity.
Qed.

(** C8 (as amended).  A function declared with result type [natsStatus] is
    normalized to result type [void] with [with_exception] set, and the
    dispatched call of the free function and of a method made of it is
    wrapped in [Exception::CheckResult(...)].  A function declared with
    another result type keeps it, [_Bool] being spelled [bool]; its flag is
    not set and its call is not wrapped.  The public result type of the
    free function is the normalized result type.  The public result type of
    a method is the plain type of the last temporary-output parameter of
    the function without the namespace name of the class, when the function
    has such a parameter and that string is not empty, and the normalized
    result type otherwise: [void] for a function declared with
    [natsStatus], the declared type for another. *)
Theorem C8_status_result (cursor : Cursor) (f : Function.t) :
  Function_init cursor = Ok f ->
  let declared := type_spelling (result_type cursor) in
  let call (arguments_ : list string) :=
    Function.original_function f ++ "(" ++ PyStr.join ", " arguments_ ++ ")" in
  (declared = "natsStatus" ->
   Function.result_type f = "void" /\ Function.with_exception f = true
   /\ GlobalFunction.result_type (GlobalFunction_init f) = "void"
   /\ GlobalFunction.with_exception (GlobalFunction_init f) = true
   /\ GlobalFunction.invocation (GlobalFunction_init f)
      = "Exception::CheckResult("
          ++ call (GlobalFunction.arguments_ (GlobalFunction_init f)) ++ ")"
   /\ forall this function_typedefs,
       let m := Method_init f this function_typedefs in
       Method.with_exception m = true
       /\ Method.invocation m
          = "Exception::CheckResult(" ++ call (Method.arguments_ m) ++ ")"
       /\ Method.result_type m = public_result this (Function.parameters f) "void"
       /\ (PyStr.truthy_opt (Method.temporary_object m) = false ->
           Method.result_type m = "void")
       /\ (existsb (temporary_output this) (Function.parameters f) = false ->
           Method.result_type m = "void"))
  /\ (declared <> "natsStatus" ->
      let kept := if String.eqb declared "_Bool" then "bool" else declared in
      Function.result_type f = kept
      /\ Function.with_exception f = false
      /\ GlobalFunction.result_type (GlobalFunction_init f) = kept
      /\ GlobalFunction.invocation (GlobalFunction_init f)
         = call (GlobalFunction.arguments_ (GlobalFunction_init f))
      /\ forall this function_typedefs,
          let m := Method_init f this function_typedefs in
          Method.with_exception m = false
          /\ Method.invocation m = call (Method.arguments_ m)
          /\ Method.result_type m = public_result this (Function.parameters f) kept
          /\ (PyStr.truthy_opt (Method.temporary_object m) = false ->
              Method.result_type m = kept)
          /\ (existsb (temporary_output this) (Function.parameters f) = false ->
              Method.result_type m = kept)).
Proof.
  intros Hinit declared call.
  destruct (Function_init_inv _ _ Hinit) as (Hname & Hres & Hexc & _).
  rewrite get_type_natsStatus in Hres, Hexc. fold declared in Hres, Hexc.
  assert (Hnone : forall this result,
             existsb (temporary_output this) (Function.parameters f) = false ->
             public_result this (Function.parameters f) result = result).
  { intros this result Hno. unfold public_result, last_such.
    replace (filter (temporary_output this) (Function.parameters f)) with
      (@nil FunctionParameter.t); [reflexivity|].
    symmetry. induction (Function.parameters f) as [|p l IH]; [reflexivity|].
    simpl in Hno |- *. apply orb_false_iff in Hno as [-> Hno]. now apply IH. }
  split; intros Hdecl.
  - apply String.eqb_eq in Hdecl. rewrite Hdecl in Hres, Hexc.
    split; [exact Hres|]. split; [exact Hexc|].
    split; [exact Hres|]. split; [exact Hexc|].
    split.
    + unfold GlobalFunction.invocation, FunctionProxy.invocation. simpl.
      now rewrite Hexc.
    + intros this ftds m.
      assert (Hshown : Method.result_type m
                       = public_result this (Function.parameters f) "void")
        by (unfold m; now rewrite Method_init_result_type, Hres).
      unfold Method.with_exception, Method.invocation, FunctionProxy.invocation.
      unfold m. rewrite Method_init_function, Hexc. fold m.
      split; [reflexivity|]. split; [reflexivity|]. split; [exact Hshown|].
      split.
      * unfold Method.result_type. intros ->.
        unfold m. now rewrite Method_init_function.
      * intros Hno. now rewrite Hshown, Hnone.
  - apply String.eqb_neq in Hdecl. rewrite Hdecl in Hres, Hexc.
    intros kept. fold kept in Hres.
    split; [exact Hres|]. split; [exact Hexc|]. split; [exact Hres|].
    split.
    + unfold GlobalFunction.invocation, FunctionProxy.invocation. simpl.
      now rewrite Hexc.
    + intros this ftds m.
      assert (Hshown : Method.result_type m
                       = public_result this (Function.parameters f) kept)
        by (unfold m; now rewrite Method_init_result_type, Hres).
      unfold Method.with_exception, Method.invocation, FunctionProxy.invocation.
      unfold m. rewrite Method_init_function, Hexc. fold m.
      split; [reflexivity|]. split; [reflexivity|]. split; [exact Hshown|].
      split.
      * unfold Method.result_type. intros ->.
        unfold m. now rewrite Method_init_function.
      * intros Hno. now rewrite Hshown, Hnone.
Qed.

(** C8 on [natsConnection_Subscribe], declared with result type
    [natsStatus]: its calls are wrapped, and the method of [natsConnection]
    made of it has the result type [Subscription] of its temporary-output
    parameter [sub]. *)
Lemma C8_status_result_witness :
  let f := Sample.normalized Sample.natsConnection_Subscribe in
  let m := Method_init f (Sample.class "natsConnection") Sample.callbacks in
  Function.result_type f = "void"
  /\ Function.with_exception f = true
  /\ GlobalFunction.invocation (GlobalFunction_init f)
     = "Exception::CheckResult(natsConnection_Subscribe(sub, nc, subject, cb, cbClosure))"
  /\ Method.invocation m
     = "Exception::CheckResult(natsConnection_Subscribe(&ret.self, self, subject, cb, cbClosure))"
  /\ Method.result_type m = "Subscription".
Proof.
  intros f m.
  destruct (C8_status_result Sample.natsConnection_Subscribe f eq_refl) as [Hstatus _].
  destruct (Hstatus eq_refl) as (Hres & Hexc & _ & _ & Hcall & Hmethod).
  destruct (Hmethod (Sample.class "natsConnection") Sample.callbacks)
    as (_ & Hcall' & Hshown & _).
  split; [exact Hres|split; [exact Hexc|split; [exact Hcall|split; [exact Hcall'|]]]].
  exact Hshown.
Defined.

(** The claim as stated fails twice.  [natsConnection_Subscribe] is declared
    with result type [natsStatus], and the public result type of its method
    is [Subscription]; [natsConnection_IsClosed] is declared with result
    type [_Bool], and the result type of its binding is [bool]. *)
Lemma C8_counterexample :
  (type_spelling (result_type Sample.natsConnection_Subscribe) = "natsStatus"
   /\ Method.result_type (Method_init (Sample.normalized Sample.natsConnection_Subscribe)
                                      (Sample.class "natsConnection") Sample.callbacks)
      = "Subscription")
  /\ (type_spelling (result_type Sample.natsConnection_IsClosed) = "_Bool"
      /\ Method.result_type (Method_init (Sample.normalized Sample.natsConnection_IsClosed)
                                         (Sample.class "natsConnection") Sample.callbacks)
         = "bool").
Proof. repeat split. Qed.

(* ================================================================= *)
(** ** The first loop of [parse] *)

(** The body of the loop, by the kind of the declaration. *)
Lemma parse_declaration_cases (st : Declarations.t) (d : Cursor) :
  parse_declaration st d
  = if is_function_decl d then
      f <- Function_init d ;; Ok (add_function_decl st f)
    else if is_plain_typedef d then Ok (add_typedef_decl st (Typedef_init d))
    else if is_enum_typedef d then Ok (add_enum_decl st (Enum_init d))
    else if is_function_typedef d then
      ftd <- FunctionTypedef_init d ;; Ok (add_function_typedef_decl st ftd)
    else Ok st.
Proof.
  unfold parse_declaration, is_function_typedef, is_plain_typedef, is_enum_typedef,
    is_typedef_decl, is_function_decl.
  destruct (recognized (spelling d)); simpl; [|reflexivity].
  destruct (kind d); simpl; try reflexivity.
  destruct (get_children d) as [|c [|c' l]]; simpl; try reflexivity.
  destruct (CursorKind_eqb (kind c) ENUM_DECL) eqn:He; simpl.
  - reflexivity.
  - destruct (CursorKind_eqb (kind c) TYPE_REF); reflexivity.
Qed.

(** The four kinds exclude one another. *)
Lemma kinds_exclusive (d : Cursor) :
  (is_function_decl d = true -> is_plain_typedef d = false
                                /\ is_function_typedef d = false)
  /\ (is_plain_typedef d = true -> is_function_typedef d = false).
Proof.
  unfold is_function_typedef, is_plain_typedef, is_enum_typedef,
    is_typedef_decl, is_function_decl.
  destruct (recognized (spelling d)), (kind d); simpl; repeat split; try discriminate;
    try reflexivity.
  intros ->. reflexivity.
Qed.

(* ----------------------------------------------------------------- *)
(** *** When the constructors raise *)

Lemma split_first (sep : ascii) (n : nat) (s : string) :
  exists h t, PyStr.split sep n s = h :: t.
Proof.
  revert n; induction s as [|c s IH]; intros n; simpl; [now eexists; eexists|].
  destruct n as [|n]; [now eexists; eexists|].
  destruct (Ascii.eqb c sep); [now eexists; eexists|].
  destruct (IH (S n)) as (h & t & ->). now eexists; eexists.
Qed.

Lemma split_second (sep : ascii) (n : nat) (s : string) :
  (exists h h' t, PyStr.split sep (S n) s = h :: h' :: t) <-> contains sep s = true.
Proof.
  induction s as [|c s IH].
  - simpl. split; [intros (h & h' & t & [=])|discriminate].
  - cbn [PyStr.split contains]. destruct (Ascii.eqb c sep); cbn [orb].
    + split; [reflexivity|]. intros _.
      destruct (split_first sep n s) as (h & t & ->). now do 3 eexists.
    + rewrite <- IH. destruct (split_first sep (S n) s) as (h & t & ->).
      split.
      * intros (h1 & h2 & t' & [= _ ->]). now do 3 eexists.
      * intros (h1 & h2 & t' & [= _ ->]). now do 3 eexists.
Qed.

Lemma Function_init_ok (d : Cursor) :
  (exists f, Function_init d = Ok f) <-> contains "_" (spelling d) = true.
Proof.
  rewrite <- (split_second "_" 1 (spelling d)).
  unfold Function_init, bind, index.
  destruct (split_first "_" 2 (spelling d)) as (h & t & E). rewrite E. simpl.
  destruct t as [|h' t]; simpl.
  - split; [intros [f [=]]|intros (h1 & h2 & t' & [=])].
  - split; intros _; [now do 3 eexists|now eexists].
Qed.

Lemma children_parameters (l : list Cursor) (st : string * list FunctionParameter.t) :
  snd (fold_left FunctionTypedef_child l st)
  = (snd st ++ map FunctionParameter_init
                   (filter (fun c => negb (CursorKind_eqb (kind c) TYPE_REF)) l))%list.
Proof.
  revert st; induction l as [|c l IH]; intros st; simpl.
  - now rewrite app_nil_r.
  - rewrite IH. unfold FunctionTypedef_child.
    destruct (CursorKind_eqb (kind c) TYPE_REF); simpl; [reflexivity|].
    now rewrite <- app_assoc.
Qed.

Lemma index_last_ok {A : Type} (l : list A) :
  (exists a, index_last l = Ok a) <-> l <> [].
Proof.
  unfold index_last. destruct l as [|a l]; simpl.
  - split; [intros [a [=]]|congruence].
  - destruct (rev l ++ [a])%list eqn:E.
    + now destruct (rev l).
    + split; [discriminate|now eexists].
Qed.

Lemma FunctionTypedef_init_ok (d : Cursor) :
  (exists ftd, FunctionTypedef_init d = Ok ftd) <-> parameter_children d <> [].
Proof.
  unfold FunctionTypedef_init, bind.
  pose proof (children_parameters (get_children d) ("void", [])) as Hc.
  destruct (fold_left FunctionTypedef_child (get_children d) ("void", []))
    as [result_type original_parameters].
  simpl in Hc. fold (parameter_children d) in Hc.
  assert (Hne : original_parameters <> [] <-> parameter_children d <> []).
  { rewrite Hc. destruct (parameter_children d); simpl; split; congruence. }
  rewrite <- Hne, <- index_last_ok.
  destruct (index_last original_parameters) as [a|e].
  - destruct (if negb _ then _ else _) as [[w a'] p'].
    split; intros _; now eexists.
  - split; intros [x [=]].
Qed.

Lemma normalizable_iff (st : Declarations.t) (d : Cursor) :
  (exists st', parse_declaration st d = Ok st') <-> normalizable d = true.
Proof.
  rewrite parse_declaration_cases. unfold normalizable.
  destruct (is_function_decl d).
  - rewrite <- Function_init_ok. unfold bind.
    destruct (Function_init d); split; intros [x H]; try discriminate; now eexists.
  - destruct (is_plain_typedef d) eqn:Hp.
    + rewrite (proj2 (kinds_exclusive d) Hp). split; [reflexivity|now eexists].
    + destruct (is_enum_typedef d) eqn:He.
      * assert (is_function_typedef d = false) as ->.
        { unfold is_function_typedef. rewrite He. now rewrite andb_false_r. }
        split; [reflexivity|now eexists].
      * destruct (is_function_typedef d); [|split; [reflexivity|now eexists]].
        assert (Hne : parameter_children d <> [] <->
                      match parameter_children d with [] => false | _ :: _ => true end
                      = true)
          by (destruct (parameter_children d); split; congruence).
        rewrite <- Hne, <- FunctionTypedef_init_ok. unfold bind.
        destruct (FunctionTypedef_init d); split; intros [x H]; try discriminate;
          now eexists.
Qed.

Lemma for_each_ok (l : list Cursor) (st : Declarations.t) :
  (exists st', for_each parse_declaration l st = Ok st')
  <-> forallb normalizable l = true.
Proof.
  revert st; induction l as [|d l IH]; intros st; simpl.
  - split; [reflexivity|now eexists].
  - rewrite andb_true_iff, <- (normalizable_iff st d). unfold bind.
    destruct (parse_declaration st d) as [st1|e].
    + rewrite <- (IH st1). split.
      * intros H. split; [now eexists|exact H].
      * intros [_ H]. exact H.
    + split; [intros [x [=]]|intros [[x [=]] _]].
Qed.

(* ================================================================= *)
(** ** The loops of a namespace *)

Section NamespaceLoops.

Variable function_names : list string.
Variable function_typedef_names : list string.

Lemma attach_fold (l : list FunctionTypedef.t) (ns : Namespace.t) :
  let ns' := fold_left attach_function_typedef l ns in
  same_header ns ns'
  /\ Namespace.classes ns' = Namespace.classes ns
  /\ Namespace.functions ns' = Namespace.functions ns
  /\ Namespace.function_typedefs ns'
     = (Namespace.function_typedefs ns ++ filter FunctionTypedef.has_closure l)%list.
Proof.
  revert ns; induction l as [|ftd l IH]; intros ns; simpl.
  - unfold same_header. rewrite app_nil_r. repeat split.
  - destruct (IH (attach_function_typedef ns ftd)) as ([Hn Hg] & Hc & Hf & Ht).
    unfold same_header. rewrite Hn, Hg, Hc, Hf, Ht.
    unfold attach_function_typedef.
    destruct (FunctionTypedef.has_closure ftd); simpl; [|now repeat split].
    rewrite <- app_assoc. now repeat split.
Qed.

Lemma promote_fold (l : list Typedef.t) (ns : Namespace.t) (heap : list Class.t) :
  let '(ns', heap') := fold_left (promote_typedef function_names) l (ns, heap) in
  same_header ns ns'
  /\ Namespace.functions ns' = Namespace.functions ns
  /\ Namespace.function_typedefs ns' = Namespace.function_typedefs ns
  /\ Namespace.classes ns'
     = (Namespace.classes ns
        ++ seq (List.length heap) (List.length (filter (promoted function_names) l)))%list
  /\ heap' = (heap ++ map (Class_init ns) (filter (promoted function_names) l))%list.
Proof.
  revert ns heap; induction l as [|td l IH]; intros ns heap; simpl.
  - unfold same_header. rewrite !app_nil_r. repeat split.
  - change (PyStr.mem (Typedef.original_name td ++ "_Destroy") function_names)
      with (promoted function_names td).
    destruct (promoted function_names td) eqn:Hp.
    + unfold Namespace_add_class.
      match goal with
      | |- context [fold_left _ l (?n, ?h)] => specialize (IH n h)
      end.
      destruct (fold_left _ l _) as [ns' heap'].
      destruct IH as ([Hn Hg] & Hf & Ht & Hc & Hh). simpl in *.
      unfold same_header. rewrite Hn, Hg, Hf, Ht, Hc, Hh.
      rewrite length_app, <- !app_assoc. simpl.
      rewrite Nat.add_1_r. repeat split.
    + unfold Namespace_add_typedef. apply IH.
Qed.

Lemma update_original_type (i : nat) (f : Function.t) (heap : list Class.t) :
  map Class.original_type
      (update i (fun c => Class_add_method c f function_typedef_names) heap)
  = map Class.original_type heap.
Proof.
  revert i; induction heap as [|c heap IH]; intros [|i]; simpl;
    try reflexivity.
  now rewrite IH.
Qed.

Lemma Method_init_original_function (f : Function.t) (c : Class.t) :
  Method.original_function (Method_init f c function_typedef_names)
  = Function.original_function f.
Proof. unfold Method.original_function. now rewrite Method_init_function. Qed.

Lemma update_method_names (i : nat) (f : Function.t) (heap : list Class.t) (x : string) :
  i < List.length heap ->
  In x (method_names
          (update i (fun c => Class_add_method c f function_typedef_names) heap))
  <-> In x (method_names heap) \/ x = Function.original_function f.
Proof.
  revert i; induction heap as [|c heap IH]; intros i Hi; simpl in Hi; [lia|].
  destruct i as [|i]; simpl.
  - rewrite map_app, !in_app_iff. simpl.
    rewrite Method_init_original_function. fold (method_names heap).
    rewrite ?in_app_iff. intuition.
  - fold (method_names heap).
    fold (method_names
            (update i (fun c => Class_add_method c f function_typedef_names) heap)).
    rewrite !in_app_iff, (IH i) by lia. intuition.
Qed.

Lemma find_class_from_bound (start : nat) (heap : list Class.t) (f : Function.t)
      (i : nat) :
  find_class_from start heap f = Some i -> start <= i < start + List.length heap.
Proof.
  revert start; induction heap as [|c heap IH]; intros start; simpl; [discriminate|].
  destruct (PyStr.startswith _ _).
  - intros [= <-]. lia.
  - intros H. apply IH in H. lia.
Qed.

Lemma assign_fold (l : list Function.t) (ns : Namespace.t) (heap : list Class.t) :
  let '(ns', heap') := fold_left (assign_function function_typedef_names) l (ns, heap) in
  same_header ns ns'
  /\ Namespace.classes ns' = Namespace.classes ns
  /\ Namespace.function_typedefs ns' = Namespace.function_typedefs ns
  /\ map Class.original_type heap' = map Class.original_type heap
  /\ forall x, In x (free_names ns' ++ method_names heap')
               <-> In x (free_names ns ++ method_names heap)
                   \/ In x (map Function.original_function l).
Proof.
  revert ns heap; induction l as [|f l IH]; intros ns heap; simpl.
  - unfold same_header. repeat split; try reflexivity; intuition.
  - destruct (find_class heap f) as [i|] eqn:Hfind.
    + match goal with
      | |- context [fold_left _ l (?n, ?h)] => specialize (IH n h)
      end.
      destruct (fold_left _ l _) as [ns' heap'].
      destruct IH as (Hh & Hc & Ht & Ho & Hx).
      rewrite update_original_type in Ho.
      repeat split; try assumption; try apply Hh.
      * intros H. apply Hx in H. rewrite in_app_iff in H.
        rewrite update_method_names in H
          by (apply find_class_from_bound in Hfind; simpl in Hfind; lia).
        rewrite in_app_iff. intuition.
      * intros H. apply Hx. rewrite in_app_iff.
        rewrite update_method_names
          by (apply find_class_from_bound in Hfind; simpl in Hfind; lia).
        rewrite in_app_iff in H. intuition.
    + match goal with
      | |- context [fold_left _ l (?n, ?h)] => specialize (IH n h)
      end.
      destruct (fold_left _ l _) as [ns' heap'].
      destruct IH as (Hh & Hc & Ht & Ho & Hx).
      repeat split; try assumption; try apply Hh.
      * intros H. apply Hx in H. unfold free_names in H. simpl in H.
        rewrite map_app, !in_app_iff in H. simpl in H.
        rewrite in_app_iff. unfold free_names, GlobalFunction.original_function in *.
        simpl in *. intuition.
      * intros H. apply Hx. unfold free_names. simpl.
        rewrite map_app, !in_app_iff. simpl.
        rewrite in_app_iff in H. unfold free_names, GlobalFunction.original_function in *.
        simpl in *. intuition.
Qed.

End NamespaceLoops.

Section ParseNamespace.

Variable decls : Declarations.t.
Variable function_names : list string.
Variable function_typedef_names : list string.

Lemma method_names_app (h1 h2 : list Class.t) :
  method_names (h1 ++ h2) = (method_names h1 ++ method_names h2)%list.
Proof. unfold method_names. apply flat_map_app. Qed.

Lemma method_names_new (ns : Namespace.t) (l : list Typedef.t) :
  method_names (map (Class_init ns) l) = [].
Proof. induction l as [|td l IH]; simpl; [reflexivity|exact IH]. Qed.

Lemma parse_namespace_spec (ns : Namespace.t) (heap : list Class.t) :
  let '(ns', heap') :=
    parse_namespace decls function_names function_typedef_names ns heap in
  let n := Namespace.name ns in
  same_header ns ns'
  /\ Namespace.function_typedefs ns'
     = (Namespace.function_typedefs ns ++ new_callbacks decls n)%list
  /\ Namespace.classes ns'
     = (Namespace.classes ns
        ++ seq (List.length heap) (List.length (new_classes decls function_names n)))%list
  /\ map Class.original_type heap'
     = (map Class.original_type heap ++ map Typedef.name (new_classes decls function_names n))%list
  /\ forall x, In x (free_names ns' ++ method_names heap')
               <-> In x (free_names ns ++ method_names heap)
                   \/ In x (new_functions decls n).
Proof.
  unfold parse_namespace.
  set (ftds := filter _ (Declarations.function_typedefs decls)).
  destruct (attach_fold ftds ns) as ([Hn1 Hg1] & Hc1 & Hf1 & Ht1).
  set (ns1 := fold_left attach_function_typedef ftds ns) in *.
  rewrite Hn1.
  pose proof (promote_fold function_names
                (filter (fun td => PyStr.startswith (Typedef.name td) (Namespace.name ns))
                        (Declarations.typedefs decls)) ns1 heap) as H2.
  destruct (fold_left (promote_typedef function_names) _ (ns1, heap)) as [ns2 heap2].
  destruct H2 as ([Hn2 Hg2] & Hf2 & Ht2 & Hc2 & Hh2).
  pose proof (assign_fold function_typedef_names
                (filter (fun f => PyStr.startswith (Function.original_function f)
                                                   (Namespace.name ns))
                        (Declarations.functions decls)) ns2 heap2) as H3.
  destruct (fold_left (assign_function function_typedef_names) _ (ns2, heap2))
    as [ns3 heap3].
  destruct H3 as ([Hn3 Hg3] & Hc3 & Ht3 & Ho3 & Hx3).
  fold (new_classes decls function_names (Namespace.name ns)) in Hc2, Hh2.
  fold (new_functions decls (Namespace.name ns)) in Hx3.
  cbv zeta. unfold same_header. repeat split.
  - congruence.
  - congruence.
  - rewrite Ht3, Ht2, Ht1. reflexivity.
  - rewrite Hc3, Hc2, Hc1. reflexivity.
  - rewrite Ho3, Hh2, map_app, map_map. reflexivity.
  - intros H. apply Hx3 in H.
    unfold free_names in *. rewrite Hf2, Hf1 in H.
    rewrite Hh2, method_names_app, method_names_new, app_nil_r in H. exact H.
  - intros H. apply Hx3.
    unfold free_names in *. rewrite Hf2, Hf1.
    rewrite Hh2, method_names_app, method_names_new, app_nil_r. exact H.
Qed.

End ParseNamespace.

(* ================================================================= *)
(** ** The class objects of a namespace *)

Lemma lookup_shift (c : Class.t) (heap : list Class.t) (a k : nat) :
  flat_map (lookup (c :: heap)) (seq (S a) k) = flat_map (lookup heap) (seq a k).
Proof.
  rewrite <- seq_shift. induction (seq a k) as [|i l IH]; simpl; [reflexivity|].
  now rewrite IH.
Qed.

Lemma lookup_seq (heap : list Class.t) (a k : nat) :
  flat_map (lookup heap) (seq a k) = firstn k (skipn a heap).
Proof.
  revert a k; induction heap as [|c heap IH]; intros a k.
  - rewrite skipn_nil, firstn_nil.
    induction (seq a k) as [|i l IHl]; simpl; [reflexivity|].
    unfold lookup at 1. now destruct i.
  - destruct a as [|a].
    + destruct k as [|k]; [reflexivity|].
      cbn [seq flat_map]. rewrite lookup_shift, IH. reflexivity.
    + rewrite lookup_shift, IH. reflexivity.
Qed.

(* ================================================================= *)
(** ** The model of a set of declarations *)

Section Group.

Variable decls : Declarations.t.

Let names := map Function.original_function (Declarations.functions decls).
Let m := group decls.

(** The two namespaces of the model, with what each holds. *)
Lemma group_spec :
  exists nats stan : Namespace.t,
    Model.namespaces m = [nats; stan]
    /\ (Namespace.name nats = "nats" /\ Namespace.include_guard nats = None)
    /\ (Namespace.name stan = "stan"
        /\ Namespace.include_guard stan = Some "defined(NATS_HAS_STREAMING)")
    /\ (Namespace.function_typedefs nats = new_callbacks decls "nats"
        /\ Namespace.function_typedefs stan = new_callbacks decls "stan")
    /\ (class_names m nats = map Typedef.name (new_classes decls names "nats")
        /\ class_names m stan = map Typedef.name (new_classes decls names "stan"))
    /\ forall x, In x (function_names m nats ++ function_names m stan)
                 <-> In x (new_functions decls "nats")
                     \/ In x (new_functions decls "stan").
Proof.
  unfold m, group. cbn [parse_namespaces initial_namespaces].
  fold names.
  set (ftdn := map FunctionTypedef.original_name _).
  pose proof (parse_namespace_spec decls names ftdn (Namespace_init "nats" None) [])
    as H1.
  destruct (parse_namespace decls names ftdn (Namespace_init "nats" None) [])
    as [ns1 h1].
  pose proof (parse_namespace_spec decls names ftdn
                (Namespace_init "stan" (Some "defined(NATS_HAS_STREAMING)")) h1)
    as H2.
  destruct (parse_namespace decls names ftdn
              (Namespace_init "stan" (Some "defined(NATS_HAS_STREAMING)")) h1)
    as [ns2 h2].
  cbv zeta in H1, H2. cbn [Namespace_init Namespace.name Namespace.classes
                           Namespace.function_typedefs Namespace.include_guard] in H1, H2.
  destruct H1 as ([Hn1 Hg1] & Ht1 & Hc1 & Ho1 & Hx1).
  destruct H2 as ([Hn2 Hg2] & Ht2 & Hc2 & Ho2 & Hx2).
  cbn in Hn1, Hg1, Hn2, Hg2, Ht1, Ht2, Hc1, Hc2, Ho1.
  set (k1 := List.length (new_classes decls names "nats")) in *.
  set (k2 := List.length (new_classes decls names "stan")) in *.
  assert (Hlen1 : List.length h1 = k1).
  { rewrite <- (length_map Class.original_type), Ho1, length_map. reflexivity. }
  assert (Hcls1 : Model.classes (Model.mk [ns1; ns2] h2) ns1 = firstn k1 h2).
  { unfold Model.classes. cbn [Model.heap]. rewrite Hc1.
    change (flat_map (lookup h2) (seq 0 k1) = firstn k1 h2).
    now rewrite lookup_seq. }
  assert (Hlen2 : List.length h2 = k1 + k2).
  { rewrite <- (length_map Class.original_type), Ho2, length_app, !length_map.
    now rewrite Hlen1. }
  assert (Hcls2 : Model.classes (Model.mk [ns1; ns2] h2) ns2 = skipn k1 h2).
  { unfold Model.classes. cbn [Model.heap]. rewrite Hc2, Hlen1.
    change (flat_map (lookup h2) (seq k1 k2) = skipn k1 h2).
    rewrite lookup_seq. apply firstn_all2. rewrite length_skipn. lia. }
  exists ns1, ns2. cbn [Model.namespaces].
  split; [reflexivity|]. split; [now split|]. split; [now split|].
  split; [now split|]. split; [split|].
  - unfold class_names. rewrite Hcls1, <- firstn_map, Ho2, Ho1.
    rewrite firstn_app, length_map. fold k1.
    rewrite Nat.sub_diag, firstn_all2 by (rewrite length_map; fold k1; lia).
    simpl. now rewrite app_nil_r.
  - unfold class_names. rewrite Hcls2, <- skipn_map, Ho2, Ho1.
    rewrite skipn_app, length_map. fold k1.
    rewrite Nat.sub_diag, skipn_all2 by (rewrite length_map; fold k1; lia).
    reflexivity.
  - intros x. unfold function_names. rewrite Hcls1, Hcls2.
    fold (free_names ns1) (free_names ns2).
    fold (method_names (firstn k1 h2)) (method_names (skipn k1 h2)).
    specialize (Hx1 x). specialize (Hx2 x).
    change (free_names (Namespace_init "nats" None)) with (@nil string) in Hx1.
    change (free_names (Namespace_init "stan" (Some "defined(NATS_HAS_STREAMING)")))
      with (@nil string) in Hx2.
    change (method_names []) with (@nil string) in Hx1.
    cbn [app In] in Hx1, Hx2.
    rewrite in_app_iff in Hx1, Hx2.
    assert (Hm : In x (method_names h2)
                 <-> In x (method_names (firstn k1 h2))
                     \/ In x (method_names (skipn k1 h2))).
    { rewrite <- in_app_iff, <- method_names_app, firstn_skipn. reflexivity. }
    rewrite !in_app_iff. intuition.
Qed.

End Group.

(* ================================================================= *)
(** ** What the first loop collects *)

Lemma normalized_from_In_l {A : Type} (init : Cursor -> Result A)
      (ds : list Cursor) (xs : list A) (d : Cursor) :
  normalized_from init ds xs -> In d ds -> exists x, In x xs /\ init d = Ok x.
Proof.
  induction 1 as [|d' x ds xs Hdx _ IH]; simpl; [intros []|].
  intros [->|Hin].
  - exists x. now split; [left|].
  - destruct (IH Hin) as (y & Hy & Hdy). exists y. now split; [right|].
Qed.

Lemma normalized_from_In_r {A : Type} (init : Cursor -> Result A)
      (ds : list Cursor) (xs : list A) (x : A) :
  normalized_from init ds xs -> In x xs -> exists d, In d ds /\ init d = Ok x.
Proof.
  induction 1 as [|d x' ds xs Hdx _ IH]; simpl; [intros []|].
  intros [->|Hin].
  - exists d. now split; [left|].
  - destruct (IH Hin) as (y & Hy & Hdy). exists y. now split; [right|].
Qed.

Lemma for_each_spec (l : list Cursor) (st st' : Declarations.t) :
  for_each parse_declaration l st = Ok st' ->
  (exists fs, normalized_from Function_init (filter is_function_decl l) fs
              /\ Declarations.functions st' = (Declarations.functions st ++ fs)%list)
  /\ Declarations.typedefs st'
     = (Declarations.typedefs st ++ map Typedef_init (filter is_plain_typedef l))%list
  /\ (exists gs, normalized_from FunctionTypedef_init (filter is_function_typedef l) gs
                 /\ Declarations.function_typedefs st'
                    = (Declarations.function_typedefs st ++ gs)%list).
Proof.
  revert st; induction l as [|d l IH]; intros st; simpl.
  - intros [= <-]. split; [|split].
    + exists []. split; [constructor|now rewrite app_nil_r].
    + now rewrite app_nil_r.
    + exists []. split; [constructor|now rewrite app_nil_r].
  - rewrite parse_declaration_cases. unfold bind at 1.
    destruct (kinds_exclusive d) as [Hfun Hplain].
    destruct (is_function_decl d) eqn:Hf.
    + destruct (Hfun eq_refl) as [-> ->].
      destruct (Function_init d) as [f|] eqn:Hinit; [|discriminate].
      simpl. intros H. apply IH in H as ((fs & Hfs & Hfun') & Htd & (gs & Hgs & Hftd)).
      simpl in *. split; [|split].
      * exists (f :: fs). split; [now constructor|].
        now rewrite Hfun', <- app_assoc.
      * exact Htd.
      * exists gs. now split.
    + destruct (is_plain_typedef d) eqn:Hp.
      * rewrite (Hplain eq_refl).
        intros H. apply IH in H as ((fs & Hfs & Hfun') & Htd & (gs & Hgs & Hftd)).
        simpl in *. split; [|split].
        -- exists fs. now split.
        -- now rewrite Htd, <- app_assoc.
        -- exists gs. now split.
      * destruct (is_enum_typedef d) eqn:He.
        -- assert (is_function_typedef d = false) as ->.
           { unfold is_function_typedef. rewrite He. now rewrite andb_false_r. }
           intros H. apply IH in H as ((fs & Hfs & Hfun') & Htd & (gs & Hgs & Hftd)).
           simpl in *. split; [|split].
           ++ exists fs. now split.
           ++ exact Htd.
           ++ exists gs. now split.
        -- destruct (is_function_typedef d).
           ++ destruct (FunctionTypedef_init d) as [g|] eqn:Hinit; [|discriminate].
              simpl.
              intros H. apply IH in H as ((fs & Hfs & Hfun') & Htd & (gs & Hgs & Hftd)).
              simpl in *. split; [|split].
              ** exists fs. now split.
              ** exact Htd.
              ** exists (g :: gs). split; [now constructor|].
                 now rewrite Hftd, <- app_assoc.
           ++ apply IH.
Qed.

(** The declarations of a header that [parse] reads without an error. *)
Lemma parse_inv (cursor : Cursor) (model : Model.t) :
  parse cursor = Ok model ->
  exists decls,
    model = group decls
    /\ normalized_from Function_init (filter is_function_decl (get_children cursor))
                       (Declarations.functions decls)
    /\ Declarations.typedefs decls
       = map Typedef_init (filter is_plain_typedef (get_children cursor))
    /\ normalized_from FunctionTypedef_init
                       (filter is_function_typedef (get_children cursor))
                       (Declarations.function_typedefs decls).
Proof.
  unfold parse, bind.
  destruct (for_each parse_declaration (get_children cursor) _) as [decls|] eqn:H;
    [|discriminate].
  intros [= <-]. exists decls. split; [reflexivity|].
  apply for_each_spec in H as ((fs & Hfs & Hfun) & Htd & (gs & Hgs & Hftd)).
  simpl in *. subst. now repeat split.
Qed.

Lemma normalized_function_names (ds : list Cursor) (fs : list Function.t) :
  normalized_from Function_init ds fs ->
  map Function.original_function fs = map spelling ds.
Proof.
  induction 1 as [|d f ds fs Hdf _ IH]; simpl; [reflexivity|].
  rewrite IH. now destruct (Function_init_inv _ _ Hdf) as [-> _].
Qed.

(* ================================================================= *)
(** ** The two namespaces (C10) *)

Lemma for_each_unrecognized (l : list Cursor) (st : Declarations.t) :
  forallb (fun d => negb (recognized (spelling d))) l = true ->
  for_each parse_declaration l st = Ok st.
Proof.
  induction l as [|d l IH]; simpl; [reflexivity|].
  intros [Hd Hl]%andb_true_iff.
  unfold parse_declaration. rewrite Hd. simpl. now apply IH.
Qed.

(** C10.  Whatever the declarations, the model [parse] returns has the two
    namespaces [nats], without a build guard, and [stan], with the guard
    [defined(NATS_HAS_STREAMING)], in this order and no other; when no
    declaration carries a recognized prefix, as in an empty header, [parse]
    returns the two namespaces with nothing in them. *)
Theorem C10_two_namespaces (cursor : Cursor) :
  (forall model, parse cursor = Ok model ->
                 headers model
                 = [("nats", None); ("stan", Some "defined(NATS_HAS_STREAMING)")])
  /\ (forallb (fun d => negb (recognized (spelling d))) (get_children cursor) = true ->
      parse cursor
      = Ok (Model.mk [ Namespace.mk "nats" [] [] [] None;
                       Namespace.mk "stan" [] [] []
                                    (Some "defined(NATS_HAS_STREAMING)") ]
                     [])).
Proof.
  split.
  - intros model H. apply parse_inv in H as (decls & -> & _).
    destruct (group_spec decls) as (nats & stan & Hns & [Hn1 Hg1] & [Hn2 Hg2] & _).
    unfold headers. rewrite Hns. simpl. now rewrite Hn1, Hg1, Hn2, Hg2.
  - intros H. unfold parse. now rewrite for_each_unrecognized.
Qed.

(** C10 on the sample header and on an empty header. *)
Lemma C10_two_namespaces_witness :
  (exists model, parse Sample.nats_h = Ok model
                 /\ headers model
                    = [("nats", None); ("stan", Some "defined(NATS_HAS_STREAMING)")])
  /\ parse (Sample.header [])
     = Ok (Model.mk [ Namespace.mk "nats" [] [] [] None;
                      Namespace.mk "stan" [] [] []
                                   (Some "defined(NATS_HAS_STREAMING)") ]
                    []).
Proof.
  split.
  - eexists. split; [vm_compute; reflexivity|].
    apply (proj1 (C10_two_namespaces Sample.nats_h)).
    vm_compute. reflexivity.
  - apply (proj2 (C10_two_namespaces (Sample.header []))). reflexivity.
Defined.

(* ================================================================= *)
(** ** Totality (C9) *)

(** C9 (as amended).  [parse] returns a model exactly when every recognized
    function declaration has an underscore in its name and every recognized
    function-pointer typedef has a child that is not a type reference; on
    any other header it raises [IndexError] and returns nothing. *)
Theorem C9_parse_total (cursor : Cursor) :
  ((exists model, parse cursor = Ok model)
   <-> forallb normalizable (get_children cursor) = true)
  /\ (forallb normalizable (get_children cursor) = false ->
      parse cursor = Raise IndexError).
Proof.
  assert (H : (exists model, parse cursor = Ok model)
              <-> forallb normalizable (get_children cursor) = true).
  { rewrite <- (for_each_ok (get_children cursor) (Declarations.mk [] [] [] [])).
    unfold parse, bind.
    destruct (for_each parse_declaration (get_children cursor) _) as [decls|e].
    - split; intros _; now eexists.
    - split; intros [x [=]]. }
  split; [exact H|].
  intros Hfalse. destruct (parse cursor) as [model|[]] eqn:Hp; [|reflexivity].
  assert (Htrue : forallb normalizable (get_children cursor) = true)
    by (apply H; now exists model).
  congruence.
Qed.

(** C9 on the sample header. *)
Lemma C9_parse_total_witness : exists model, parse Sample.nats_h = Ok model.
Proof.
  apply (proj1 (C9_parse_total Sample.nats_h)). reflexivity.
Defined.

(** The claim as stated fails on a function without an underscore in its
    name, [void natsfoo(void)], and on a function-pointer typedef whose
    children are type references only: [parse] raises [IndexError]. *)
Lemma C9_counterexample :
  parse (Sample.header [Sample.func "natsfoo" "void" []]) = Raise IndexError
  /\ Function_init (Sample.func "natsfoo" "void" []) = Raise IndexError
  /\ parse (Sample.header
              [Sample.function_pointer
                 "natsCallback"
                 [Sample.type_ref "natsStatus"; Sample.type_ref "natsMsg"]])
     = Raise IndexError
  /\ FunctionTypedef_init
       (Sample.function_pointer
          "natsCallback" [Sample.type_ref "natsStatus"; Sample.type_ref "natsMsg"])
     = Raise IndexError.
Proof. repeat split. Qed.

(* ================================================================= *)
(** ** Class promotion (C2) *)

Lemma promoted_has_destructor (l : list Cursor) (d : Cursor) :
  promoted (map spelling (filter is_function_decl l)) (Typedef_init d)
  = has_destructor l d.
Proof.
  unfold promoted, has_destructor, PyStr.mem. simpl.
  induction l as [|f l IH]; simpl; [reflexivity|].
  destruct (is_function_decl f); simpl; [|exact IH].
  now rewrite IH, String.eqb_sym.
Qed.

Lemma is_plain_typedef_recognized (d : Cursor) :
  is_plain_typedef d = true -> recognized (spelling d) = true.
Proof.
  unfold is_plain_typedef, is_typedef_decl.
  destruct (recognized (spelling d)); [reflexivity|discriminate].
Qed.

Lemma is_function_decl_recognized (d : Cursor) :
  is_function_decl d = true -> recognized (spelling d) = true.
Proof.
  unfold is_function_decl.
  destruct (recognized (spelling d)); [reflexivity|discriminate].
Qed.

Lemma is_function_typedef_recognized (d : Cursor) :
  is_function_typedef d = true -> recognized (spelling d) = true.
Proof.
  unfold is_function_typedef, is_typedef_decl.
  destruct (recognized (spelling d)); [reflexivity|discriminate].
Qed.

(** The names of the classes of the model, over both namespaces. *)
Lemma class_names_iff (cursor : Cursor) (model : Model.t) (x : string) :
  parse cursor = Ok model ->
  (exists ns, In ns (Model.namespaces model) /\ In x (class_names model ns))
  <-> exists d, In d (get_children cursor) /\ spelling d = x
                /\ is_plain_typedef d = true
                /\ has_destructor (get_children cursor) d = true.
Proof.
  intros H. apply parse_inv in H as (decls & -> & Hfun & Htd & _).
  destruct (group_spec decls) as (nats & stan & Hns & _ & _ & _ & [Hc1 Hc2] & _).
  rewrite (normalized_function_names _ _ Hfun) in Hc1, Hc2.
  assert (Hin : forall n,
             In x (map Typedef.name
                       (new_classes decls (map spelling
                                               (filter is_function_decl
                                                       (get_children cursor))) n))
             <-> exists d, In d (get_children cursor) /\ spelling d = x
                           /\ is_plain_typedef d = true
                           /\ has_destructor (get_children cursor) d = true
                           /\ PyStr.startswith x n = true).
  { intros n. unfold new_classes. rewrite Htd, in_map_iff. split.
    - intros (td & <- & Hin). apply filter_In in Hin as [Hin Hprom].
      apply filter_In in Hin as [Hin Hstart].
      apply in_map_iff in Hin as (d & <- & Hin).
      apply filter_In in Hin as [Hin Hplain].
      rewrite promoted_has_destructor in Hprom.
      exists d. now repeat split.
    - intros (d & Hin & <- & Hplain & Hdes & Hstart).
      exists (Typedef_init d). split; [reflexivity|].
      apply filter_In. split; [|now rewrite promoted_has_destructor].
      apply filter_In. split; [|exact Hstart].
      apply in_map. apply filter_In. now split. }
  rewrite Hns. split.
  - intros (ns & [<-|[<-|[]]] & Hx).
    + rewrite Hc1 in Hx. apply Hin in Hx as (d & ? & ? & ? & ? & _). now exists d.
    + rewrite Hc2 in Hx. apply Hin in Hx as (d & ? & ? & ? & ? & _). now exists d.
  - intros (d & Hd & Hx & Hplain & Hdes).
    pose proof (is_plain_typedef_recognized d Hplain) as Hrec.
    rewrite Hx in Hrec. apply recognized_iff in Hrec as [Hrec|Hrec].
    + exists nats. split; [now left|]. rewrite Hc1. apply Hin. exists d. now repeat split.
    + exists stan. split; [now right; left|]. rewrite Hc2. apply Hin.
      exists d. now repeat split.
Qed.

(** C2.  For a plain typedef with a recognized prefix, a namespace of the
    model has a class of its name if and only if the declarations hold a
    function whose name is the name of the typedef followed by
    [_Destroy]; without such a function no class sequence has a class for
    the typedef. *)
Theorem C2_class_promotion (cursor : Cursor) (model : Model.t) (d : Cursor) :
  parse cursor = Ok model ->
  In d (get_children cursor) ->
  is_plain_typedef d = true ->
  (exists ns, In ns (Model.namespaces model) /\ In (spelling d) (class_names model ns))
  <-> exists f, In f (get_children cursor)
                /\ is_function_decl f = true
                /\ spelling f = spelling d ++ "_Destroy".
Proof.
  intros Hparse Hd Hplain.
  rewrite (class_names_iff cursor model (spelling d) Hparse).
  assert (Hdes : forall d', has_destructor (get_children cursor) d' = true
                       <-> exists f, In f (get_children cursor)
                                     /\ is_function_decl f = true
                                     /\ spelling f = spelling d' ++ "_Destroy").
  { intros d'. unfold has_destructor. rewrite existsb_exists. split.
    - intros (f & Hf & [Hk Hn]%andb_true_iff). apply String.eqb_eq in Hn.
      now exists f.
    - intros (f & Hf & Hk & Hn). exists f. split; [exact Hf|].
      rewrite Hk, Hn. apply String.eqb_refl. }
  split.
  - intros (d' & _ & Hname & _ & Hdes'). apply Hdes in Hdes'.
    now rewrite Hname in Hdes'.
  - intros Hf. exists d. repeat split; try assumption. now apply Hdes.
Qed.

(** C2 on [natsMsg] of the sample header, which has [natsMsg_Destroy]. *)
Lemma C2_class_promotion_witness :
  exists model,
    parse Sample.nats_h = Ok model
    /\ exists ns, In ns (Model.namespaces model) /\ In "natsMsg" (class_names model ns).
Proof.
  eexists. split; [vm_compute; reflexivity|].
  apply (C2_class_promotion Sample.nats_h _ (Sample.alias "natsMsg")).
  - vm_compute. reflexivity.
  - simpl. tauto.
  - reflexivity.
  - exists (Sample.destroy "natsMsg"). split; [simpl; tauto|split; reflexivity].
Defined.

(* ================================================================= *)
(** ** Callback descriptors (C4) *)

Lemma adapt_fold (namespace : string) (l : list FunctionParameter.t)
      (w a p : list string) :
  fold_left (FunctionTypedef_adapt namespace) l (w, a, p)
  = ((w ++ flat_map (wrapping_rule namespace) l)%list,
     (a ++ map (adapted_argument namespace) l)%list,
     (p ++ map (adapted_parameter namespace) l)%list).
Proof.
  revert w a p; induction l as [|q l IH]; intros w a p; simpl.
  - now rewrite !app_nil_r.
  - unfold wrapping_rule at 1, adapted_argument at 1, adapted_parameter at 1, passing.
    destruct (PyStr.startswith (FunctionParameter.type q) namespace
              && negb (String.eqb (FunctionParameter.type q) "natsStatus")).
    + destruct (String.eqb_spec (FunctionParameter.plain_type q) "natsMsg") as [E|_].
      * rewrite E. cbn [PyStr.drop]. rewrite IH, <- !app_assoc. reflexivity.
      * rewrite IH, <- !app_assoc. simpl. rewrite !append_assoc. reflexivity.
    + rewrite IH, <- !app_assoc. reflexivity.
Qed.

Lemma FunctionParameter_init_name (c : Cursor) :
  FunctionParameter.name (FunctionParameter_init c) = spelling c.
Proof. unfold FunctionParameter_init. now destruct (type_ c). Qed.

Lemma has_closure_convention_iff (d : Cursor) :
  has_closure_convention d = true <-> last_parameter_name d = Some "closure".
Proof.
  unfold has_closure_convention. destruct (last_parameter_name d) as [name|].
  - rewrite String.eqb_eq. split; congruence.
  - split; discriminate.
Qed.

Lemma FunctionTypedef_init_inv (d : Cursor) (ftd : FunctionTypedef.t) :
  FunctionTypedef_init d = Ok ftd ->
  let ps := map FunctionParameter_init (parameter_children d) in
  let ns := PyStr.take 4 (spelling d) in
  FunctionTypedef.original_name ftd = spelling d
  /\ FunctionTypedef.namespace ftd = ns
  /\ FunctionTypedef.original_parameters ftd = ps
  /\ FunctionTypedef.has_closure ftd = has_closure_convention d
  /\ (FunctionTypedef.wrapper ftd, FunctionTypedef.arguments_ ftd,
      FunctionTypedef.parameters_ ftd)
     = if FunctionTypedef.has_closure ftd
       then (flat_map (wrapping_rule ns) (removelast ps),
             map (adapted_argument ns) (removelast ps),
             map (adapted_parameter ns) (removelast ps))
       else ([], [], []).
Proof.
  unfold FunctionTypedef_init, bind.
  pose proof (children_parameters (get_children d) ("void", [])) as Hc.
  destruct (fold_left FunctionTypedef_child (get_children d) ("void", []))
    as [result_type original_parameters].
  simpl in Hc. fold (parameter_children d) in Hc. subst original_parameters.
  unfold index_last, has_closure_convention, last_parameter_name.
  rewrite <- map_rev.
  destruct (rev (parameter_children d)) as [|c l]; simpl; [discriminate|].
  rewrite FunctionParameter_init_name.
  destruct (String.eqb (spelling c) "closure"); simpl.
  - rewrite adapt_fold. intros [= <-]. simpl. repeat split.
  - intros [= <-]. simpl. repeat split.
Qed.

(** The callback descriptors of the model, over both namespaces. *)
Lemma function_typedefs_iff (cursor : Cursor) (model : Model.t) (ftd : FunctionTypedef.t) :
  parse cursor = Ok model ->
  (exists ns, In ns (Model.namespaces model) /\ In ftd (Namespace.function_typedefs ns))
  <-> exists d, In d (get_children cursor) /\ is_function_typedef d = true
                /\ FunctionTypedef_init d = Ok ftd
                /\ has_closure_convention d = true.
Proof.
  intros H. apply parse_inv in H as (decls & -> & _ & _ & Hftd).
  destruct (group_spec decls) as (nats & stan & Hns & _ & _ & [Ht1 Ht2] & _).
  assert (Hin : forall n,
             In ftd (new_callbacks decls n)
             <-> exists d, In d (get_children cursor) /\ is_function_typedef d = true
                           /\ FunctionTypedef_init d = Ok ftd
                           /\ has_closure_convention d = true
                           /\ PyStr.startswith (spelling d) n = true).
  { intros n. unfold new_callbacks. rewrite !filter_In. split.
    - intros [[Hin Hstart] Hclo].
      destruct (normalized_from_In_r _ _ _ _ Hftd Hin) as (d & Hd & Hinit).
      apply filter_In in Hd as [Hd Hkind].
      destruct (FunctionTypedef_init_inv _ _ Hinit) as (Hname & _ & _ & Hhas & _).
      exists d. rewrite <- Hname, <- Hhas. now repeat split.
    - intros (d & Hd & Hkind & Hinit & Hclo & Hstart).
      destruct (FunctionTypedef_init_inv _ _ Hinit) as (Hname & _ & _ & Hhas & _).
      rewrite Hname, Hhas. repeat split; try assumption.
      assert (Hd' : In d (filter is_function_typedef (get_children cursor)))
        by (apply filter_In; now split).
      destruct (normalized_from_In_l _ _ _ _ Hftd Hd') as (g & Hg & Hinit').
      congruence. }
  rewrite Hns. split.
  - intros (ns & [<-|[<-|[]]] & Hx).
    + rewrite Ht1 in Hx. apply Hin in Hx as (d & ? & ? & ? & ? & _). now exists d.
    + rewrite Ht2 in Hx. apply Hin in Hx as (d & ? & ? & ? & ? & _). now exists d.
  - intros (d & Hd & Hkind & Hinit & Hclo).
    pose proof (is_function_typedef_recognized d Hkind) as Hrec.
    apply recognized_iff in Hrec as [Hrec|Hrec].
    + exists nats. split; [now left|]. rewrite Ht1. apply Hin. exists d. now repeat split.
    + exists stan. split; [now right; left|]. rewrite Ht2. apply Hin.
      exists d. now repeat split.
Qed.

(** C4 (as amended).  For a function-pointer typedef [d] with a
    recognized prefix, and [ftd] what [FunctionTypedef] makes of it: the
    namespace of [ftd] is the first four characters of the name of [d],
    [nats] or [stan], and a namespace of the model holds [ftd] as a
    callback descriptor if and only if the name of the last parameter of
    [d] is [closure].  In that case the adapted parameters and arguments are
    those of the parameters before the last, one for one: a parameter whose
    type spelling starts with those four characters and is not [natsStatus]
    is passed by value as [Msg &&], move-constructed from the handle, when
    its plain type is [natsMsg], and otherwise by reference to a wrapper
    declared by a [WithoutDestuction] rule; any other parameter is passed
    as it is declared.  Otherwise the typedef has no adaptation. *)
Theorem C4_callback_descriptor
        (cursor : Cursor) (model : Model.t) (d : Cursor) (ftd : FunctionTypedef.t) :
  parse cursor = Ok model ->
  In d (get_children cursor) ->
  is_function_typedef d = true ->
  FunctionTypedef_init d = Ok ftd ->
  let ps := FunctionTypedef.original_parameters ftd in
  let ns := PyStr.take 4 (spelling d) in
  (FunctionTypedef.original_name ftd = spelling d
   /\ FunctionTypedef.namespace ftd = ns
   /\ (ns = "nats" \/ ns = "stan"))
  /\ ps = map FunctionParameter_init (parameter_children d)
  /\ ((exists n, In n (Model.namespaces model)
                 /\ In ftd (Namespace.function_typedefs n))
      <-> last_parameter_name d = Some "closure")
  /\ (FunctionTypedef.has_closure ftd = true <-> last_parameter_name d = Some "closure")
  /\ (last_parameter_name d = Some "closure" ->
      FunctionTypedef.parameters_ ftd = map (adapted_parameter ns) (removelast ps)
      /\ FunctionTypedef.arguments_ ftd = map (adapted_argument ns) (removelast ps)
      /\ FunctionTypedef.wrapper ftd = flat_map (wrapping_rule ns) (removelast ps)
      /\ S (List.length (FunctionTypedef.parameters_ ftd)) = List.length ps)
  /\ (last_parameter_name d <> Some "closure" ->
      FunctionTypedef.parameters_ ftd = []
      /\ FunctionTypedef.arguments_ ftd = []
      /\ FunctionTypedef.wrapper ftd = []).
Proof.
  intros Hparse Hd Hkind Hinit ps ns.
  destruct (FunctionTypedef_init_inv _ _ Hinit) as (Hname & Hns & Hps & Hhas & Hadapt).
  fold ps in Hps. fold ns in Hns, Hadapt. rewrite <- Hps in Hadapt.
  split; [split; [exact Hname|split; [exact Hns|]]|].
  { apply is_function_typedef_recognized, recognized_iff in Hkind.
    unfold ns.
    destruct Hkind as [[t ->]%startswith_inv|[t ->]%startswith_inv];
      [left|right]; reflexivity. }
  split; [exact Hps|]. split; [|split; [|split]].
  - rewrite (function_typedefs_iff cursor model ftd Hparse),
      <- has_closure_convention_iff.
    split.
    + intros (d' & _ & _ & Hinit' & Hclo').
      destruct (FunctionTypedef_init_inv _ _ Hinit') as (_ & _ & _ & Hhas' & _).
      congruence.
    + intros Hclo. exists d. now repeat split.
  - now rewrite Hhas, has_closure_convention_iff.
  - intros Hclo. apply has_closure_convention_iff in Hclo.
    rewrite Hhas, Hclo in Hadapt. injection Hadapt as Hw Ha Hp.
    repeat split; try assumption.
    rewrite Hp, length_map.
    assert (Hne : ps <> []).
    { rewrite Hps. unfold has_closure_convention, last_parameter_name in Hclo.
      destruct (parameter_children d); [discriminate|discriminate]. }
    destruct (exists_last Hne) as (l & a & ->).
    rewrite removelast_last, length_app. simpl. lia.
  - intros Hclo. rewrite <- has_closure_convention_iff in Hclo.
    apply not_true_is_false in Hclo. rewrite Hhas, Hclo in Hadapt.
    injection Hadapt as Hw Ha Hp. now repeat split.
Qed.

(** C4 on [typedef void ( *natsErrHandler)(natsConnection *nc, natsMsg *msg,
    natsStatus err, const char *text, void *closure)]: the connection is
    passed by reference to a wrapper, the message by move, the status code
    and the text as they are declared, and the closure is left out. *)
Lemma C4_callback_descriptor_witness :
  let d := Sample.function_pointer
             "natsErrHandler"
             [Sample.parm "natsConnection *" "nc"; Sample.parm "natsMsg *" "msg";
              Sample.parm "natsStatus" "err"; Sample.parm "const char *" "text";
              Sample.closure] in
  exists ftd,
    FunctionTypedef_init d = Ok ftd
    /\ FunctionTypedef.namespace ftd = "nats"
    /\ FunctionTypedef.parameters_ ftd
       = ["Connection &"; "Msg &&"; "natsStatus err"; "const char * text"]
    /\ FunctionTypedef.arguments_ ftd = ["nc_"; "Msg(msg)"; "err"; "text"]
    /\ FunctionTypedef.wrapper ftd = ["Connection::WithoutDestuction nc_(nc)"].
Proof.
  intros d.
  assert (Hparse : exists model, parse (Sample.header [d]) = Ok model)
    by (eexists; vm_compute; reflexivity).
  destruct Hparse as [model Hparse].
  assert (Hin : In d (get_children (Sample.header [d]))) by (left; reflexivity).
  eexists. split; [vm_compute; reflexivity|].
  match goal with
  | |- FunctionTypedef.namespace ?ftd = _ /\ _ =>
      destruct (C4_callback_descriptor (Sample.header [d]) model d ftd
                                       Hparse Hin eq_refl eq_refl)
        as ((_ & Hns & _) & _ & _ & _ & Hclosure & _)
  end.
  destruct (Hclosure eq_refl) as (Hp & Ha & Hw & _).
  split; [exact Hns|split; [exact Hp|split; [exact Ha|exact Hw]]].
Defined.

(** The claim as stated fails on two typedefs with the closure convention.
    In [typedef void ( *natsMsgHandler)(const natsMsg *msg, void *closure)]
    the type of [msg] is the message type of the library behind a const
    qualifier; its spelling does not start with [nats], and [msg] is passed
    as it is declared.  In [typedef void ( *stanMsgHandler)(natsMsg *msg,
    void *closure)] the plain type of [msg] is [natsMsg]; its spelling does
    not start with the prefix [stan] of the typedef, and [msg] is passed as
    it is declared. *)
Lemma C4_counterexample :
  let const_msg := Sample.parm "const natsMsg *" "msg" in
  let msg := Sample.parm "natsMsg *" "msg" in
  (exists ftd,
      FunctionTypedef_init
        (Sample.function_pointer "natsMsgHandler" [const_msg; Sample.closure]) = Ok ftd
      /\ FunctionTypedef.has_closure ftd = true
      /\ FunctionTypedef.original_parameters ftd
         = [FunctionParameter_init const_msg; FunctionParameter_init Sample.closure]
      /\ recognized (without_leading_const
                       (FunctionParameter.type (FunctionParameter_init const_msg))) = true
      /\ FunctionParameter.type (FunctionParameter_init const_msg) <> "natsStatus"
      /\ FunctionTypedef.parameters_ ftd = ["const natsMsg * msg"]
      /\ FunctionTypedef.arguments_ ftd = ["msg"]
      /\ FunctionTypedef.wrapper ftd = [])
  /\ (exists ftd,
         FunctionTypedef_init
           (Sample.function_pointer "stanMsgHandler" [msg; Sample.closure]) = Ok ftd
         /\ FunctionTypedef.has_closure ftd = true
         /\ FunctionTypedef.original_parameters ftd
            = [FunctionParameter_init msg; FunctionParameter_init Sample.closure]
         /\ recognized (FunctionParameter.type (FunctionParameter_init msg)) = true
         /\ FunctionParameter.plain_type (FunctionParameter_init msg) = "natsMsg"
         /\ FunctionTypedef.parameters_ ftd = ["natsMsg * msg"]
         /\ FunctionTypedef.arguments_ ftd = ["msg"]
         /\ FunctionTypedef.wrapper ftd = []).
Proof.
  split.
  - eexists. split; [vm_compute; reflexivity|].
    repeat split; try reflexivity. discriminate.
  - eexists. split; [vm_compute; reflexivity|].
    repeat split; reflexivity.
Qed.

(* ================================================================= *)
(** ** What appears in the model (C3) *)

Lemma function_names_iff (cursor : Cursor) (model : Model.t) (x : string) :
  parse cursor = Ok model ->
  (exists ns, In ns (Model.namespaces model) /\ In x (function_names model ns))
  <-> exists d, In d (get_children cursor) /\ spelling d = x
                /\ is_function_decl d = true.
Proof.
  intros H. apply parse_inv in H as (decls & -> & Hfun & _ & _).
  destruct (group_spec decls) as (nats & stan & Hns & _ & _ & _ & _ & Hx).
  specialize (Hx x). rewrite in_app_iff in Hx.
  assert (Hin : forall n,
             In x (new_functions decls n)
             <-> exists d, In d (get_children cursor) /\ spelling d = x
                           /\ is_function_decl d = true
                           /\ PyStr.startswith x n = true).
  { intros n. unfold new_functions. rewrite in_map_iff. split.
    - intros (f & <- & [Hf Hstart]%filter_In).
      destruct (normalized_from_In_r _ _ _ _ Hfun Hf) as (d & Hd & Hinit).
      apply filter_In in Hd as [Hd Hkind].
      destruct (Function_init_inv _ _ Hinit) as (Hname & _).
      exists d. now repeat split.
    - intros (d & Hd & <- & Hkind & Hstart).
      assert (Hd' : In d (filter is_function_decl (get_children cursor)))
        by (apply filter_In; now split).
      destruct (normalized_from_In_l _ _ _ _ Hfun Hd') as (f & Hf & Hinit).
      destruct (Function_init_inv _ _ Hinit) as (Hname & _).
      exists f. split; [exact Hname|]. apply filter_In. split; [exact Hf|].
      now rewrite Hname. }
  rewrite Hns. split.
  - intros (ns & Hns' & Hin').
    assert (Hor : In x (function_names (group decls) nats)
                  \/ In x (function_names (group decls) stan))
      by (destruct Hns' as [<-|[<-|[]]]; [now left|now right]).
    apply Hx in Hor as [Hn|Hn]; apply Hin in Hn as (d & ? & ? & ? & _); now exists d.
  - intros (d & Hd & Hname & Hkind).
    pose proof (is_function_decl_recognized d Hkind) as Hrec.
    rewrite Hname in Hrec.
    assert (Hor : In x (new_functions decls "nats") \/ In x (new_functions decls "stan")).
    { apply recognized_iff in Hrec as [Hrec|Hrec]; [left|right];
        apply Hin; exists d; now repeat split. }
    apply Hx in Hor as [Hn|Hn]; [exists nats|exists stan]; simpl; tauto.
Qed.

Lemma callback_names_iff (cursor : Cursor) (model : Model.t) (x : string) :
  parse cursor = Ok model ->
  (exists ns, In ns (Model.namespaces model) /\ In x (callback_names ns))
  <-> exists d, In d (get_children cursor) /\ spelling d = x
                /\ is_function_typedef d = true
                /\ has_closure_convention d = true.
Proof.
  intros H. split.
  - intros (ns & Hns & Hin). unfold callback_names in Hin.
    apply in_map_iff in Hin as (ftd & <- & Hin).
    assert (Hex : exists ns, In ns (Model.namespaces model)
                             /\ In ftd (Namespace.function_typedefs ns))
      by now exists ns.
    apply (function_typedefs_iff cursor model ftd H) in Hex
      as (d & Hd & Hkind & Hinit & Hclo).
    destruct (FunctionTypedef_init_inv _ _ Hinit) as (Hname & _).
    exists d. now repeat split.
  - intros (d & Hd & <- & Hkind & Hclo).
    assert (Hok : exists ftd, FunctionTypedef_init d = Ok ftd).
    { apply FunctionTypedef_init_ok.
      unfold has_closure_convention, last_parameter_name in Hclo.
      destruct (parameter_children d); [discriminate|discriminate]. }
    destruct Hok as (ftd & Hinit).
    assert (Hex : exists d, In d (get_children cursor) /\ is_function_typedef d = true
                            /\ FunctionTypedef_init d = Ok ftd
                            /\ has_closure_convention d = true)
      by (exists d; now repeat split).
    apply (function_typedefs_iff cursor model ftd H) in Hex as (ns & Hns & Hin).
    destruct (FunctionTypedef_init_inv _ _ Hinit) as (Hname & _).
    exists ns. split; [exact Hns|]. unfold callback_names.
    rewrite <- Hname. now apply in_map.
Qed.

Lemma exported_recognized (l : list Cursor) (d : Cursor) :
  exported l d = true -> recognized (spelling d) = true.
Proof.
  unfold exported. intros H.
  apply orb_true_iff in H as [H|[H _]%andb_true_iff];
    [apply orb_true_iff in H as [H|[H _]%andb_true_iff]|].
  - now apply is_function_decl_recognized.
  - now apply is_plain_typedef_recognized.
  - now apply is_function_typedef_recognized.
Qed.

(** C3 (as amended).  A name is in the model if and only if it is the name
    of a declaration with a recognized prefix that is a function, a plain
    typedef with a destructor, or a function-pointer typedef with the
    closure convention.  So every name in the model has a recognized
    prefix and every function with a recognized prefix is in the model, as
    a method or as a free function; enums, plain typedefs without a
    destructor and function-pointer typedefs without the closure
    convention leave nothing in it. *)
Theorem C3_names_in_model (cursor : Cursor) (model : Model.t) :
  parse cursor = Ok model ->
  (forall x, In x (output_names model)
             <-> exists d, In d (get_children cursor) /\ spelling d = x
                           /\ exported (get_children cursor) d = true)
  /\ (forall x, In x (output_names model) -> recognized x = true)
  /\ (forall d, In d (get_children cursor) -> is_function_decl d = true ->
                In (spelling d) (output_names model)).
Proof.
  intros Hparse.
  assert (Hiff : forall x, In x (output_names model)
                           <-> exists d, In d (get_children cursor) /\ spelling d = x
                                         /\ exported (get_children cursor) d = true).
  { intros x. unfold output_names. rewrite in_flat_map.
    pose proof (function_names_iff cursor model x Hparse) as Hf.
    pose proof (class_names_iff cursor model x Hparse) as Hc.
    pose proof (callback_names_iff cursor model x Hparse) as Hb.
    split.
    - intros (ns & Hns & Hin). rewrite !in_app_iff in Hin.
      destruct Hin as [Hin|[Hin|Hin]].
      + destruct (proj1 Hf (ex_intro _ ns (conj Hns Hin))) as (d & Hd & Hname & Hk).
        exists d. unfold exported. rewrite Hk. now repeat split.
      + destruct (proj1 Hc (ex_intro _ ns (conj Hns Hin)))
          as (d & Hd & Hname & Hk & Hdes).
        exists d. unfold exported. rewrite Hk, Hdes, orb_true_r. now repeat split.
      + destruct (proj1 Hb (ex_intro _ ns (conj Hns Hin)))
          as (d & Hd & Hname & Hk & Hclo).
        exists d. unfold exported. rewrite Hk, Hclo, orb_true_r. now repeat split.
    - intros (d & Hd & Hname & Hexp). unfold exported in Hexp.
      apply orb_true_iff in Hexp as [Hexp|[Hk Hclo]%andb_true_iff];
        [apply orb_true_iff in Hexp as [Hk|[Hk Hdes]%andb_true_iff]|].
      + destruct (proj2 Hf) as (ns & Hns & Hin); [now exists d|].
        exists ns. rewrite !in_app_iff. tauto.
      + destruct (proj2 Hc) as (ns & Hns & Hin); [now exists d|].
        exists ns. rewrite !in_app_iff. tauto.
      + destruct (proj2 Hb) as (ns & Hns & Hin); [now exists d|].
        exists ns. rewrite !in_app_iff. tauto. }
  split; [exact Hiff|split].
  - intros x Hx. apply Hiff in Hx as (d & _ & <- & Hexp).
    now apply exported_recognized in Hexp.
  - intros d Hd Hk. apply Hiff. exists d. unfold exported. rewrite Hk.
    now repeat split.
Qed.

(** C3 on the sample header: the function [natsMsg_Equal] is in the
    model. *)
Lemma C3_names_in_model_witness :
  exists model, parse Sample.nats_h = Ok model
                /\ In "natsMsg_Equal" (output_names model).
Proof.
  eexists. split; [vm_compute; reflexivity|].
  match goal with
  | |- In _ (output_names ?model) =>
      assert (Hparse : parse Sample.nats_h = Ok model) by (vm_compute; reflexivity);
      apply (proj2 (proj2 (C3_names_in_model Sample.nats_h model Hparse))
                   Sample.natsMsg_Equal)
  end.
  - simpl. tauto.
  - reflexivity.
Defined.

(** The claim as stated fails on a header with an enum, a plain typedef
    without a destructor and a function-pointer typedef without the closure
    convention: the three names have a recognized prefix and the model holds
    no name. *)
Lemma C3_counterexample :
  recognized "natsStatus" = true
  /\ recognized "natsOptions" = true
  /\ recognized "natsTokenHandler" = true
  /\ parse (Sample.header
              [ Sample.enum "natsStatus";
                Sample.alias "natsOptions";
                Sample.function_pointer
                  "natsTokenHandler"
                  [Sample.parm "char **" "token"; Sample.parm "void *" "userData"] ])
     = Ok (Model.mk [ Namespace.mk "nats" [] [] [] None;
                      Namespace.mk "stan" [] [] []
                                   (Some "defined(NATS_HAS_STREAMING)") ]
                    []).
Proof. repeat split. Qed.

(* ================================================================= *)
(** ** The methods of the model *)

Section MethodsOfModel.

Variable function_typedef_names : list string.

(** [Method.__init__] reads the original type and the namespace of
    [this], nothing else. *)
Lemma Method_body_this (this this' : Class.t) (st : MethodLoop.t)
      (p : FunctionParameter.t) :
  Class.original_type this' = Class.original_type this ->
  Class.namespace this' = Class.namespace this ->
  Method_body this' function_typedef_names st p
  = Method_body this function_typedef_names st p.
Proof.
  intros Ho Hn.
  unfold Method_body, Method_classify, receiver_match, temporary_match.
  now rewrite Ho, Hn.
Qed.

Lemma Method_init_this (this this' : Class.t) (f : Function.t) :
  Class.original_type this' = Class.original_type this ->
  Class.namespace this' = Class.namespace this ->
  Method_init f this' function_typedef_names = Method_init f this function_typedef_names.
Proof.
  intros Ho Hn. unfold Method_init. f_equal.
  generalize (Method_start f).
  induction (Function.parameters f) as [|p ps IH]; intros st; simpl; [reflexivity|].
  now rewrite (Method_body_this this this' st p Ho Hn), IH.
Qed.

Lemma built_from_add_method (fs : list Function.t) (c : Class.t) (f : Function.t) :
  In f fs -> built_from fs function_typedef_names c ->
  built_from fs function_typedef_names (Class_add_method c f function_typedef_names).
Proof.
  intros Hf Hc m Hm. simpl in Hm. apply in_app_iff in Hm as [Hm|[<-|[]]].
  - destruct (Hc m Hm) as (g & Hg & ->). exists g. split; [exact Hg|].
    symmetry. now apply Method_init_this.
  - exists f. split; [exact Hf|]. symmetry. now apply Method_init_this.
Qed.

Lemma built_from_update (fs : list Function.t) (heap : list Class.t)
      (i : nat) (f : Function.t) :
  In f fs -> Forall (built_from fs function_typedef_names) heap ->
  Forall (built_from fs function_typedef_names)
         (update i (fun c => Class_add_method c f function_typedef_names) heap).
Proof.
  intros Hf Hheap. revert i.
  induction Hheap as [|c heap Hc Hheap IH]; intros [|i]; simpl; constructor;
    try assumption.
  - now apply built_from_add_method.
  - apply IH.
Qed.

Lemma built_from_assign (fs l : list Function.t) (ns : Namespace.t)
      (heap : list Class.t) :
  incl l fs -> Forall (built_from fs function_typedef_names) heap ->
  Forall (built_from fs function_typedef_names)
         (snd (fold_left (assign_function function_typedef_names) l (ns, heap))).
Proof.
  revert ns heap; induction l as [|f l IH]; intros ns heap Hincl Hheap; simpl;
    [exact Hheap|].
  assert (Hf : In f fs) by (apply Hincl; now left).
  assert (Hl : incl l fs) by (intros g Hg; apply Hincl; now right).
  destruct (find_class heap f) as [i|].
  - apply IH; [exact Hl|]. now apply built_from_update.
  - now apply IH.
Qed.

Lemma built_from_namespace (decls : Declarations.t) (function_names : list string)
      (ns : Namespace.t) (heap : list Class.t) :
  Forall (built_from (Declarations.functions decls) function_typedef_names) heap ->
  Forall (built_from (Declarations.functions decls) function_typedef_names)
         (snd (parse_namespace decls function_names function_typedef_names ns heap)).
Proof.
  intros Hheap. unfold parse_namespace.
  set (ns1 := fold_left attach_function_typedef _ ns).
  pose proof (promote_fold function_names
                (filter (fun td => PyStr.startswith (Typedef.name td) (Namespace.name ns1))
                        (Declarations.typedefs decls)) ns1 heap) as H2.
  destruct (fold_left (promote_typedef function_names) _ (ns1, heap)) as [ns2 heap2].
  destruct H2 as (_ & _ & _ & _ & ->).
  apply built_from_assign.
  - intros f Hf. now apply filter_In in Hf as [Hf _].
  - apply Forall_app. split; [exact Hheap|].
    apply Forall_forall. intros c Hc m Hm.
    apply in_map_iff in Hc as (td & <- & _). destruct Hm.
Qed.

End MethodsOfModel.

Lemma closure_names (ds : list Cursor) (gs : list FunctionTypedef.t) :
  normalized_from FunctionTypedef_init ds gs ->
  map FunctionTypedef.original_name (filter FunctionTypedef.has_closure gs)
  = map spelling (filter has_closure_convention ds).
Proof.
  induction 1 as [|d g ds gs Hdg _ IH]; simpl; [reflexivity|].
  destruct (FunctionTypedef_init_inv _ _ Hdg) as (Hname & _ & _ & -> & _).
  destruct (has_closure_convention d); simpl; [|exact IH].
  now rewrite IH, Hname.
Qed.

(** Every method of the model is [Method(function, class, names)] for a
    function declaration of the header, the class that holds it and the
    names of the typedefs with the closure convention. *)
Lemma model_methods (cursor : Cursor) (model : Model.t) (c : Class.t) (m : Method.t) :
  parse cursor = Ok model ->
  In c (Model.heap model) -> In m (Class.methods c) ->
  exists d f, In d (get_children cursor)
              /\ is_function_decl d = true
              /\ Function_init d = Ok f
              /\ m = Method_init f c (closure_typedef_names (get_children cursor)).
Proof.
  intros H Hc Hm. apply parse_inv in H as (decls & -> & Hfun & _ & Hftd).
  assert (Hheap : Forall (built_from (Declarations.functions decls)
                                     (closure_typedef_names (get_children cursor)))
                         (Model.heap (group decls))).
  { unfold group, closure_typedef_names. rewrite <- (closure_names _ _ Hftd).
    cbn [parse_namespaces initial_namespaces].
    set (names := map Function.original_function _).
    set (ftdn := map FunctionTypedef.original_name _).
    pose proof (built_from_namespace ftdn decls names (Namespace_init "nats" None) []
                                     (Forall_nil _)) as H1.
    destruct (parse_namespace decls names ftdn (Namespace_init "nats" None) [])
      as [ns1 h1].
    pose proof (built_from_namespace
                  ftdn decls names
                  (Namespace_init "stan" (Some "defined(NATS_HAS_STREAMING)")) h1 H1)
      as H2.
    destruct (parse_namespace decls names ftdn _ h1) as [ns2 h2].
    exact H2. }
  rewrite Forall_forall in Hheap.
  destruct (Hheap c Hc m Hm) as (f & Hf & ->).
  destruct (normalized_from_In_r _ _ _ _ Hfun Hf) as (d & Hd & Hinit).
  apply filter_In in Hd as [Hd Hk].
  exists d, f. now repeat split.
Qed.

(* ================================================================= *)
(** * Further properties *)

(* ================================================================= *)
(** ** More on the parameter loop of [Method.__init__] *)

Section ForwardLists.

Variable this : Class.t.
Variable function_typedefs : list string.

Let body := Method_body this function_typedefs.
Let run (ps : list FunctionParameter.t) (st : MethodLoop.t) := fold_left body ps st.

Ltac forward_iteration st p :=
  unfold body, Method_body, Method_classify, callback, visible;
  destruct (receiver_match this p), (two_pointers p), (temporary_match this p);
  cbn [negb andb orb fst snd];
  rewrite ?truthy_parameter;
  destruct (PyStr.mem (FunctionParameter.type p) function_typedefs);
  destruct (MethodLoop.next_parameter_type st) as [npt|];
  try destruct (PyStr.truthy npt);
  cbn.

Lemma body_forward_lengths st p :
  List.length (Method.forward_arguments_ (MethodLoop.self (body st p)))
  = List.length (Method.forward_arguments_ (MethodLoop.self st))
    + (if visible this p then 1 else 0)
  /\ List.length (Method.forward_parameters_ (MethodLoop.self (body st p)))
       + (if callback this function_typedefs p then 1 else 0)
     = List.length (Method.forward_parameters_ (MethodLoop.self st))
       + (if visible this p then 1 else 0).
Proof.
  forward_iteration st p; rewrite ?length_app; simpl; split; lia.
Qed.

Lemma run_forward_lengths ps st :
  List.length (Method.forward_arguments_ (MethodLoop.self (run ps st)))
  = List.length (Method.forward_arguments_ (MethodLoop.self st))
    + List.length (filter (visible this) ps)
  /\ List.length (Method.forward_parameters_ (MethodLoop.self (run ps st)))
       + List.length (filter (callback this function_typedefs) ps)
     = List.length (Method.forward_parameters_ (MethodLoop.self st))
       + List.length (filter (visible this) ps).
Proof.
  unfold run.
  revert st; induction ps as [|p ps IH]; intros st; simpl; [lia|].
  destruct (IH (body st p)) as [Ha Hp].
  destruct (body_forward_lengths st p) as [Ha' Hp'].
  destruct (visible this p), (callback this function_typedefs p); simpl; lia.
Qed.

(** Without a callback parameter the loop forwards what it publishes. *)
Lemma body_no_callback st p :
  callback this function_typedefs p = false ->
  MethodLoop.next_parameter_type st = None ->
  MethodLoop.next_parameter_type (body st p) = None
  /\ Method.forward_parameters_ (MethodLoop.self (body st p))
     = (Method.forward_parameters_ (MethodLoop.self st)
        ++ if visible this p then [FunctionParameter.parameter p] else [])%list
  /\ Method.forward_arguments_ (MethodLoop.self (body st p))
     = (Method.forward_arguments_ (MethodLoop.self st)
        ++ if visible this p then [FunctionParameter.argument p] else [])%list.
Proof.
  intros Hcb Hnone. revert Hcb.
  unfold body, Method_body, Method_classify, callback, visible. rewrite Hnone.
  destruct (receiver_match this p), (two_pointers p), (temporary_match this p);
    cbn [negb andb orb fst snd]; rewrite ?truthy_parameter;
    destruct (PyStr.mem (FunctionParameter.type p) function_typedefs);
    cbn; intros Hcb; try discriminate; rewrite ?app_nil_r; repeat split.
Qed.

Lemma run_no_callback ps st :
  filter (callback this function_typedefs) ps = [] ->
  MethodLoop.next_parameter_type st = None ->
  Method.forward_parameters_ (MethodLoop.self (run ps st))
  = (Method.forward_parameters_ (MethodLoop.self st)
     ++ map FunctionParameter.parameter (filter (visible this) ps))%list
  /\ Method.forward_arguments_ (MethodLoop.self (run ps st))
     = (Method.forward_arguments_ (MethodLoop.self st) ++ plain_arguments this ps)%list.
Proof.
  unfold plain_arguments, run.
  revert st; induction ps as [|p ps IH]; intros st Hcb Hnone; simpl.
  - now rewrite !app_nil_r.
  - simpl in Hcb.
    destruct (callback this function_typedefs p) eqn:Hp; [discriminate|].
    destruct (body_no_callback st p Hp Hnone) as (Hnone' & Hfp & Hfa).
    destruct (IH (body st p) Hcb Hnone') as [-> ->]. rewrite Hfp, Hfa.
    destruct (visible this p); simpl; rewrite <- !app_assoc; now split.
Qed.

End ForwardLists.

(** X1.  The dispatched call of a method passes one argument for each
    parameter of the C function; the forwarded call passes one argument for
    each public parameter; and the forwarded parameter list is the public
    one without the callback parameters. *)
Theorem Method_arity
        (function : Function.t) (this : Class.t) (function_typedefs : list string) :
  let m := Method_init function this function_typedefs in
  let ps := Function.parameters function in
  List.length (Method.arguments_ m) = List.length ps
  /\ List.length (Method.parameters_ m) = List.length (filter (visible this) ps)
  /\ List.length (Method.forward_arguments_ m) = List.length (Method.parameters_ m)
  /\ List.length (Method.forward_parameters_ m)
       + List.length (filter (callback this function_typedefs) ps)
     = List.length (Method.parameters_ m).
Proof.
  intros m ps. unfold m.
  rewrite Method_init_arguments, Method_init_parameters, !length_map. fold ps.
  destruct (run_forward_lengths this function_typedefs ps (Method_start function))
    as [Ha Hp].
  unfold Method_init. fold ps. simpl in Ha, Hp.
  repeat split; try assumption.
Qed.

(** X2.  A method of a function without callback parameters has no
    template parameter, and its forwarded parameters and arguments are its
    public parameters and their names. *)
Theorem Method_without_callback
        (function : Function.t) (this : Class.t) (function_typedefs : list string) :
  filter (callback this function_typedefs) (Function.parameters function) = [] ->
  let m := Method_init function this function_typedefs in
  Method.template_parameter_ m = []
  /\ Method.forward_parameters_ m = Method.parameters_ m
  /\ Method.forward_arguments_ m = plain_arguments this (Function.parameters function).
Proof.
  intros Hcb m. unfold m.
  rewrite Method_init_template, Method_init_parameters, Hcb.
  destruct (run_no_callback this function_typedefs (Function.parameters function)
                            (Method_start function) Hcb eq_refl) as [Hfp Hfa].
  unfold Method_init. rewrite Hfp, Hfa. repeat split.
Qed.

Lemma Method_without_callback_witness :
  let m := Method_init (Sample.normalized Sample.natsMsg_Equal)
                       (Sample.class "natsConnection") Sample.callbacks in
  Method.template_parameter_ m = []
  /\ Method.forward_parameters_ m = ["const natsMsg * a"; "natsMsg * b"]
  /\ Method.forward_arguments_ m = ["a"; "b"].
Proof.
  destruct (Method_without_callback (Sample.normalized Sample.natsMsg_Equal)
                                    (Sample.class "natsConnection") Sample.callbacks
                                    eq_refl) as (Ht & Hp & Ha).
  split; [exact Ht|split; [exact Hp|exact Ha]].
Defined.

(** X3.  Reading [suffix] of a method raises [AttributeError] exactly when
    no parameter of the function is an instance receiver, as for a
    constructor that only has its output receiver; otherwise the suffix is
    [ const] when the last instance receiver is const-qualified and empty
    when it is not. *)
Theorem Method_suffix_defined
        (function : Function.t) (this : Class.t) (function_typedefs : list string) :
  let m := Method_init function this function_typedefs in
  let ps := Function.parameters function in
  (Method_suffix m = None <-> existsb (instance_receiver this) ps = false)
  /\ (forall q, last_such (instance_receiver this) ps = Some q ->
                Method_suffix m
                = Some (if PyStr.startswith (FunctionParameter.type q) "const "
                        then " const" else "")).
Proof.
  intros m ps. unfold Method_suffix, m. rewrite Method_init_is_const. fold ps.
  split.
  - unfold last_such.
    assert (Hex : existsb (instance_receiver this) ps = false
                  <-> filter (instance_receiver this) ps = []).
    { induction ps as [|p l IH]; simpl; [tauto|].
      destruct (instance_receiver this p); simpl; [split; discriminate|exact IH]. }
    rewrite Hex.
    destruct (filter (instance_receiver this) ps) as [|a l] eqn:E.
    + simpl. tauto.
    + cbn [rev]. destruct (rev l ++ [a])%list as [|t l0] eqn:E'.
      * now destruct (rev l).
      * cbn [option_map].
        destruct (PyStr.startswith (FunctionParameter.type t) "const ");
          split; intros H; discriminate H.
  - intros q ->. cbn [option_map].
    now destruct (PyStr.startswith (FunctionParameter.type q) "const "); simpl.
Qed.

(** X4.  A method is flagged as a constructor exactly when the name of
    the function ends with [_Create] or one of its parameters is an output
    receiver of the class, and as a destructor exactly when the name ends
    with [_Destroy], whatever the parameters. *)
Theorem Method_flags
        (function : Function.t) (this : Class.t) (function_typedefs : list string) :
  let m := Method_init function this function_typedefs in
  Method.is_constructor m
  = PyStr.endswith (Function.original_function function) "_Create"
    || existsb (output_receiver this) (Function.parameters function)
  /\ Method.is_destructor m
     = PyStr.endswith (Function.original_function function) "_Destroy".
Proof.
  intros m. unfold m. split.
  - apply Method_init_is_constructor.
  - unfold Method_init. now rewrite (proj2 (run_function _ _ _ _)).
Qed.

(* ================================================================= *)
(** ** The name of a function *)

Lemma append_empty_r (s : string) : s ++ "" = s.
Proof. induction s; simpl; congruence. Qed.

Lemma join_cons_char (sep : string) (c : ascii) (h : string) (t : list string) :
  PyStr.join sep (String c h :: t) = String c (PyStr.join sep (h :: t)).
Proof. unfold PyStr.join. simpl. now destruct t. Qed.

(** [sep.join(s.split(sep, n))] is [s]. *)
Lemma join_split (sep : ascii) (n : nat) (s : string) :
  PyStr.join (String sep "") (PyStr.split sep n s) = s.
Proof.
  revert n; induction s as [|c s IH]; intros n; [reflexivity|].
  cbn [PyStr.split]. destruct n as [|n]; [reflexivity|].
  destruct (Ascii.eqb_spec c sep) as [->|Hne].
  - destruct (split_first sep n s) as (h & t & E).
    specialize (IH n). rewrite E in *.
    change (PyStr.join (String sep "") ("" :: h :: t))
      with (String sep (PyStr.join (String sep "") (h :: t))).
    now rewrite IH.
  - destruct (split_first sep (S n) s) as (h & t & E).
    specialize (IH (S n)). rewrite E in *.
    now rewrite join_cons_char, IH.
Qed.

(** The first piece of a split has no separator, and the rest is the split
    of what follows the first separator. *)
Lemma split_head (sep : ascii) (n : nat) (s h : string) (t : list string) :
  PyStr.split sep (S n) s = h :: t ->
  contains sep h = false
  /\ (t = [] \/ exists rest, s = h ++ String sep rest /\ t = PyStr.split sep n rest).
Proof.
  revert h t; induction s as [|c s IH]; intros h t.
  - simpl. intros [= <- <-]. split; [reflexivity|now left].
  - cbn [PyStr.split]. destruct (Ascii.eqb_spec c sep) as [->|Hne].
    + intros [= <- <-]. split; [reflexivity|]. right. now exists s.
    + destruct (split_first sep (S n) s) as (h' & t' & E). rewrite E.
      intros [= <- <-]. destruct (IH h' t' E) as [Hh Ht].
      split.
      * simpl. rewrite Hh. apply Ascii.eqb_neq in Hne. now rewrite Hne.
      * destruct Ht as [->|(rest & -> & ->)]; [now left|].
        right. now exists rest.
Qed.

Lemma Function_init_tokens (cursor : Cursor) (f : Function.t) :
  Function_init cursor = Ok f ->
  exists h h' t,
    PyStr.split "_" 2 (spelling cursor) = h :: h' :: t
    /\ Function.namespace f = PyStr.take 4 h
    /\ Function.type f = PyStr.drop 4 h
    /\ Function.name f = h'.
Proof.
  unfold Function_init, bind, index. intros H.
  destruct (PyStr.split "_" 2 (spelling cursor)) as [|h [|h' t]];
    cbn [nth_error] in H; try discriminate.
  exists h, h', t. split; [reflexivity|].
  pose proof (f_equal (fun r => match r with
                                | Ok x => Function.namespace x
                                | Raise _ => ""
                                end) H) as Hn.
  pose proof (f_equal (fun r => match r with
                                | Ok x => Function.type x
                                | Raise _ => ""
                                end) H) as Ht.
  pose proof (f_equal (fun r => match r with
                                | Ok x => Function.name x
                                | Raise _ => ""
                                end) H) as Hm.
  cbn [Function.namespace Function.type Function.name] in Hn, Ht, Hm.
  now rewrite <- Hn, <- Ht, <- Hm.
Qed.

(** X5.  [Function] cuts the name of a function at its first two
    underscores: the name is the namespace, the type, an underscore and the
    short name, followed by nothing or by an underscore and the rest;
    neither the namespace and type nor the short name has an underscore. *)
Theorem Function_name_parts (cursor : Cursor) (f : Function.t) :
  Function_init cursor = Ok f ->
  contains "_" (Function.namespace f ++ Function.type f) = false
  /\ contains "_" (Function.name f) = false
  /\ exists rest,
      spelling cursor
      = Function.namespace f ++ Function.type f ++ "_" ++ Function.name f ++ rest
      /\ (rest = "" \/ exists more, rest = "_" ++ more).
Proof.
  intros H.
  destruct (Function_init_tokens cursor f H) as (h & h' & t & E & -> & -> & ->).
  pose proof (join_split "_" 2 (spelling cursor)) as Hjoin. rewrite E in Hjoin.
  destruct (split_head _ _ _ _ _ E) as [Hh [Ht|(rest & Hs & Ht)]]; [discriminate|].
  symmetry in Ht. destruct (split_head _ _ _ _ _ Ht) as [Hh' Hrest].
  rewrite take_drop.
  split; [exact Hh|]. split; [exact Hh'|].
  destruct Hrest as [->|(rest' & Hr & Ht')].
  - exists "". split; [|now left].
    rewrite <- append_assoc, take_drop, <- Hjoin, append_empty_r. reflexivity.
  - exists ("_" ++ rest'). split; [|right; now exists rest'].
    rewrite <- append_assoc, take_drop, Hs, Hr. reflexivity.
Qed.

Lemma Function_name_parts_witness :
  exists rest,
    "natsConnection_Publish_String"
    = "nats" ++ "Connection" ++ "_" ++ "Publish" ++ rest
    /\ (rest = "" \/ exists more, rest = "_" ++ more).
Proof.
  destruct (Function_name_parts
              (Sample.func "natsConnection_Publish_String" "natsStatus" [])
              (Sample.normalized
                 (Sample.func "natsConnection_Publish_String" "natsStatus" []))
              eq_refl) as (_ & _ & rest & Hname & Hrest).
  exists rest. split; [exact Hname|exact Hrest].
Defined.

Lemma contains_app (c : ascii) (a b : string) :
  contains c (a ++ b) = contains c a || contains c b.
Proof. induction a as [|x a IH]; simpl; [reflexivity|]. now rewrite IH, orb_assoc. Qed.

Lemma take_app_short (n : nat) (a b : string) :
  n <= String.length a -> PyStr.take n (a ++ b) = PyStr.take n a.
Proof.
  revert a; induction n as [|n IH]; intros a Hn; [reflexivity|].
  destruct a as [|c a]; simpl in *; [lia|]. rewrite IH by lia. reflexivity.
Qed.

(** X6.  The namespace of a function with a recognized prefix is that
    prefix, [nats] or [stan]: the first four characters of its name. *)
Theorem Function_namespace_recognized (cursor : Cursor) (f : Function.t) :
  Function_init cursor = Ok f ->
  recognized (spelling cursor) = true ->
  Function.namespace f = PyStr.take 4 (spelling cursor)
  /\ (Function.namespace f = "nats" \/ Function.namespace f = "stan").
Proof.
  intros Hinit Hrec.
  destruct (Function_init_tokens cursor f Hinit) as (tok & h' & t & E & Htok & _ & _).
  destruct (split_head _ _ _ _ _ E) as [_ [Ht|(rest & Hname & _)]]; [discriminate|].
  assert (Hlen : 4 <= String.length tok).
  { (* an underscore among the first four characters would be in the prefix *)
    clear -Hname Hrec.
    apply recognized_iff in Hrec as [[u Hu]%startswith_inv|[u Hu]%startswith_inv];
      rewrite Hu in Hname;
      destruct tok as [|c0 [|c1 [|c2 [|c3 tok]]]]; simpl; try lia; discriminate Hname. }
  assert (Heq : Function.namespace f = PyStr.take 4 (spelling cursor)).
  { rewrite Htok, Hname. symmetry. now apply take_app_short. }
  split; [exact Heq|]. rewrite Heq.
  apply recognized_iff in Hrec as [[u ->]%startswith_inv|[u ->]%startswith_inv];
    [left|right]; reflexivity.
Qed.

Lemma Function_namespace_recognized_witness :
  Function.namespace (Sample.normalized (Sample.destroy "stanConnection")) = "stan".
Proof.
  destruct (Function_namespace_recognized
              (Sample.destroy "stanConnection")
              (Sample.normalized (Sample.destroy "stanConnection"))
              eq_refl eq_refl) as [H _].
  exact H.
Defined.

(* ================================================================= *)
(** ** The result type of a function-pointer typedef *)

Lemma children_result_type (l : list Cursor) (st : string * list FunctionParameter.t) :
  fst (fold_left FunctionTypedef_child l st)
  = match last_such (fun c => CursorKind_eqb (kind c) TYPE_REF) l with
    | Some c => type_spelling (type_ c)
    | None => fst st
    end.
Proof.
  revert st; induction l as [|c l IH]; intros st; simpl; [reflexivity|].
  rewrite IH, last_such_cons. unfold FunctionTypedef_child.
  destruct (last_such _ l); [reflexivity|].
  destruct (CursorKind_eqb (kind c) TYPE_REF); reflexivity.
Qed.

(** X7.  The result type of a function-pointer typedef is the type
    spelling of its last type-reference child, and [void] when it has
    none. *)
Theorem FunctionTypedef_result_type (d : Cursor) (ftd : FunctionTypedef.t) :
  FunctionTypedef_init d = Ok ftd ->
  FunctionTypedef.result_type ftd
  = match last_such (fun c => CursorKind_eqb (kind c) TYPE_REF) (get_children d) with
    | Some c => type_spelling (type_ c)
    | None => "void"
    end.
Proof.
  unfold FunctionTypedef_init, bind.
  pose proof (children_result_type (get_children d) ("void", [])) as Hr.
  destruct (fold_left FunctionTypedef_child (get_children d) ("void", []))
    as [result_type original_parameters].
  simpl in Hr. destruct (index_last original_parameters); [|discriminate].
  destruct (if negb _ then _ else _) as [[w a'] p']. intros [= <-]. exact Hr.
Qed.

Lemma FunctionTypedef_result_type_witness :
  exists ftd, FunctionTypedef_init Sample.natsOnMsgHandler = Ok ftd
              /\ FunctionTypedef.result_type ftd = "void".
Proof.
  eexists. split; [vm_compute; reflexivity|].
  match goal with
  | |- FunctionTypedef.result_type ?ftd = _ =>
      exact (FunctionTypedef_result_type Sample.natsOnMsgHandler ftd eq_refl)
  end.
Defined.

(* ================================================================= *)
(** ** Where a function lands *)

Section Placement.

Variable function_typedef_names : list string.

Let add (f : Function.t) (c : Class.t) : Class.t :=
  Class_add_method c f function_typedef_names.

Lemma find_class_from_names (i : nat) (heap : list Class.t) (f : Function.t) :
  find_class_from i heap f
  = first_prefix_from i (map Class.original_type heap) (Function.original_function f).
Proof.
  revert i; induction heap as [|c heap IH]; intros i; simpl; [reflexivity|].
  now rewrite IH.
Qed.

Lemma first_prefix_from_bound (start : nat) (types : list string) (x : string) (i : nat) :
  first_prefix_from start types x = Some i ->
  start <= i < start + List.length types
  /\ exists t, nth_error types (i - start) = Some t /\ PyStr.startswith x t = true.
Proof.
  revert start; induction types as [|t ts IH]; intros start; simpl; [discriminate|].
  destruct (PyStr.startswith x t) eqn:E.
  - intros [= <-]. split; [lia|]. exists t. now rewrite Nat.sub_diag.
  - intros H. destruct (IH _ H) as [Hb (u & Hu & Hx)]. split; [lia|].
    exists u. split; [|exact Hx].
    replace (i - start) with (S (i - S start)) by lia. exact Hu.
Qed.

Lemma nth_error_update {A : Type} (i j : nat) (g : A -> A) (l : list A) :
  nth_error (update j g l) i
  = if Nat.eqb i j then option_map g (nth_error l i) else nth_error l i.
Proof.
  revert i j; induction l as [|a l IH]; intros i j.
  - destruct i, j; simpl; try reflexivity. now destruct (Nat.eqb i j).
  - destruct j as [|j], i as [|i]; simpl; try reflexivity. apply IH.
Qed.

Lemma update_bare (j : nat) (f : Function.t) (heap : list Class.t) :
  map bare (update j (add f) heap) = map bare heap.
Proof.
  revert j; induction heap as [|c heap IH]; intros [|j]; simpl; try reflexivity.
  now rewrite IH.
Qed.

(** The loop over the functions of a namespace: the free functions and the
    methods it adds, by the position of the class. *)
Lemma assign_fold_at (l : list Function.t) (ns : Namespace.t) (heap : list Class.t) :
  let '(ns', heap') := fold_left (assign_function function_typedef_names) l (ns, heap) in
  let types := map Class.original_type heap in
  Namespace.functions ns'
  = (Namespace.functions ns
     ++ map GlobalFunction_init
            (filter (fun f => unclaimed types (Function.original_function f)) l))%list
  /\ map bare heap' = map bare heap
  /\ forall i,
      names_at heap' i
      = option_map
          (fun old => (old ++ filter (lands_in types i)
                                     (map Function.original_function l))%list)
          (names_at heap i).
Proof.
  revert ns heap; induction l as [|f l IH]; intros ns heap.
  - simpl. rewrite app_nil_r. repeat split.
    intros i. unfold names_at. destruct (nth_error heap i); simpl; [|reflexivity].
    now rewrite app_nil_r.
  - cbn [fold_left assign_function]. unfold find_class.
    rewrite find_class_from_names.
    set (types := map Class.original_type heap).
    destruct (first_prefix_from 0 types (Function.original_function f)) as [j|] eqn:Hj.
    + specialize (IH ns (update j (add f) heap)). unfold add in IH.
      destruct (fold_left _ l _) as [ns' heap'].
      cbv zeta in IH. rewrite update_original_type in IH. fold types in IH.
      destruct IH as (Hf & Hb & Hn). cbv zeta.
      split; [|split].
      * rewrite Hf. cbn [filter]. unfold unclaimed at 2, first_prefix. now rewrite Hj.
      * rewrite Hb. apply update_bare.
      * intros i. rewrite Hn. unfold names_at. rewrite nth_error_update.
        cbn [map filter]. unfold lands_in at 2, first_prefix. rewrite Hj.
        rewrite (Nat.eqb_sym j i).
        destruct (Nat.eqb i j); [|reflexivity].
        destruct (nth_error heap i); simpl; [|reflexivity].
        rewrite map_app, <- app_assoc. simpl.
        now rewrite Method_init_original_function.
    + specialize (IH (Namespace_add_function ns f) heap).
      destruct (fold_left _ l _) as [ns' heap'].
      cbv zeta in IH. fold types in IH.
      destruct IH as (Hf & Hb & Hn). cbv zeta.
      split; [|split].
      * rewrite Hf. cbn [filter Namespace_add_function Namespace.functions].
        unfold unclaimed at 2, first_prefix. rewrite Hj.
        now rewrite <- app_assoc.
      * exact Hb.
      * intros i. rewrite Hn. cbn [map filter].
        unfold lands_in at 2, first_prefix. now rewrite Hj.
Qed.

End Placement.

Lemma Class_init_name (ns ns' : Namespace.t) (td : Typedef.t) :
  Namespace.name ns' = Namespace.name ns -> Class_init ns' td = Class_init ns td.
Proof. unfold Class_init. now intros ->. Qed.

Lemma bare_Class_init (ns : Namespace.t) (l : list Typedef.t) :
  map bare (map (Class_init ns) l) = map (Class_init ns) l.
Proof. rewrite map_map. now apply map_ext. Qed.

Lemma original_type_Class_init (ns : Namespace.t) (l : list Typedef.t) :
  map Class.original_type (map (Class_init ns) l) = map Typedef.name l.
Proof. rewrite map_map. now apply map_ext. Qed.

(** One round of [for ns in namespaces], by what it does to the free
    functions of the namespace and to the classes. *)
Lemma parse_namespace_at (decls : Declarations.t)
      (function_names function_typedef_names : list string)
      (ns : Namespace.t) (heap : list Class.t) :
  let '(ns', heap') :=
    parse_namespace decls function_names function_typedef_names ns heap in
  let n := Namespace.name ns in
  let created := map (Class_init ns) (new_classes decls function_names n) in
  let types := map Class.original_type (heap ++ created) in
  let l := filter (fun f => PyStr.startswith (Function.original_function f) n)
                  (Declarations.functions decls) in
  Namespace.functions ns'
  = (Namespace.functions ns
     ++ map GlobalFunction_init
            (filter (fun f => unclaimed types (Function.original_function f)) l))%list
  /\ map bare heap' = (map bare heap ++ created)%list
  /\ forall i,
      names_at heap' i
      = option_map
          (fun old => (old ++ filter (lands_in types i)
                                     (map Function.original_function l))%list)
          (names_at (heap ++ created) i).
Proof.
  unfold parse_namespace.
  set (ftds := filter _ (Declarations.function_typedefs decls)).
  destruct (attach_fold ftds ns) as ([Hn1 _] & _ & Hf1 & _).
  set (ns1 := fold_left attach_function_typedef ftds ns) in *.
  rewrite Hn1.
  pose proof (promote_fold function_names
                (filter (fun td => PyStr.startswith (Typedef.name td) (Namespace.name ns))
                        (Declarations.typedefs decls)) ns1 heap) as H2.
  destruct (fold_left (promote_typedef function_names) _ (ns1, heap)) as [ns2 heap2].
  destruct H2 as (_ & Hf2 & _ & _ & Hh2).
  fold (new_classes decls function_names (Namespace.name ns)) in Hh2.
  assert (Hcreated : map (Class_init ns1) (new_classes decls function_names
                                                       (Namespace.name ns))
                     = map (Class_init ns) (new_classes decls function_names
                                                        (Namespace.name ns)))
    by (apply map_ext; intros td; now apply Class_init_name).
  rewrite Hcreated in Hh2. subst heap2.
  pose proof (assign_fold_at function_typedef_names
                (filter (fun f => PyStr.startswith (Function.original_function f)
                                                   (Namespace.name ns))
                        (Declarations.functions decls))
                ns2 (heap ++ map (Class_init ns)
                                 (new_classes decls function_names (Namespace.name ns))))
    as H3.
  destruct (fold_left (assign_function function_typedef_names) _ _) as [ns3 heap3].
  cbv zeta in H3. destruct H3 as (Hf3 & Hb3 & Hn3). cbv zeta.
  split; [|split].
  - now rewrite Hf3, Hf2, Hf1.
  - now rewrite Hb3, map_app, bare_Class_init.
  - exact Hn3.
Qed.

Lemma names_at_created (heap : list Class.t) (ns : Namespace.t) (l : list Typedef.t)
      (i : nat) :
  names_at (heap ++ map (Class_init ns) l) i
  = if Nat.ltb i (List.length heap) then names_at heap i
    else if Nat.ltb i (List.length heap + List.length l) then Some [] else None.
Proof.
  unfold names_at. destruct (Nat.ltb_spec i (List.length heap)) as [Hlt|Hge].
  - now rewrite nth_error_app1.
  - rewrite nth_error_app2 by lia. rewrite nth_error_map.
    destruct (Nat.ltb_spec i (List.length heap + List.length l)) as [Hlt|Hge'].
    + destruct (nth_error l (i - List.length heap)) eqn:E; [reflexivity|].
      apply nth_error_None in E. lia.
    + assert (E : nth_error l (i - List.length heap) = None)
        by (apply nth_error_None; lia).
      now rewrite E.
Qed.

(* ================================================================= *)
(** ** The two prefixes keep apart *)

Lemma startswith_transitive (s p q : string) :
  PyStr.startswith s p = true -> PyStr.startswith p q = true ->
  PyStr.startswith s q = true.
Proof.
  intros [t ->]%startswith_inv [u ->]%startswith_inv.
  rewrite append_assoc. apply startswith_app.
Qed.

Lemma nats_not_stan (x : string) :
  PyStr.startswith x "nats" = true -> PyStr.startswith x "stan" = false.
Proof. intros [t ->]%startswith_inv. reflexivity. Qed.

(** No name with the prefix [p] has a type with another prefix [q] as a
    prefix. *)
Lemma first_prefix_from_foreign (p q : string) (i : nat) (types : list string)
      (x : string) :
  (forall y, PyStr.startswith y q = true -> PyStr.startswith y p = false) ->
  Forall (fun t => PyStr.startswith t q = true) types ->
  PyStr.startswith x p = true ->
  first_prefix_from i types x = None.
Proof.
  intros Hpq Htypes Hx. revert i.
  induction Htypes as [|t ts Ht _ IH]; intros i; simpl; [reflexivity|].
  destruct (PyStr.startswith x t) eqn:E; [|apply IH].
  pose proof (startswith_transitive _ _ _ E Ht) as Hq.
  apply Hpq in Hq. congruence.
Qed.

Lemma first_prefix_from_app (i : nat) (t1 t2 : list string) (x : string) :
  first_prefix_from i (t1 ++ t2) x
  = match first_prefix_from i t1 x with
    | Some j => Some j
    | None => first_prefix_from (i + List.length t1) t2 x
    end.
Proof.
  revert i; induction t1 as [|t ts IH]; intros i; simpl.
  - now rewrite Nat.add_0_r.
  - destruct (PyStr.startswith x t); [reflexivity|].
    rewrite IH. now rewrite Nat.add_succ_r.
Qed.

Section TwoRounds.

Variables types1 types2 : list string.
Hypothesis Hnats : Forall (fun t => PyStr.startswith t "nats" = true) types1.
Hypothesis Hstan : Forall (fun t => PyStr.startswith t "stan" = true) types2.

Let types := (types1 ++ types2)%list.
Let k1 := List.length types1.

(** A name with the prefix [nats] meets the classes of [nats] only, a name
    with the prefix [stan] those of [stan] only. *)
Lemma first_prefix_nats (x : string) :
  PyStr.startswith x "nats" = true ->
  first_prefix types x = first_prefix types1 x
  /\ forall j, first_prefix types x = Some j -> j < k1.
Proof.
  intros Hx. unfold first_prefix, types. rewrite first_prefix_from_app.
  rewrite (first_prefix_from_foreign "nats" "stan" _ types2 x); try assumption.
  - split; [now destruct (first_prefix_from 0 types1 x)|].
    intros j Hj. destruct (first_prefix_from 0 types1 x) as [j'|] eqn:E; [|discriminate].
    injection Hj as <-. apply first_prefix_from_bound in E. unfold k1. lia.
  - intros y [t ->]%startswith_inv. reflexivity.
Qed.

Lemma first_prefix_stan (x : string) :
  PyStr.startswith x "stan" = true ->
  first_prefix types1 x = None
  /\ forall j, first_prefix types x = Some j -> k1 <= j.
Proof.
  intros Hx.
  assert (H1 : first_prefix types1 x = None).
  { apply (first_prefix_from_foreign "stan" "nats"); try assumption.
    intros y [t ->]%startswith_inv. reflexivity. }
  split; [exact H1|].
  intros j. unfold first_prefix, types in *. rewrite first_prefix_from_app, H1.
  intros Hj. apply first_prefix_from_bound in Hj. unfold k1. lia.
Qed.

Lemma filter_filter_and {A : Type} (P Q : A -> bool) (l : list A) :
  filter P (filter Q l) = filter (fun a => Q a && P a) l.
Proof.
  induction l as [|a l IH]; simpl; [reflexivity|].
  destruct (Q a); simpl; [|exact IH]. destruct (P a); now rewrite IH.
Qed.

Lemma filter_none {A : Type} (P : A -> bool) (l : list A) :
  (forall a, In a l -> P a = false) -> filter P l = [].
Proof.
  induction l as [|a l IH]; intros H; simpl; [reflexivity|].
  rewrite (H a) by now left. apply IH. intros b Hb. apply H. now right.
Qed.

Variable all : list string.
Hypothesis Hall : forall x, In x all -> recognized x = true.

Let of_nats := filter (fun x => PyStr.startswith x "nats") all.
Let of_stan := filter (fun x => PyStr.startswith x "stan") all.

Lemma unclaimed_nats :
  filter (unclaimed types1) of_nats
  = filter (fun x => PyStr.startswith x "nats" && unclaimed types x) all.
Proof.
  unfold of_nats. rewrite filter_filter_and. apply filter_ext_in. intros x _.
  destruct (PyStr.startswith x "nats") eqn:Hx; [|reflexivity]. simpl.
  unfold unclaimed. now rewrite (proj1 (first_prefix_nats x Hx)).
Qed.

Lemma unclaimed_stan :
  filter (unclaimed types) of_stan
  = filter (fun x => PyStr.startswith x "stan" && unclaimed types x) all.
Proof. unfold of_stan. apply filter_filter_and. Qed.

Lemma lands_first_round (i : nat) :
  i < k1 ->
  (filter (lands_in types1 i) of_nats ++ filter (lands_in types i) of_stan)%list
  = filter (lands_in types i) all.
Proof.
  intros Hi. unfold of_nats, of_stan. rewrite !filter_filter_and.
  rewrite (filter_none (fun x => PyStr.startswith x "stan" && lands_in types i x) all),
    app_nil_r.
  - apply filter_ext_in. intros x Hx.
    apply Hall, recognized_iff in Hx as [Hx|Hx].
    + rewrite Hx. simpl. unfold lands_in.
      now rewrite (proj1 (first_prefix_nats x Hx)).
    + destruct (PyStr.startswith x "nats") eqn:Hn;
        [apply nats_not_stan in Hn; congruence|]. simpl.
      unfold lands_in. destruct (first_prefix types x) as [j|] eqn:E; [|reflexivity].
      apply (proj2 (first_prefix_stan x Hx)) in E.
      symmetry. apply Nat.eqb_neq. lia.
  - intros x Hx. destruct (PyStr.startswith x "stan") eqn:Hs; [|reflexivity]. simpl.
    unfold lands_in. destruct (first_prefix types x) as [j|] eqn:E; [|reflexivity].
    apply (proj2 (first_prefix_stan x Hs)) in E. apply Nat.eqb_neq. lia.
Qed.

Lemma lands_second_round (i : nat) :
  k1 <= i ->
  filter (lands_in types i) of_stan = filter (lands_in types i) all.
Proof.
  intros Hi. unfold of_stan. rewrite filter_filter_and.
  apply filter_ext_in. intros x Hx.
  apply Hall, recognized_iff in Hx as [Hx|Hx].
  - rewrite (nats_not_stan x Hx). simpl.
    unfold lands_in. destruct (first_prefix types x) as [j|] eqn:E; [|reflexivity].
    apply (proj2 (first_prefix_nats x Hx)) in E.
    symmetry. apply Nat.eqb_neq. lia.
  - now rewrite Hx.
Qed.

End TwoRounds.

(* ================================================================= *)
(** ** The structure of the model *)

Lemma map_filter_comm {A B : Type} (g : A -> B) (P : B -> bool) (l : list A) :
  map g (filter (fun a => P (g a)) l) = filter P (map g l).
Proof.
  induction l as [|a l IH]; simpl; [reflexivity|].
  destruct (P (g a)); simpl; now rewrite IH.
Qed.

Section Structure.

Variable decls : Declarations.t.
Hypothesis Hrecognized :
  forall f, In f (Declarations.functions decls) ->
            recognized (Function.original_function f) = true.

Let fs := Declarations.functions decls.
Let names := map Function.original_function fs.
Let new1 := new_classes decls names "nats".
Let new2 := new_classes decls names "stan".
Let types := (map Typedef.name new1 ++ map Typedef.name new2)%list.

Lemma new_classes_prefix (n : string) :
  Forall (fun t => PyStr.startswith t n = true)
         (map Typedef.name (new_classes decls names n)).
Proof.
  apply Forall_forall. intros t Ht. apply in_map_iff in Ht as (td & <- & Htd).
  unfold new_classes in Htd. apply filter_In in Htd as [Htd _].
  now apply filter_In in Htd as [_ Htd].
Qed.

Lemma group_structure :
  exists nats stan : Namespace.t,
    Model.namespaces (group decls) = [nats; stan]
    /\ (Namespace.name nats = "nats" /\ Namespace.name stan = "stan")
    /\ map bare (Model.heap (group decls))
       = (map (Class_init (Namespace_init "nats" None)) new1
          ++ map (Class_init (Namespace_init "stan" None)) new2)%list
    /\ (Namespace.functions nats
        = map GlobalFunction_init
              (filter (fun f => PyStr.startswith (Function.original_function f) "nats"
                                && unclaimed types (Function.original_function f)) fs)
        /\ Namespace.functions stan
           = map GlobalFunction_init
                 (filter (fun f => PyStr.startswith (Function.original_function f) "stan"
                                   && unclaimed types (Function.original_function f)) fs))
    /\ (forall i, names_at (Model.heap (group decls)) i
                  = if Nat.ltb i (List.length types)
                    then Some (filter (lands_in types i) names)
                    else None)
    /\ (Model.classes (group decls) nats
        = firstn (List.length new1) (Model.heap (group decls))
        /\ Model.classes (group decls) stan
           = skipn (List.length new1) (Model.heap (group decls))).
Proof.
  pose proof (new_classes_prefix "nats") as Hnats.
  pose proof (new_classes_prefix "stan") as Hstan.
  fold new1 in Hnats. fold new2 in Hstan.
  unfold group. cbn [parse_namespaces initial_namespaces].
  fold fs. fold names.
  set (ftdn := map FunctionTypedef.original_name _).
  set (nats0 := Namespace_init "nats" None).
  set (stan0 := Namespace_init "stan" (Some "defined(NATS_HAS_STREAMING)")).
  pose proof (parse_namespace_spec decls names ftdn nats0 []) as S1.
  pose proof (parse_namespace_at decls names ftdn nats0 []) as A1.
  destruct (parse_namespace decls names ftdn nats0 []) as [ns1 h1].
  pose proof (parse_namespace_spec decls names ftdn stan0 h1) as S2.
  pose proof (parse_namespace_at decls names ftdn stan0 h1) as A2.
  destruct (parse_namespace decls names ftdn stan0 h1) as [ns2 h2].
  cbv zeta in S1, S2, A1, A2.
  change (Namespace.name nats0) with "nats" in *.
  change (Namespace.name stan0) with "stan" in *.
  fold new1 in S1, A1. fold new2 in S2, A2.
  destruct S1 as ([Hn1 _] & _ & Hc1 & Ho1 & _).
  destruct S2 as ([Hn2 _] & _ & Hc2 & Ho2 & _).
  destruct A1 as (Hf1 & Hb1 & Ha1). destruct A2 as (Hf2 & Hb2 & Ha2).
  cbn [app map List.length Namespace.functions Namespace.classes nats0 stan0
           Namespace_init] in Hf1, Hb1, Ha1, Hc1, Ho1, Hf2, Hc2.
  rewrite original_type_Class_init in Hf1, Ha1.
  rewrite map_app, original_type_Class_init, Ho1 in Hf2, Ha2.
  fold types in Hf2, Ha2.
  assert (Hlen1 : List.length h1 = List.length new1).
  { rewrite <- (length_map bare), Hb1, length_map. reflexivity. }
  assert (Hcreated : map (Class_init stan0) new2
                     = map (Class_init (Namespace_init "stan" None)) new2)
    by (apply map_ext; intros td; now apply Class_init_name).
  assert (Hheap : map bare h2
                  = (map (Class_init (Namespace_init "nats" None)) new1
                     ++ map (Class_init (Namespace_init "stan" None)) new2)%list)
    by (now rewrite Hb2, Hb1, Hcreated).
  assert (Hlen2 : List.length h2 = List.length new1 + List.length new2).
  { rewrite <- (length_map bare), Hheap, length_app, !length_map. reflexivity. }
  exists ns1, ns2. cbn [Model.namespaces Model.heap].
  split; [reflexivity|]. split; [now split|]. split; [exact Hheap|].
  split; [split|split; [|split]].
  - rewrite Hf1, filter_filter_and. f_equal. apply filter_ext_in. intros f _.
    destruct (PyStr.startswith (Function.original_function f) "nats") eqn:Hx;
      [|reflexivity].
    simpl. unfold unclaimed, types.
    now rewrite (proj1 (first_prefix_nats _ _ Hstan _ Hx)).
  - rewrite Hf2, filter_filter_and. reflexivity.
  - intros i. rewrite Ha2, names_at_created, Hlen1.
    assert (Hall : forall x, In x names -> recognized x = true).
    { intros x Hx. apply in_map_iff in Hx as (f & <- & Hf). now apply Hrecognized. }
    assert (Hlent : List.length types = List.length new1 + List.length new2)
      by (unfold types; now rewrite length_app, !length_map).
    rewrite Hlent.
    pose proof (map_filter_comm Function.original_function
                                (fun x => PyStr.startswith x "nats")
                                (Declarations.functions decls)) as Mn.
    pose proof (map_filter_comm Function.original_function
                                (fun x => PyStr.startswith x "stan")
                                (Declarations.functions decls)) as Ms.
    cbv beta in Mn, Ms.
    destruct (Nat.ltb_spec i (List.length new1)) as [Hlt|Hge].
    + rewrite Ha1. unfold names_at.
      destruct (nth_error (map (Class_init nats0) new1) i) eqn:E.
      * cbn [option_map]. destruct (Nat.ltb_spec i (List.length new1 + List.length new2));
          [|lia].
        f_equal.
        assert (Ht : Class.methods t = []).
        { apply nth_error_In, in_map_iff in E as (td & <- & _). reflexivity. }
        rewrite Ht. cbn [map app].
        rewrite Mn, Ms.
        apply lands_first_round; try assumption.
        now rewrite length_map.
      * apply nth_error_None in E. rewrite length_map in E. lia.
    + destruct (Nat.ltb_spec i (List.length new1 + List.length new2)) as [Hlt|Hge'];
        [|reflexivity].
      cbn [option_map app]. f_equal.
      rewrite Ms.
      apply lands_second_round; try assumption.
      now rewrite length_map.
  - unfold Model.classes. cbn [Model.heap]. rewrite Hc1.
    now rewrite lookup_seq.
  - unfold Model.classes. cbn [Model.heap]. rewrite Hc2, Hlen1, lookup_seq.
    apply firstn_all2. rewrite length_skipn. lia.
Qed.

End Structure.

(* ================================================================= *)
(** ** The model of a header *)

Lemma normalized_from_filter {A : Type} (init : Cursor -> Result A)
      (P : Cursor -> bool) (Q : A -> bool) (ds : list Cursor) (xs : list A) :
  (forall d x, init d = Ok x -> Q x = P d) ->
  normalized_from init ds xs ->
  normalized_from init (filter P ds) (filter Q xs).
Proof.
  intros HPQ. induction 1 as [|d x ds xs Hdx _ IH]; simpl; [constructor|].
  rewrite (HPQ d x Hdx). destruct (P d); [now constructor|exact IH].
Qed.

Lemma filter_map_comm {A B : Type} (g : A -> B) (P : B -> bool) (l : list A) :
  filter P (map g l) = map g (filter (fun a => P (g a)) l).
Proof. symmetry. apply map_filter_comm. Qed.

(** The typedefs [parse] promotes in the namespace [n], from the
    declarations. *)
Lemma new_classes_decls (cursor : Cursor) (decls : Declarations.t) (n : string) :
  Declarations.typedefs decls
  = map Typedef_init (filter is_plain_typedef (get_children cursor)) ->
  new_classes decls (declared_functions cursor) n
  = map Typedef_init (promoted_decls (get_children cursor) n).
Proof.
  intros Htd. unfold new_classes, promoted_decls, declared_functions. rewrite Htd.
  rewrite !filter_map_comm, !filter_filter_and. f_equal.
  apply filter_ext. intros d. cbn [Typedef_init Typedef.name].
  now rewrite promoted_has_destructor, andb_assoc.
Qed.

Lemma parse_recognized (cursor : Cursor) (fs : list Function.t) :
  normalized_from Function_init (filter is_function_decl (get_children cursor)) fs ->
  forall f, In f fs -> recognized (Function.original_function f) = true.
Proof.
  intros Hfun f Hf.
  destruct (normalized_from_In_r _ _ _ _ Hfun Hf) as (d & Hd & Hinit).
  apply filter_In in Hd as [_ Hk].
  destruct (Function_init_inv _ _ Hinit) as (-> & _).
  now apply is_function_decl_recognized.
Qed.

Lemma class_of_Class_init (n : string) (l : list Cursor) :
  map (Class_init (Namespace_init n None)) (map Typedef_init l) = map (class_of n) l.
Proof. rewrite map_map. now apply map_ext. Qed.

(** The model of a header, in terms of its declarations. *)
Lemma parse_structure (cursor : Cursor) (model : Model.t) :
  parse cursor = Ok model ->
  let l := get_children cursor in
  let types := class_types model in
  exists nats stan : Namespace.t,
    Model.namespaces model = [nats; stan]
    /\ (Namespace.name nats = "nats" /\ Namespace.name stan = "stan")
    /\ map bare (Model.heap model)
       = (map (class_of "nats") (promoted_decls l "nats")
          ++ map (class_of "stan") (promoted_decls l "stan"))%list
    /\ (forall ns, In ns (Model.namespaces model) ->
                   exists fs,
                     normalized_from Function_init
                                     (free_decls l types (Namespace.name ns)) fs
                     /\ Namespace.functions ns = map GlobalFunction_init fs)
    /\ (forall i c, nth_error (Model.heap model) i = Some c ->
                    map Method.original_function (Class.methods c)
                    = filter (lands_in types i) (declared_functions cursor))
    /\ (Model.classes model nats
        = firstn (List.length (promoted_decls l "nats")) (Model.heap model)
        /\ Model.classes model stan
           = skipn (List.length (promoted_decls l "nats")) (Model.heap model)).
Proof.
  intros H l types. apply parse_inv in H as (decls & -> & Hfun & Htd & _).
  destruct (group_structure decls (parse_recognized cursor _ Hfun))
    as (nats & stan & Hns & [Hn1 Hn2] & Hheap & [Hf1 Hf2] & Hat & [Hc1 Hc2]).
  rewrite (normalized_function_names _ _ Hfun) in Hheap, Hf1, Hf2, Hat, Hc1, Hc2.
  fold (declared_functions cursor) in Hheap, Hf1, Hf2, Hat, Hc1, Hc2.
  rewrite (new_classes_decls cursor decls "nats" Htd),
    (new_classes_decls cursor decls "stan" Htd) in Hheap, Hf1, Hf2, Hat.
  rewrite (new_classes_decls cursor decls "nats" Htd) in Hc1, Hc2.
  rewrite !class_of_Class_init in Hheap. rewrite !length_map in Hc1, Hc2.
  fold l in Hheap, Hf1, Hf2, Hat, Hc1, Hc2.
  assert (Htypes : types = (map Typedef.name (map Typedef_init (promoted_decls l "nats"))
                            ++ map Typedef.name
                                 (map Typedef_init (promoted_decls l "stan")))%list).
  { unfold types, class_types.
    replace (map Class.original_type (Model.heap (group decls)))
      with (map Class.original_type (map bare (Model.heap (group decls))))
      by (rewrite map_map; now apply map_ext).
    rewrite Hheap, map_app, !map_map. reflexivity. }
  rewrite <- Htypes in Hf1, Hf2, Hat.
  exists nats, stan.
  split; [exact Hns|]. split; [now split|]. split; [exact Hheap|].
  split; [|split; [|now split]].
  - assert (Hfree : forall n,
               normalized_from
                 Function_init (free_decls l types n)
                 (filter (fun f => PyStr.startswith (Function.original_function f) n
                                   && unclaimed types (Function.original_function f))
                         (Declarations.functions decls))).
    { intros n. unfold free_decls.
      replace (filter (fun d => is_function_decl d && PyStr.startswith (spelling d) n
                                && unclaimed types (spelling d)) l)
        with (filter (fun d => PyStr.startswith (spelling d) n
                               && unclaimed types (spelling d))
                     (filter is_function_decl l)).
      - apply normalized_from_filter; [|exact Hfun].
        intros d f Hinit. now destruct (Function_init_inv _ _ Hinit) as (-> & _).
      - rewrite filter_filter_and. apply filter_ext. intros d.
        now rewrite andb_assoc. }
    rewrite Hns. intros ns [<-|[<-|[]]].
    + rewrite Hn1. eexists. split; [apply Hfree|exact Hf1].
    + rewrite Hn2. eexists. split; [apply Hfree|exact Hf2].
  - intros i c Hc. specialize (Hat i). unfold names_at in Hat. rewrite Hc in Hat.
    cbn [option_map] in Hat. destruct (Nat.ltb i (List.length types)); [|discriminate].
    now injection Hat.
Qed.

(** X8.  Without their methods, the class objects of the model are the
    plain typedefs with a destructor, those with the prefix [nats] first
    and those with the prefix [stan] after them, each group in the order
    of the header; a class carries the name and the comments of its
    typedef, the name of its namespace and, as its short name, the name of
    the typedef without its first four characters. *)
Theorem Model_classes (cursor : Cursor) (model : Model.t) :
  parse cursor = Ok model ->
  map bare (Model.heap model)
  = (map (class_of "nats") (promoted_decls (get_children cursor) "nats")
     ++ map (class_of "stan") (promoted_decls (get_children cursor) "stan"))%list.
Proof.
  intros H. destruct (parse_structure cursor model H) as (? & ? & _ & _ & Hheap & _).
  exact Hheap.
Qed.

Lemma Model_classes_witness :
  exists model,
    parse Sample.nats_h = Ok model
    /\ map bare (Model.heap model)
       = [ class_of "nats" (Sample.alias "natsConnection");
           class_of "nats" (Sample.alias "natsSubscription");
           class_of "nats" (Sample.alias "natsMsg");
           class_of "nats" (Sample.alias "natsFoo") ].
Proof.
  eexists. split; [vm_compute; reflexivity|].
  match goal with
  | |- map bare (Model.heap ?model) = _ =>
      assert (Hparse : parse Sample.nats_h = Ok model) by (vm_compute; reflexivity);
      exact (Model_classes Sample.nats_h model Hparse)
  end.
Defined.

(** X9.  The original type name of every class of the model is the name
    of its namespace, [nats] or [stan], followed by its short name. *)
Theorem Class_name_parts (cursor : Cursor) (model : Model.t) (c : Class.t) :
  parse cursor = Ok model ->
  In c (Model.heap model) ->
  Class.original_type c = Class.namespace c ++ Class.name c
  /\ (Class.namespace c = "nats" \/ Class.namespace c = "stan").
Proof.
  intros H Hc.
  destruct (parse_structure cursor model H) as (nats & stan & _ & _ & Hheap & _).
  assert (Hb : In (bare c) (map bare (Model.heap model))) by now apply in_map.
  rewrite Hheap in Hb.
  assert (Hcase : exists n d, bare c = class_of n d
                              /\ PyStr.startswith (spelling d) n = true
                              /\ (n = "nats" \/ n = "stan")).
  { apply in_app_iff in Hb as [Hb|Hb]; apply in_map_iff in Hb as (d & Hd & Hin);
      apply filter_In in Hin as [_ Hin];
      apply andb_true_iff in Hin as [Hin _]; apply andb_true_iff in Hin as [_ Hin];
      [exists "nats", d|exists "stan", d]; repeat split; auto. }
  destruct Hcase as (n & d & Hbare & Hstart & Hn).
  assert (Ho : Class.original_type c = spelling d)
    by (change (Class.original_type (bare c) = spelling d); now rewrite Hbare).
  assert (Hns : Class.namespace c = n)
    by (change (Class.namespace (bare c) = n); now rewrite Hbare).
  assert (Hnm : Class.name c = PyStr.drop 4 (spelling d))
    by (change (Class.name (bare c) = PyStr.drop 4 (spelling d)); now rewrite Hbare).
  rewrite Ho, Hns, Hnm. split; [|exact Hn].
  apply startswith_inv in Hstart as [t ->].
  destruct Hn as [->| ->]; reflexivity.
Qed.

Lemma Class_name_parts_witness :
  exists model c,
    parse Sample.nats_h = Ok model
    /\ nth_error (Model.heap model) 2 = Some c
    /\ Class.original_type c = Class.namespace c ++ Class.name c.
Proof.
  eexists. eexists. split; [vm_compute; reflexivity|].
  split; [vm_compute; reflexivity|].
  refine (proj1 (Class_name_parts Sample.nats_h _ _ _ _)).
  - vm_compute. reflexivity.
  - right. right. left. reflexivity.
Defined.

(** X10.  Every class object of the model belongs to exactly one
    namespace: the classes of [nats] followed by those of [stan] are the
    class objects of the model, and the namespace a class records is the
    one that holds it. *)
Theorem Model_partition (cursor : Cursor) (model : Model.t) :
  parse cursor = Ok model ->
  flat_map (Model.classes model) (Model.namespaces model) = Model.heap model
  /\ forall ns c, In ns (Model.namespaces model) -> In c (Model.classes model ns) ->
                  Class.namespace c = Namespace.name ns.
Proof.
  intros H.
  destruct (parse_structure cursor model H)
    as (nats & stan & Hns & [Hn1 Hn2] & Hheap & _ & _ & [Hc1 Hc2]).
  set (k := List.length (promoted_decls (get_children cursor) "nats")) in *.
  split.
  - rewrite Hns. simpl. rewrite app_nil_r, Hc1, Hc2. apply firstn_skipn.
  - assert (Hbare : forall c l, In c l -> In (bare c) (map bare l))
      by (intros; now apply in_map).
    assert (Hk : List.length (map (class_of "nats")
                                  (promoted_decls (get_children cursor) "nats")) = k)
      by now rewrite length_map.
    rewrite Hns. intros ns c [<-|[<-|[]]] Hc.
    + rewrite Hc1 in Hc. apply Hbare in Hc.
      rewrite <- firstn_map, Hheap, firstn_app, Hk, Nat.sub_diag in Hc.
      rewrite firstn_all2, app_nil_r in Hc by lia.
      apply in_map_iff in Hc as (d & Hd & _).
      change (Class.namespace (bare c) = Namespace.name nats).
      now rewrite <- Hd, Hn1.
    + rewrite Hc2 in Hc. apply Hbare in Hc.
      rewrite <- skipn_map, Hheap, skipn_app, Hk, Nat.sub_diag in Hc.
      rewrite skipn_all2 in Hc by lia. simpl in Hc.
      apply in_map_iff in Hc as (d & Hd & _).
      change (Class.namespace (bare c) = Namespace.name stan).
      now rewrite <- Hd, Hn2.
Qed.

Lemma Model_partition_witness :
  exists model,
    parse Sample.nats_h = Ok model
    /\ flat_map (Model.classes model) (Model.namespaces model) = Model.heap model.
Proof.
  eexists. split; [vm_compute; reflexivity|].
  match goal with
  | |- flat_map (Model.classes ?model) _ = _ =>
      assert (Hparse : parse Sample.nats_h = Ok model) by (vm_compute; reflexivity);
      exact (proj1 (Model_partition Sample.nats_h model Hparse))
  end.
Defined.

(** X11.  The methods of the class at position [i] are made of the
    functions whose name has the original type of that class as a prefix
    and the original type of no earlier class, in the order of the header:
    the first class that matches a function takes it. *)
Theorem Methods_first_match (cursor : Cursor) (model : Model.t) (i : nat) (c : Class.t) :
  parse cursor = Ok model ->
  nth_error (Model.heap model) i = Some c ->
  map Method.original_function (Class.methods c)
  = filter (lands_in (class_types model) i) (declared_functions cursor)
  /\ forall m, In m (Class.methods c) ->
               PyStr.startswith (Method.original_function m) (Class.original_type c) = true
               /\ forall j c', j < i -> nth_error (Model.heap model) j = Some c' ->
                               PyStr.startswith (Method.original_function m)
                                                (Class.original_type c') = false.
Proof.
  intros H Hc.
  destruct (parse_structure cursor model H) as (? & ? & _ & _ & _ & _ & Hat & _).
  specialize (Hat i c Hc). split; [exact Hat|].
  intros m Hm.
  assert (Hin : In (Method.original_function m)
                   (filter (lands_in (class_types model) i) (declared_functions cursor)))
    by (rewrite <- Hat; now apply in_map).
  apply filter_In in Hin as [_ Hland]. unfold lands_in in Hland.
  destruct (first_prefix (class_types model) (Method.original_function m)) as [j|] eqn:E;
    [|discriminate].
  apply Nat.eqb_eq in Hland. subst j. unfold first_prefix in E.
  split.
  - destruct (first_prefix_from_bound _ _ _ _ E) as [_ (t & Ht & Hx)].
    rewrite Nat.sub_0_r in Ht. unfold class_types in Ht.
    rewrite nth_error_map, Hc in Ht. now injection Ht as <-.
  - intros j c' Hj Hc'. unfold class_types in E.
    assert (Hsplit : Model.heap model
                     = (firstn j (Model.heap model) ++ c'
                        :: skipn (S j) (Model.heap model))%list).
    { rewrite <- (firstn_skipn j (Model.heap model)) at 1. f_equal.
      clear -Hc'. revert j Hc'.
      induction (Model.heap model) as [|a l IH]; intros [|j] Hc'; simpl in *;
        try discriminate.
      - now injection Hc' as ->.
      - now apply IH. }
    assert (Hlen : List.length (firstn j (Model.heap model)) = j).
    { apply firstn_length_le. apply Nat.lt_le_incl, nth_error_Some. congruence. }
    rewrite Hsplit, map_app, first_prefix_from_app in E. cbn [map first_prefix_from] in E.
    destruct (first_prefix_from 0 _ _) as [j'|] eqn:E1.
    + injection E as <-. apply first_prefix_from_bound in E1 as [Hb _].
      rewrite length_map, Hlen in Hb. lia.
    + destruct (PyStr.startswith (Method.original_function m) (Class.original_type c'));
        [|reflexivity].
      injection E as E. rewrite length_map, Hlen in E. lia.
Qed.

Lemma Methods_first_match_witness :
  exists model c,
    parse Sample.nats_h = Ok model
    /\ nth_error (Model.heap model) 2 = Some c
    /\ map Method.original_function (Class.methods c)
       = ["natsMsg_Destroy"; "natsMsg_Equal"].
Proof.
  eexists. eexists. split; [vm_compute; reflexivity|].
  split; [vm_compute; reflexivity|].
  refine (eq_trans (proj1 (Methods_first_match Sample.nats_h _ 2 _ _ _)) _).
  - vm_compute. reflexivity.
  - vm_compute. reflexivity.
  - vm_compute. reflexivity.
Defined.

(** X12.  The free functions of a namespace are made of the functions
    with its prefix whose name has the original type of no class as a
    prefix, in the order of the header. *)
Theorem Free_functions (cursor : Cursor) (model : Model.t) (ns : Namespace.t) :
  parse cursor = Ok model ->
  In ns (Model.namespaces model) ->
  exists fs,
    normalized_from Function_init
                    (free_decls (get_children cursor) (class_types model)
                                (Namespace.name ns)) fs
    /\ Namespace.functions ns = map GlobalFunction_init fs.
Proof.
  intros H Hns.
  destruct (parse_structure cursor model H) as (? & ? & _ & _ & _ & Hfree & _).
  now apply Hfree.
Qed.

Lemma Free_functions_witness :
  exists model ns,
    parse (Sample.header [Sample.func "nats_Open" "natsStatus" []; Sample.alias "natsMsg";
                          Sample.destroy "natsMsg"]) = Ok model
    /\ In ns (Model.namespaces model)
    /\ exists fs,
        normalized_from Function_init
                        [Sample.func "nats_Open" "natsStatus" []] fs
        /\ Namespace.functions ns = map GlobalFunction_init fs.
Proof.
  eexists. eexists. split; [vm_compute; reflexivity|].
  split; [left; reflexivity|].
  match goal with
  | |- exists fs, _ /\ Namespace.functions ?ns = _ =>
      exact (Free_functions
               (Sample.header [Sample.func "nats_Open" "natsStatus" [];
                               Sample.alias "natsMsg"; Sample.destroy "natsMsg"])
               _ ns eq_refl (or_introl eq_refl))
  end.
Defined.

(** X13.  The callback descriptors of a namespace are made of the
    function-pointer typedefs with its prefix and the closure convention,
    in the order of the header. *)
Theorem Callback_descriptors (cursor : Cursor) (model : Model.t) (ns : Namespace.t) :
  parse cursor = Ok model ->
  In ns (Model.namespaces model) ->
  normalized_from FunctionTypedef_init
                  (callback_decls (get_children cursor) (Namespace.name ns))
                  (Namespace.function_typedefs ns).
Proof.
  intros H Hns. apply parse_inv in H as (decls & -> & _ & _ & Hftd).
  destruct (group_spec decls)
    as (nats & stan & Hnss & [Hn1 _] & [Hn2 _] & [Ht1 Ht2] & _).
  assert (Hcb : forall n,
             normalized_from FunctionTypedef_init
                             (callback_decls (get_children cursor) n)
                             (new_callbacks decls n)).
  { intros n. unfold callback_decls, new_callbacks.
    replace (filter (fun d => is_function_typedef d && PyStr.startswith (spelling d) n
                              && has_closure_convention d) (get_children cursor))
      with (filter has_closure_convention
                   (filter (fun d => PyStr.startswith (spelling d) n)
                           (filter is_function_typedef (get_children cursor)))).
    - apply normalized_from_filter.
      + intros d g Hinit.
        now destruct (FunctionTypedef_init_inv _ _ Hinit) as (_ & _ & _ & -> & _).
      + apply normalized_from_filter; [|exact Hftd].
        intros d g Hinit.
        now destruct (FunctionTypedef_init_inv _ _ Hinit) as (-> & _).
    - rewrite !filter_filter_and. apply filter_ext. intros d.
      now rewrite andb_assoc. }
  rewrite Hnss in Hns. destruct Hns as [<-|[<-|[]]].
  - rewrite Hn1, Ht1. apply Hcb.
  - rewrite Hn2, Ht2. apply Hcb.
Qed.

Lemma Callback_descriptors_witness :
  exists model ns,
    parse Sample.nats_h = Ok model
    /\ In ns (Model.namespaces model)
    /\ normalized_from FunctionTypedef_init
                       [Sample.natsConnectionHandler; Sample.natsOnMsgHandler]
                       (Namespace.function_typedefs ns).
Proof.
  eexists. eexists. split; [vm_compute; reflexivity|].
  split; [left; reflexivity|].
  match goal with
  | |- normalized_from _ _ (Namespace.function_typedefs ?ns) =>
      exact (Callback_descriptors Sample.nats_h _ ns eq_refl (or_introl eq_refl))
  end.
Defined.

(* ================================================================= *)
(** ** Every function once *)

Section Counting.

Variable function_typedef_names : list string.

Lemma update_method_count (i : nat) (f : Function.t) (heap : list Class.t) :
  i < List.length heap ->
  List.length (flat_map Class.methods
                 (update i (fun c => Class_add_method c f function_typedef_names) heap))
  = S (List.length (flat_map Class.methods heap)).
Proof.
  revert i; induction heap as [|c heap IH]; intros i Hi; simpl in Hi; [lia|].
  destruct i as [|i]; simpl.
  - rewrite !length_app. simpl. lia.
  - rewrite !length_app, IH by lia. lia.
Qed.

Lemma assign_fold_count (l : list Function.t) (ns : Namespace.t) (heap : list Class.t) :
  let '(ns', heap') := fold_left (assign_function function_typedef_names) l (ns, heap) in
  List.length (Namespace.functions ns') + List.length (flat_map Class.methods heap')
  = List.length (Namespace.functions ns) + List.length (flat_map Class.methods heap)
    + List.length l.
Proof.
  revert ns heap; induction l as [|f l IH]; intros ns heap; simpl; [lia|].
  destruct (find_class heap f) as [i|] eqn:Hfind.
  - specialize (IH ns (update i (fun c => Class_add_method c f function_typedef_names)
                              heap)).
    destruct (fold_left _ l _) as [ns' heap'].
    rewrite update_method_count in IH
      by (apply find_class_from_bound in Hfind; simpl in Hfind; lia).
    lia.
  - specialize (IH (Namespace_add_function ns f) heap).
    destruct (fold_left _ l _) as [ns' heap'].
    simpl in IH. rewrite length_app in IH. simpl in IH. lia.
Qed.

Lemma parse_namespace_count (decls : Declarations.t) (function_names : list string)
      (ns : Namespace.t) (heap : list Class.t) :
  let '(ns', heap') :=
    parse_namespace decls function_names function_typedef_names ns heap in
  List.length (Namespace.functions ns') + List.length (flat_map Class.methods heap')
  = List.length (Namespace.functions ns) + List.length (flat_map Class.methods heap)
    + List.length (filter (fun f => PyStr.startswith (Function.original_function f)
                                                     (Namespace.name ns))
                          (Declarations.functions decls)).
Proof.
  unfold parse_namespace.
  set (ftds := filter _ (Declarations.function_typedefs decls)).
  destruct (attach_fold ftds ns) as ([Hn1 _] & _ & Hf1 & _).
  set (ns1 := fold_left attach_function_typedef ftds ns) in *.
  rewrite Hn1.
  pose proof (promote_fold function_names
                (filter (fun td => PyStr.startswith (Typedef.name td) (Namespace.name ns))
                        (Declarations.typedefs decls)) ns1 heap) as H2.
  destruct (fold_left (promote_typedef function_names) _ (ns1, heap)) as [ns2 heap2].
  destruct H2 as (_ & Hf2 & _ & _ & Hh2).
  pose proof (assign_fold_count
                (filter (fun f => PyStr.startswith (Function.original_function f)
                                                   (Namespace.name ns))
                        (Declarations.functions decls)) ns2 heap2) as H3.
  destruct (fold_left (assign_function function_typedef_names) _ (ns2, heap2))
    as [ns3 heap3].
  rewrite H3, Hf2, Hf1, Hh2, flat_map_app, length_app.
  assert (Hnew : forall l, flat_map Class.methods (map (Class_init ns1) l) = []).
  { induction l as [|td l IH]; simpl; [reflexivity|exact IH]. }
  rewrite Hnew. simpl. lia.
Qed.

End Counting.

Lemma length_by_prefix (fs : list Function.t) :
  (forall f, In f fs -> recognized (Function.original_function f) = true) ->
  List.length (filter (fun f => PyStr.startswith (Function.original_function f) "nats") fs)
  + List.length (filter (fun f => PyStr.startswith (Function.original_function f) "stan")
                        fs)
  = List.length fs.
Proof.
  induction fs as [|f fs IH]; intros H; [reflexivity|].
  assert (IH' := IH (fun g Hg => H g (or_intror Hg))).
  pose proof (H f (or_introl eq_refl)) as Hf.
  apply recognized_iff in Hf as [Hf|Hf]; cbn [filter].
  - rewrite Hf, (nats_not_stan _ Hf). cbn [List.length]. lia.
  - rewrite Hf.
    destruct (PyStr.startswith (Function.original_function f) "nats") eqn:Hn;
      [apply nats_not_stan in Hn; congruence|].
    cbn [List.length]. lia.
Qed.

(** X14.  Every function declaration with a recognized prefix becomes one
    binding: the methods and the free functions of the model are together
    as many as those declarations. *)
Theorem Functions_counted (cursor : Cursor) (model : Model.t) :
  parse cursor = Ok model ->
  List.length (all_methods model) + List.length (all_free_functions model)
  = List.length (declared_functions cursor).
Proof.
  intros H. apply parse_inv in H as (decls & -> & Hfun & _ & _).
  unfold declared_functions. rewrite length_map.
  rewrite (Forall2_length Hfun).
  rewrite <- (length_by_prefix _ (parse_recognized cursor _ Hfun)).
  unfold all_methods, all_free_functions, group.
  cbn [parse_namespaces initial_namespaces].
  set (names := map Function.original_function _).
  set (ftdn := map FunctionTypedef.original_name _).
  pose proof (parse_namespace_count ftdn decls names (Namespace_init "nats" None) [])
    as H1.
  destruct (parse_namespace decls names ftdn (Namespace_init "nats" None) [])
    as [ns1 h1].
  pose proof (parse_namespace_count
                ftdn decls names
                (Namespace_init "stan" (Some "defined(NATS_HAS_STREAMING)")) h1) as H2.
  destruct (parse_namespace decls names ftdn _ h1) as [ns2 h2].
  cbn [Model.heap Model.namespaces flat_map Namespace_init Namespace.functions
                  Namespace.name List.length] in *.
  rewrite app_nil_r, length_app. lia.
Qed.

Lemma Functions_counted_witness :
  exists model,
    parse Sample.nats_h = Ok model
    /\ List.length (all_methods model) + List.length (all_free_functions model) = 10.
Proof.
  eexists. split; [vm_compute; reflexivity|].
  match goal with
  | |- List.length (all_methods ?model) + _ = _ =>
      assert (Hparse : parse Sample.nats_h = Ok model) by (vm_compute; reflexivity);
      exact (Functions_counted Sample.nats_h model Hparse)
  end.
Defined.

(* ================================================================= *)
(** ** The destructor of a class *)

Lemma length_app_string (s t : string) :
  String.length (s ++ t) = String.length s + String.length t.
Proof. induction s as [|c s IH]; simpl; [reflexivity|]. now rewrite IH. Qed.

Lemma drop_app_length (s t : string) : PyStr.drop (String.length s) (s ++ t) = t.
Proof. induction s as [|c s IH]; simpl; [now destruct t|exact IH]. Qed.

Lemma endswith_app (s p : string) : PyStr.endswith (s ++ p) p = true.
Proof.
  unfold PyStr.endswith. rewrite length_app_string.
  replace (String.length s + String.length p - String.length p) with (String.length s)
    by lia.
  rewrite drop_app_length, String.eqb_refl, andb_true_r.
  apply Nat.leb_le. lia.
Qed.

Lemma Method_init_is_destructor
      (function : Function.t) (this : Class.t) (function_typedefs : list string) :
  Method.is_destructor (Method_init function this function_typedefs)
  = PyStr.endswith (Function.original_function function) "_Destroy".
Proof. unfold Method_init. now rewrite (proj2 (run_function _ _ _ _)). Qed.

Lemma first_prefix_from_found (start : nat) (types : list string) (x t : string) :
  In t types -> PyStr.startswith x t = true ->
  exists i, first_prefix_from start types x = Some i.
Proof.
  revert start; induction types as [|u types IH]; intros start [] Hx; simpl.
  - subst u. rewrite Hx. now exists start.
  - destruct (PyStr.startswith x u); [now exists start|]. now apply IH.
Qed.

(** X15.  The destructor of every class of the model is among the methods
    of the model, flagged as a destructor: it is a method of the first
    class whose original type is a prefix of its name. *)
Theorem Destructor_is_method (cursor : Cursor) (model : Model.t) (c : Class.t) :
  parse cursor = Ok model ->
  In c (Model.heap model) ->
  exists c' m,
    In c' (Model.heap model)
    /\ In m (Class.methods c')
    /\ Method.original_function m = Class.original_type c ++ "_Destroy"
    /\ Method.is_destructor m = true
    /\ PyStr.startswith (Class.original_type c ++ "_Destroy") (Class.original_type c')
       = true.
Proof.
  intros H Hc.
  destruct (parse_structure cursor model H) as (nats & stan & _ & _ & Hheap & _ & Hat & _).
  set (x := Class.original_type c ++ "_Destroy").
  (* the destructor is a function declaration of the header *)
  assert (Hdecl : In x (declared_functions cursor)).
  { assert (Hb : In (bare c) (map bare (Model.heap model))) by now apply in_map.
    rewrite Hheap in Hb.
    assert (Hd : exists n d, bare c = class_of n d
                             /\ has_destructor (get_children cursor) d = true).
    { apply in_app_iff in Hb as [Hb|Hb]; apply in_map_iff in Hb as (d & Hd & Hin);
        apply filter_In in Hin as [_ Hin]; apply andb_true_iff in Hin as [_ Hin];
        [exists "nats", d|exists "stan", d]; split; auto. }
    destruct Hd as (n & d & Hbare & Hd).
    assert (Ho : Class.original_type c = spelling d)
      by (change (Class.original_type (bare c) = spelling d); now rewrite Hbare).
    unfold has_destructor in Hd. apply existsb_exists in Hd as (f & Hf & Hname).
    apply andb_true_iff in Hname as [Hfun Hname]. apply String.eqb_eq in Hname.
    unfold x, declared_functions. rewrite Ho, <- Hname.
    apply in_map, filter_In. now split. }
  (* some class takes it *)
  destruct (first_prefix_from_found 0 (class_types model) x (Class.original_type c))
    as [i Hi].
  { unfold class_types. now apply in_map. }
  { unfold x. apply startswith_app. }
  destruct (first_prefix_from_bound _ _ _ _ Hi) as [_ (t & Ht & Hx)].
  rewrite Nat.sub_0_r in Ht. unfold class_types in Ht. rewrite nth_error_map in Ht.
  destruct (nth_error (Model.heap model) i) as [c'|] eqn:Hc'; [|discriminate].
  injection Ht as <-.
  assert (Hin : In x (map Method.original_function (Class.methods c'))).
  { rewrite (Hat i c' Hc'). apply filter_In. split; [exact Hdecl|].
    unfold lands_in, first_prefix. rewrite Hi. apply Nat.eqb_refl. }
  apply in_map_iff in Hin as (m & Hm & Hin).
  assert (Hc'' : In c' (Model.heap model)) by (eapply nth_error_In; eassumption).
  exists c', m. repeat split; try assumption.
  destruct (model_methods cursor model c' m H Hc'' Hin) as (d & f & _ & _ & _ & Hinit).
  rewrite Hinit, Method_init_is_destructor.
  rewrite Hinit, Method_init_original_function in Hm. rewrite Hm. apply endswith_app.
Qed.

Lemma Destructor_is_method_witness :
  exists model c,
    parse Sample.nats_h = Ok model
    /\ nth_error (Model.heap model) 2 = Some c
    /\ exists c' m,
        In c' (Model.heap model)
        /\ In m (Class.methods c')
        /\ Method.original_function m = Class.original_type c ++ "_Destroy"
        /\ Method.is_destructor m = true.
Proof.
  eexists. eexists. split; [vm_compute; reflexivity|].
  split; [vm_compute; reflexivity|].
  match goal with
  | |- exists c' m, In c' (Model.heap ?model) /\ _
                    /\ _ = Class.original_type ?c ++ _ /\ _ =>
      assert (Hparse : parse Sample.nats_h = Ok model) by (vm_compute; reflexivity);
      assert (Hc : In c (Model.heap model)) by (right; right; left; reflexivity);
      destruct (Destructor_is_method Sample.nats_h model c Hparse Hc)
        as (c' & m & Hc' & Hm & Hname & Hflag & _)
  end.
  exists c', m. repeat split; assumption.
Defined.

(* ================================================================= *)
(** ** The declarations [parse] passes over *)

Lemma group_same_input (st st' : Declarations.t) :
  same_input st st' -> group st = group st'.
Proof.
  destruct st as [f e t g], st' as [f' e' t' g'].
  intros (Hf & Ht & Hg). simpl in Hf, Ht, Hg. subst f' t' g'. reflexivity.
Qed.

Lemma parse_declaration_same_input (st st' : Declarations.t) (d : Cursor) :
  same_input st st' ->
  match parse_declaration st d, parse_declaration st' d with
  | Ok a, Ok b => same_input a b
  | Raise e, Raise e' => e = e'
  | _, _ => False
  end.
Proof.
  intros (Hf & Ht & Hg). rewrite !parse_declaration_cases. unfold bind.
  destruct (is_function_decl d).
  { destruct (Function_init d); [|reflexivity].
    unfold same_input; simpl. now rewrite Hf, Ht, Hg. }
  destruct (is_plain_typedef d).
  { unfold same_input; simpl. now rewrite Hf, Ht, Hg. }
  destruct (is_enum_typedef d).
  { unfold same_input; simpl. now rewrite Hf, Ht, Hg. }
  destruct (is_function_typedef d).
  { destruct (FunctionTypedef_init d); [|reflexivity].
    unfold same_input; simpl. now rewrite Hf, Ht, Hg. }
  now repeat split.
Qed.

Lemma parse_declaration_passes (st : Declarations.t) (d : Cursor) :
  relevant d = false ->
  exists st', parse_declaration st d = Ok st' /\ same_input st st'.
Proof.
  unfold relevant. intros [[Hf Ht]%orb_false_iff Hg]%orb_false_iff.
  rewrite parse_declaration_cases, Hf, Ht, Hg.
  destruct (is_enum_typedef d); eexists; (split; [reflexivity|]); now repeat split.
Qed.

Lemma for_each_relevant (l : list Cursor) (st st' : Declarations.t) :
  same_input st st' ->
  match for_each parse_declaration (filter relevant l) st,
        for_each parse_declaration l st' with
  | Ok a, Ok b => same_input a b
  | Raise e, Raise e' => e = e'
  | _, _ => False
  end.
Proof.
  revert st st'; induction l as [|d l IH]; intros st st' Hst; cbn [filter].
  - exact Hst.
  - destruct (relevant d) eqn:Hd; cbn [for_each]; unfold bind.
    + pose proof (parse_declaration_same_input st st' d Hst) as H.
      destruct (parse_declaration st d) as [a|e], (parse_declaration st' d) as [b|e'];
        try contradiction; [now apply IH|exact H].
    + destruct (parse_declaration_passes st' d Hd) as (b & -> & Hb).
      apply IH. destruct Hst as (Hf & Ht & Hg), Hb as (Hf' & Ht' & Hg').
      repeat split; congruence.
Qed.

(** X16.  [parse] reads the functions, the plain typedefs and the
    function-pointer typedefs with a recognized prefix and nothing else: a
    header without its other declarations (those without a recognized
    prefix, whatever their shape, the enum typedefs, the declarations of
    another kind) gives the same result, the same model or the same
    error. *)
Theorem parse_relevant (cursor cursor' : Cursor) :
  get_children cursor' = filter relevant (get_children cursor) ->
  parse cursor' = parse cursor.
Proof.
  intros H. unfold parse. rewrite H.
  pose proof (for_each_relevant (get_children cursor) (Declarations.mk [] [] [] [])
                                (Declarations.mk [] [] [] [])) as Hr.
  destruct (for_each parse_declaration (filter relevant (get_children cursor)) _)
    as [a|e], (for_each parse_declaration (get_children cursor) _) as [b|e'];
    unfold bind.
  - f_equal. apply group_same_input. apply Hr. now repeat split.
  - exfalso. apply Hr. now repeat split.
  - exfalso. apply Hr. now repeat split.
  - f_equal. apply Hr. now repeat split.
Qed.

Lemma parse_relevant_witness :
  parse (Sample.header [Sample.alias "natsMsg"; Sample.destroy "natsMsg"])
  = parse (Sample.header [Sample.enum "natsStatus"; Sample.alias "natsMsg";
                          Sample.func "open" "int" []; Sample.destroy "natsMsg"]).
Proof.
  apply parse_relevant. reflexivity.
Defined.
